(** * ccmem: confidence lifecycle and CLAUDE.md reconciliation

    A shallow embedding of the three scripts of the repository

    - [plugins/ccmem/scripts/update-confidence.py]  (module [UpdateConfidence])
    - [ccmem/scripts/sync-claude-md.py]             (module [SyncClaudeMd])
    - [plugins/ccmem/scripts/promote-workflow.py]   (module [PromoteWorkflow])

    and the properties of the specification stated over it.

    Conventions of the embedding.

    - A Python [float] is a finite binary64 number ([Py.float]): it is
      written as a decimal, as in the source text or in a JSON file, and its
      value is the binary64 number nearest to what is written; every
      operation rounds its exact result to binary64 again ([Py.binary64]).
      Infinities, NaN and the sign of zero are not modelled, nor are
      magnitudes of [2^1024] and more.  Python [int] values are [Z].
    - [x ** n] on a float is the [pow] of the C library, whose last bit
      the language does not fix; it is a parameter of the decay pass.
    - The quotients of two counters that [SyncClaudeMd] and
      [PromoteWorkflow] compare with a threshold, and these thresholds, are
      exact rationals.
    - A Python [str] is a [string] whose characters are read as the code
      points U+0000 to U+00FF.
    - A JSON object with optional keys is a record whose optional keys are
      [option] fields; [d.get(k, v)] is [default v (k d)].
    - Instants (ISO-8601 strings in the files) are microseconds since the
      epoch, in [Z]; the time stamps of the feedback log stay strings, since
      the code compares them as strings. *)

From Stdlib Require Import QArith Qminmax Qabs Qpower Qround ZArith Lia Lqa Bool Ascii String.
From stdpp Require Import gmap strings list.

(** ** Python primitives *)

Module Py.

(** [round(x)] on an exact value: nearest integer, ties to even. *)
Definition round_half_even (q : Q) : Z :=
  let n := Qnum q in
  let d := Z.pos (Qden q) in
  let f := (n / d)%Z in
  match (2 * (n mod d) ?= d)%Z with
  | Lt => f
  | Gt => (f + 1)%Z
  | Eq => if Z.even f then f else (f + 1)%Z
  end.

(** [a < b], [a <= b] and [a > b] on numbers, as booleans. *)
Definition ltb (a b : Q) : bool := negb (Qle_bool b a).
Definition leb (a b : Q) : bool := Qle_bool a b.
Definition gtb (a b : Q) : bool := ltb b a.

(** *** Floats *)

(** [2^e]. *)
Definition pow2 (e : Z) : Q := (2 ^ e)%Q.

(** [floor(log2 q)] for [q > 0]. *)
Definition ilog2 (q : Q) : Z :=
  let k := (Z.log2 (Qnum q) - Z.log2 (Z.pos (Qden q)))%Z in
  if Qle_bool (pow2 k) q then k else (k - 1)%Z.

(** The exponent of the unit in the last place of the binary64 numbers
    around [q > 0]: 53 significant bits, and no exponent below -1074. *)
Definition last_place (q : Q) : Z := Z.max (ilog2 q - 52) (-1074).

(** The binary64 number nearest to [q > 0], ties to the even significand. *)
Definition nearest_pos (q : Q) : Q :=
  let e := last_place q in
  Qred (inject_Z (round_half_even (q / pow2 e)) * pow2 e).

(** The binary64 number nearest to [q]: what an arithmetic operation with
    the exact result [q] returns, and what the decimal [q] is read as. *)
Definition binary64 (q : Q) : Q :=
  match (q ?= 0)%Q with
  | Eq => 0%Q
  | Gt => nearest_pos q
  | Lt => (- nearest_pos (- q))%Q
  end.

(** A [float], as it is written, and its value. *)
Record float := Float { written : Q }.

Definition value (x : float) : Q := binary64 (written x).

(** [a + b], [a - b], [a * b] and [abs(a)] on floats. *)
Definition fadd (a b : float) : float := Float (value a + value b).
Definition fsub (a b : float) : float := Float (value a - value b).
Definition fmul (a b : float) : float := Float (value a * value b).
Definition fabs (a : float) : float := Float (Qabs (value a)).

(** [p / t] on integers. *)
Definition truediv (p t : Z) : float := Float (inject_Z p / inject_Z t).

(** [min(a, b)] and [max(a, b)]: the first argument unless the second is
    smaller, or larger. *)
Definition fmin (a b : float) : float :=
  if ltb (value b) (value a) then b else a.
Definition fmax (a b : float) : float :=
  if ltb (value a) (value b) then b else a.

(** [round(x, 3)]: the value of [x] rounded to three decimals, ties to
    even, and read as a float again. *)
Definition round3 (x : float) : float :=
  Float (inject_Z (round_half_even (value x * 1000)) / 1000).

(** Truth value of a number: [if x:]. *)
Definition truthy (a : Q) : bool := negb (Qeq_bool a 0).

(** [timedelta.days] of the difference of two instants (floor division,
    as [timedelta] normalises). *)
Definition microseconds_per_day : Z := 86400000000.
Definition timedelta_days (now earlier : Z) : Z :=
  ((now - earlier) / microseconds_per_day)%Z.

(** *** Strings *)

Local Open Scope string_scope.

Definition code (c : ascii) : nat := nat_of_ascii c.

Definition in_range (lo hi : nat) (c : ascii) : bool :=
  (lo <=? code c)%nat && (code c <=? hi)%nat.

Definition newline : ascii := ascii_of_nat 10.

(** [c.isspace()], which is also the class [\s] of [re]. *)
Definition is_space (c : ascii) : bool :=
  in_range 9 13 c || in_range 28 32 c || in_range 133 133 c || in_range 160 160 c.

(** The class [\w] of [re]. *)
Definition is_word (c : ascii) : bool :=
  in_range 48 57 c || in_range 65 90 c || in_range 95 95 c || in_range 97 122 c
  || in_range 170 170 c || in_range 178 179 c || in_range 181 181 c
  || in_range 185 186 c || in_range 188 190 c || in_range 192 214 c
  || in_range 216 246 c || in_range 248 255 c.

(** [c.lower()]. *)
Definition lower_char (c : ascii) : ascii :=
  if in_range 65 90 c || in_range 192 214 c || in_range 216 222 c
  then ascii_of_nat (code c + 32)
  else c.

(** [s.lower()]. *)
Fixpoint lower (s : string) : string :=
  match s with
  | "" => ""
  | String c r => String (lower_char c) (lower r)
  end.

(** [s.lstrip()], [s.rstrip()] and [s.strip()]. *)
Fixpoint lstrip (s : string) : string :=
  match s with
  | "" => ""
  | String c r => if is_space c then lstrip r else s
  end.

Fixpoint rstrip (s : string) : string :=
  match s with
  | "" => ""
  | String c r =>
      match rstrip r with
      | "" => if is_space c then "" else String c ""
      | r' => String c r'
      end
  end.

Definition strip (s : string) : string := rstrip (lstrip s).

(** [s.split('\n')]: never empty. *)
Fixpoint split_lines (s : string) : list string :=
  match s with
  | "" => [""]
  | String c r =>
      if Ascii.eqb c newline then "" :: split_lines r
      else match split_lines r with
           | [] => [String c ""]
           | line :: lines => String c line :: lines
           end
  end.

(** ['\n'.join(lines)]. *)
Fixpoint join_lines (lines : list string) : string :=
  match lines with
  | [] => ""
  | [line] => line
  | line :: rest => line ++ String newline (join_lines rest)
  end.

(** [s[:n]] and [s[n:]] for [n >= 0]. *)
Fixpoint take_chars (n : nat) (s : string) : string :=
  match n, s with
  | S k, String c r => String c (take_chars k r)
  | _, _ => ""
  end.

Fixpoint drop_chars (n : nat) (s : string) : string :=
  match n, s with
  | S k, String _ r => drop_chars k r
  | _, _ => s
  end.

(** [s[i:j]]. *)
Definition slice (i j : nat) (s : string) : string :=
  take_chars (j - i) (drop_chars i s).

(** The rest of [s] after the prefix [p], when [s.startswith(p)]. *)
Fixpoint after_prefix (p s : string) : option string :=
  match p, s with
  | "", _ => Some s
  | String a p', String b s' =>
      if Ascii.eqb a b then after_prefix p' s' else None
  | _, _ => None
  end.

(** [needle in s]. *)
Fixpoint contains (needle s : string) : bool :=
  match after_prefix needle s with
  | Some _ => true
  | None => match s with
            | "" => false
            | String _ r => contains needle r
            end
  end.

(** [max(strings)], the first of the largest; [None] on an empty sequence,
    where Python raises. *)
Fixpoint max_string (l : list string) : option string :=
  match l with
  | [] => None
  | x :: rest =>
      match max_string rest with
      | None => Some x
      | Some y => if String.ltb x y then Some y else Some x
      end
  end.

(** [all(cls(c) for c in s)]. *)
Fixpoint all_chars (cls : ascii -> bool) (s : string) : bool :=
  match s with
  | "" => true
  | String c r => cls c && all_chars cls r
  end.

(** Truth value of a string. *)
Definition nonempty (s : string) : bool := negb (String.eqb s "").

End Py.

Coercion Py.value : Py.float >-> Q.

Arguments Py.binary64 : simpl never.
Arguments Py.value : simpl never.

(** ** Regular expressions ([re])

    The patterns of the scripts are sequences of literals, repeated character
    classes, anchors and groups; [match_items] is the backtracking matcher of
    [re] on such sequences, trying the repetition counts in the order [re]
    does (longest first when greedy, shortest first when lazy). *)

Module Re.
Import Py.
Local Open Scope string_scope.

Inductive item :=
| Lit (s : string)
| Rep (cls : ascii -> bool) (lo : nat) (hi : option nat) (greedy : bool)
| Bol
| Eol
| WordBoundary
| GroupOpen (g : nat)
| GroupClose (g : nat).

(** The span of each closed group: [(g, (start, end))]. *)
Definition spans := list (nat * (nat * nat)).

(** A match: where it starts, where it ends, and its groups. *)
Record Match := { m_start : nat; m_end : nat; m_groups : spans }.

(** How many leading characters of [s] are in [cls], up to [hi]. *)
Fixpoint run_length (cls : ascii -> bool) (hi : option nat) (s : string) : nat :=
  match s with
  | "" => 0
  | String c r =>
      match hi with
      | Some 0 => 0
      | Some (S h) => if cls c then S (run_length cls (Some h) r) else 0
      | None => if cls c then S (run_length cls None r) else 0
      end
  end.

(** The counts from [lo] to [n] in the order they are tried. *)
Definition counts (lo n : nat) (greedy : bool) : list nat :=
  let up := seq lo (S n - lo) in
  if greedy then rev up else up.

(** The character before position [k] of [s], [prev] being the one before
    its position 0. *)
Fixpoint char_before (k : nat) (prev : option ascii) (s : string) : option ascii :=
  match k, s with
  | S k', String c r => char_before k' (Some c) r
  | _, _ => prev
  end.

Definition first_char (s : string) : option ascii :=
  match s with
  | "" => None
  | String c _ => Some c
  end.

Definition word_at (c : option ascii) : bool :=
  match c with
  | Some c => is_word c
  | None => false
  end.

Fixpoint first_some {A B} (f : A -> option B) (l : list A) : option B :=
  match l with
  | [] => None
  | x :: rest =>
      match f x with
      | Some y => Some y
      | None => first_some f rest
      end
  end.

Definition lookup_nat {A} (g : nat) (l : list (nat * A)) : option A :=
  option_map snd (List.find (fun p => Nat.eqb (fst p) g) l).

(** [^] and [$], with and without [re.MULTILINE]. *)
Definition at_bol (multiline : bool) (prev : option ascii) : bool :=
  match prev with
  | None => true
  | Some c => multiline && Ascii.eqb c newline
  end.

Definition at_eol (multiline : bool) (s : string) : bool :=
  match s with
  | "" => true
  | String c r =>
      Ascii.eqb c newline && (multiline || String.eqb r "")
  end.

(** The items matched at offset [pos], where [s] is the rest of the subject
    and [prev] the character before it: the end of the match and the groups. *)
Fixpoint match_items (multiline : bool) (items : list item)
    (prev : option ascii) (pos : nat) (s : string)
    (opens : list (nat * nat)) (groups : spans) {struct items}
    : option (nat * spans) :=
  match items with
  | [] => Some (pos, groups)
  | Lit l :: rest =>
      match after_prefix l s with
      | Some s' =>
          match_items multiline rest (char_before (String.length l) prev s)
            (pos + String.length l) s' opens groups
      | None => None
      end
  | Rep cls lo hi greedy :: rest =>
      first_some
        (fun k =>
           match_items multiline rest (char_before k prev s) (pos + k)
             (drop_chars k s) opens groups)
        (counts lo (run_length cls hi s) greedy)
  | Bol :: rest =>
      if at_bol multiline prev
      then match_items multiline rest prev pos s opens groups
      else None
  | Eol :: rest =>
      if at_eol multiline s
      then match_items multiline rest prev pos s opens groups
      else None
  | WordBoundary :: rest =>
      if xorb (word_at prev) (word_at (first_char s))
      then match_items multiline rest prev pos s opens groups
      else None
  | GroupOpen g :: rest =>
      match_items multiline rest prev pos s ((g, pos) :: opens) groups
  | GroupClose g :: rest =>
      match lookup_nat g opens with
      | Some start =>
          match_items multiline rest prev pos s opens ((g, (start, pos)) :: groups)
      | None => None
      end
  end.

Definition match_at (multiline : bool) (items : list item)
    (prev : option ascii) (pos : nat) (s : string) : option Match :=
  match match_items multiline items prev pos s [] [] with
  | Some (e, groups) => Some {| m_start := pos; m_end := e; m_groups := groups |}
  | None => None
  end.

(** [re.match(pattern, s)]. *)
Definition re_match (multiline : bool) (items : list item) (s : string)
    : option Match :=
  match_at multiline items None 0 s.

(** [re.search(pattern, s)]: the leftmost match. *)
Fixpoint search_from (multiline : bool) (items : list item)
    (prev : option ascii) (pos : nat) (s : string) : option Match :=
  match match_at multiline items prev pos s with
  | Some m => Some m
  | None =>
      match s with
      | "" => None
      | String c r => search_from multiline items (Some c) (S pos) r
      end
  end.

Definition re_search (multiline : bool) (items : list item) (s : string)
    : option Match :=
  search_from multiline items None 0 s.

(** [re.finditer(pattern, s)]: the matches from left to right, each search
    starting where the match before ended; [skip] counts the characters still
    inside the last match. (No pattern of the scripts matches the empty
    string.) *)
Fixpoint finditer_from (multiline : bool) (items : list item) (skip : nat)
    (prev : option ascii) (pos : nat) (s : string) : list Match :=
  match skip with
  | S k =>
      match s with
      | "" => []
      | String c r => finditer_from multiline items k (Some c) (S pos) r
      end
  | O =>
      match match_at multiline items prev pos s with
      | Some m =>
          m :: match s with
               | "" => []
               | String c r =>
                   finditer_from multiline items (m_end m - pos - 1)
                     (Some c) (S pos) r
               end
      | None =>
          match s with
          | "" => []
          | String c r => finditer_from multiline items 0 (Some c) (S pos) r
          end
      end
  end.

Definition finditer (multiline : bool) (items : list item) (s : string)
    : list Match :=
  finditer_from multiline items 0 None 0 s.

(** [m.group(0)] and [m.group(g)] on the subject [s]. *)
Definition group0 (s : string) (m : Match) : string :=
  slice (m_start m) (m_end m) s.

Definition group (g : nat) (s : string) (m : Match) : string :=
  match lookup_nat g (m_groups m) with
  | Some (i, j) => slice i j s
  | None => ""
  end.

(** [re.sub(pattern, '', s)]: the subject without its matches. *)
Fixpoint remove_from (multiline : bool) (items : list item) (skip : nat)
    (prev : option ascii) (pos : nat) (s : string) : string :=
  match s with
  | "" => ""
  | String c r =>
      match skip with
      | S k => remove_from multiline items k (Some c) (S pos) r
      | O =>
          match match_at multiline items prev pos s with
          | Some m =>
              if (m_end m <=? pos)%nat
              then String c (remove_from multiline items 0 (Some c) (S pos) r)
              else remove_from multiline items (m_end m - pos - 1) (Some c) (S pos) r
          | None => String c (remove_from multiline items 0 (Some c) (S pos) r)
          end
      end
  end.

Definition sub_empty (multiline : bool) (items : list item) (s : string) : string :=
  remove_from multiline items 0 None 0 s.

(** Character classes. *)
Definition any_char (c : ascii) : bool := true.
Definition not_newline (c : ascii) : bool := negb (Ascii.eqb c newline).
Definition is_char (a : ascii) (c : ascii) : bool := Ascii.eqb a c.
Definition one_of (l : string) (c : ascii) : bool :=
  contains (String c "") l.
Definition none_of (l : string) (c : ascii) : bool := negb (one_of l c).
Definition ascii_lower (c : ascii) : bool := in_range 97 122 c.

End Re.

(** ** The record store ([memory_lib]) *)

Module MemoryLib.

Record Content := {
  title : option string;
  description : option string;
  action : option string;
  examples : list string
}.

Record Metadata := {
  confidence : Py.float;
  status : option string;
  positive_reinforcement : option Z;
  negative_reinforcement : option Z;
  access_count : option Z;
  created_at : option Z;
  last_accessed : option Z
}.

Record Memory := {
  id : string;
  type : option string;
  content : Content;
  metadata : Metadata;
  scope_path : option string
}.

Definition set_metadata (m : Memory) (meta : Metadata) : Memory :=
  {| id := id m; type := type m; content := content m;
     metadata := meta; scope_path := scope_path m |}.

Definition set_confidence (meta : Metadata) (c : Py.float) : Metadata :=
  {| confidence := c; status := status meta;
     positive_reinforcement := positive_reinforcement meta;
     negative_reinforcement := negative_reinforcement meta;
     access_count := access_count meta;
     created_at := created_at meta;
     last_accessed := last_accessed meta |}.

Definition set_status (meta : Metadata) (s : string) : Metadata :=
  {| confidence := confidence meta; status := Some s;
     positive_reinforcement := positive_reinforcement meta;
     negative_reinforcement := negative_reinforcement meta;
     access_count := access_count meta;
     created_at := created_at meta;
     last_accessed := last_accessed meta |}.

Definition set_positive_reinforcement (meta : Metadata) (n : Z) : Metadata :=
  {| confidence := confidence meta; status := status meta;
     positive_reinforcement := Some n;
     negative_reinforcement := negative_reinforcement meta;
     access_count := access_count meta;
     created_at := created_at meta;
     last_accessed := last_accessed meta |}.

Definition set_negative_reinforcement (meta : Metadata) (n : Z) : Metadata :=
  {| confidence := confidence meta; status := status meta;
     positive_reinforcement := positive_reinforcement meta;
     negative_reinforcement := Some n;
     access_count := access_count meta;
     created_at := created_at meta;
     last_accessed := last_accessed meta |}.

Definition set_access (meta : Metadata) (now : Z) (n : Z) : Metadata :=
  {| confidence := confidence meta; status := status meta;
     positive_reinforcement := positive_reinforcement meta;
     negative_reinforcement := negative_reinforcement meta;
     access_count := Some n;
     created_at := created_at meta;
     last_accessed := Some now |}.

(** One entry of the summary index. *)
Record IndexEntry := {
  entry_id : string;
  entry_confidence : Py.float;
  entry_last_accessed : option Z;
  entry_access_count : option Z
}.

(** [index["memories"]]: the global list and, per project hash, the value
    of [project.get("memories", [])], in the order of the dictionary. *)
Record Index := {
  index_global : list IndexEntry;
  index_projects : list (string * list IndexEntry)
}.

Record Config := {
  confidence_decay_days : option Z;
  min_confidence : option Py.float
}.

(** The files the scripts work on. *)
Record Store := {
  memories : gmap string Memory;
  index : Index;
  config : Config
}.

Definition set_memories (st : Store) (ms : gmap string Memory) : Store :=
  {| memories := ms; index := index st; config := config st |}.

Definition set_index (st : Store) (ix : Index) : Store :=
  {| memories := memories st; index := ix; config := config st |}.

(** Modelled from the spec: [load_memory] of [memory_lib] is not part of
    the sources; the store keeps one record per id, and loading an unknown
    id gives nothing. *)
Definition load_memory (memory_id : string) (st : Store) : option Memory :=
  memories st !! memory_id.

(** Modelled from the spec: [get_memory_path] followed by [json.dump];
    the record file of [memory_id] is replaced. *)
Definition write_memory (memory_id : string) (m : Memory) (st : Store) : Store :=
  set_memories st (<[memory_id := m]> (memories st)).

(** Modelled from the spec: [load_index] and [save_index] read and
    replace the index file. *)
Definition load_index (st : Store) : Index := index st.
Definition save_index (ix : Index) (st : Store) : Store := set_index st ix.

(** Modelled from the spec: [load_config]. *)
Definition load_config (st : Store) : Config := config st.

End MemoryLib.

(** ** update-confidence.py *)

Module UpdateConfidence.
Import MemoryLib.
Local Open Scope Q_scope.

(** The outcome rule, the explicit delta and the access tracking of
    [adjust_confidence], on the metadata of the loaded record. *)
Definition adjust_metadata (outcome : string) (confidence_delta : Py.float)
    (now : Z) (meta : Metadata) : Metadata :=
  let meta1 :=
    if String.eqb outcome "accepted" then
      let meta' :=
        set_confidence meta
          (Py.fmin (Py.Float 1) (Py.fadd (confidence meta) (Py.Float 0.1))) in
      set_positive_reinforcement meta'
        (default 0%Z (positive_reinforcement meta') + 1)%Z
    else if String.eqb outcome "rejected" then
      let meta' :=
        set_confidence meta
          (Py.fmax (Py.Float 0.1) (Py.fsub (confidence meta) (Py.Float 0.2))) in
      let meta'' :=
        set_negative_reinforcement meta'
          (default 0%Z (negative_reinforcement meta') + 1)%Z in
      if Py.ltb (confidence meta'') (Py.Float 0.3)
      then set_status meta'' "under_review"
      else meta''
    else if String.eqb outcome "superseded" then
      set_status meta "superseded"
    else meta in
  let meta2 :=
    if Py.truthy confidence_delta
    then set_confidence meta1
           (Py.fmin (Py.Float 1)
              (Py.fmax (Py.Float 0.1)
                 (Py.fadd (confidence meta1) confidence_delta)))
    else meta1 in
  set_access meta2 now (default 0%Z (access_count meta2) + 1)%Z.

Definition sync_entry (meta : Metadata) (entry : IndexEntry) : IndexEntry :=
  {| entry_id := entry_id entry;
     entry_confidence := confidence meta;
     entry_last_accessed := last_accessed meta;
     entry_access_count := access_count meta |}.

(** The [for entry in ...: if entry["id"] == memory_id: ...; break] loop:
    the first entry of that id is brought up to date; [None] when no entry
    has the id. *)
Fixpoint update_first (memory_id : string) (meta : Metadata)
    (entries : list IndexEntry) : option (list IndexEntry) :=
  match entries with
  | [] => None
  | entry :: rest =>
      if String.eqb (entry_id entry) memory_id
      then Some (sync_entry meta entry :: rest)
      else option_map (cons entry) (update_first memory_id meta rest)
  end.

Fixpoint update_first_project (memory_id : string) (meta : Metadata)
    (projects : list (string * list IndexEntry))
    : option (list (string * list IndexEntry)) :=
  match projects with
  | [] => None
  | (h, entries) :: rest =>
      match update_first memory_id meta entries with
      | Some entries' => Some ((h, entries') :: rest)
      | None =>
          option_map (cons (h, entries))
            (update_first_project memory_id meta rest)
      end
  end.

Definition update_index (memory_id : string) (meta : Metadata)
    (ix : Index) : Index :=
  match update_first memory_id meta (index_global ix) with
  | Some g => {| index_global := g; index_projects := index_projects ix |}
  | None =>
      match update_first_project memory_id meta (index_projects ix) with
      | Some ps => {| index_global := index_global ix; index_projects := ps |}
      | None => ix
      end
  end.

(** [adjust_confidence(memory_id, outcome, confidence_delta)], run at the
    instant [now]: the returned flag and the files afterwards. *)
Definition adjust_confidence (memory_id outcome : string)
    (confidence_delta : Py.float) (now : Z) (st : Store) : bool * Store :=
  match load_memory memory_id st with
  | None => (false, st)
  | Some memory =>
      let meta := adjust_metadata outcome confidence_delta now (metadata memory) in
      let st1 := write_memory memory_id (set_metadata memory meta) st in
      let ix := update_index memory_id meta (load_index st1) in
      (true, save_index ix st1)
  end.

(** *** Decay *)

Record DecayStats := {
  processed : Z;
  decayed : Z;
  archived : Z;
  unchanged : Z
}.

Definition stats0 : DecayStats :=
  {| processed := 0; decayed := 0; archived := 0; unchanged := 0 |}.

Definition incr_processed (s : DecayStats) : DecayStats :=
  {| processed := processed s + 1; decayed := decayed s;
     archived := archived s; unchanged := unchanged s |}.
Definition incr_decayed (s : DecayStats) : DecayStats :=
  {| processed := processed s; decayed := decayed s + 1;
     archived := archived s; unchanged := unchanged s |}.
Definition incr_archived (s : DecayStats) : DecayStats :=
  {| processed := processed s; decayed := decayed s;
     archived := archived s + 1; unchanged := unchanged s |}.
Definition incr_unchanged (s : DecayStats) : DecayStats :=
  {| processed := processed s; decayed := decayed s;
     archived := archived s; unchanged := unchanged s + 1 |}.

(** [meta.get("status") in ("archived", "superseded")]. *)
Definition is_retired (meta : Metadata) : bool :=
  match status meta with
  | Some s => String.eqb s "archived" || String.eqb s "superseded"
  | None => false
  end.

(** [days_since_access]: whole days since [last_accessed], or since
    [created_at] when that is absent, or [decay_days] when both are. *)
Definition days_since_access (decay_days : Z) (now : Z) (meta : Metadata) : Z :=
  match last_accessed meta with
  | Some t => Py.timedelta_days now t
  | None =>
      match created_at meta with
      | Some t => Py.timedelta_days now t
      | None => decay_days
      end
  end.

Definition config_decay_days (cfg : Config) : Z :=
  default 30%Z (confidence_decay_days cfg).
Definition config_min_confidence (cfg : Config) : Py.float :=
  default (Py.Float 0.1) (min_confidence cfg).

Section Decay.

(** [x ** n] for a float [x] and an integer [n]: [float.__pow__], which
    calls the [pow] of the C library. *)
Variable pow : Py.float -> Z -> Py.float.

(** [decay_factor]: [0.99 ** days], scaled by the share of positive
    feedback when [access_count] (1 when absent) is positive. *)
Definition decay_factor (days : Z) (meta : Metadata) : Py.float :=
  let base := pow (Py.Float 0.99) days in
  let positive := default 0%Z (positive_reinforcement meta) in
  let total := default 1%Z (access_count meta) in
  if (0 <? total)%Z then
    let positive_ratio := Py.truediv positive total in
    Py.fmul base (Py.fadd (Py.Float 0.5) (Py.fmul (Py.Float 0.5) positive_ratio))
  else base.

(** [new_confidence] after the floor. *)
Definition decayed_confidence (min_conf : Py.float) (days : Z)
    (meta : Metadata) : Py.float :=
  Py.fmax min_conf (Py.fmul (confidence meta) (decay_factor days meta)).

(** The inner function [process_memory(memory_id, entry)] of
    [apply_confidence_decay], run at the instant [now]; the index entry is
    updated in place, so it is returned with the files and the counters. *)
Definition process_memory (dry_run : bool) (now : Z)
    (memory_id : string) (entry : IndexEntry)
    (acc : Store * DecayStats) : IndexEntry * (Store * DecayStats) :=
  let '(st, stats) := acc in
  let cfg := load_config st in
  match load_memory memory_id st with
  | None => (entry, (st, stats))
  | Some memory =>
      let stats := incr_processed stats in
      let meta := metadata memory in
      if is_retired meta then (entry, (st, incr_unchanged stats))
      else
        let days := days_since_access (config_decay_days cfg) now meta in
        if (days <? 1)%Z then (entry, (st, incr_unchanged stats))
        else
          let old_confidence := confidence meta in
          let new_confidence :=
            decayed_confidence (config_min_confidence cfg) days meta in
          if Py.gtb (Py.fabs (Py.fsub new_confidence old_confidence))
               (Py.Float 0.001)
          then
            let stats := incr_decayed stats in
            if dry_run then (entry, (st, stats))
            else
              let meta1 := set_confidence meta (Py.round3 new_confidence) in
              let archive := Py.leb new_confidence (config_min_confidence cfg) in
              let meta2 := if archive then set_status meta1 "archived" else meta1 in
              let stats := if archive then incr_archived stats else stats in
              let st' := write_memory memory_id (set_metadata memory meta2) st in
              ({| entry_id := entry_id entry;
                  entry_confidence := confidence meta2;
                  entry_last_accessed := entry_last_accessed entry;
                  entry_access_count := entry_access_count entry |},
               (st', stats))
          else (entry, (st, incr_unchanged stats))
  end.

(** One [for entry in entries: process_memory(entry["id"], entry)] loop;
    [clock] gives the instant read by the n-th call of the pass. *)
Fixpoint process_entries (dry_run : bool) (clock : nat -> Z) (n : nat)
    (entries : list IndexEntry) (acc : Store * DecayStats)
    : list IndexEntry * (Store * DecayStats) :=
  match entries with
  | [] => ([], acc)
  | entry :: rest =>
      let '(entry', acc1) :=
        process_memory dry_run (clock n) (entry_id entry) entry acc in
      let '(rest', acc2) := process_entries dry_run clock (S n) rest acc1 in
      (entry' :: rest', acc2)
  end.

Fixpoint process_projects (dry_run : bool) (clock : nat -> Z) (n : nat)
    (projects : list (string * list IndexEntry)) (acc : Store * DecayStats)
    : list (string * list IndexEntry) * (Store * DecayStats) :=
  match projects with
  | [] => ([], acc)
  | (h, entries) :: rest =>
      let '(entries', acc1) := process_entries dry_run clock n entries acc in
      let '(rest', acc2) :=
        process_projects dry_run clock (n + length entries)%nat rest acc1 in
      ((h, entries') :: rest', acc2)
  end.

(** [apply_confidence_decay(dry_run)]. *)
Definition apply_confidence_decay (dry_run : bool) (clock : nat -> Z)
    (st : Store) : DecayStats * Store :=
  let ix := load_index st in
  let '(g, acc1) := process_entries dry_run clock 0 (index_global ix) (st, stats0) in
  let '(ps, (st2, stats)) :=
    process_projects dry_run clock (length (index_global ix)) (index_projects ix) acc1 in
  if dry_run then (stats, st2)
  else (stats, save_index {| index_global := g; index_projects := ps |} st2).

End Decay.

(** *** The feedback log *)

(** One decoded line of [feedback.jsonl]; [auto_creates_memory] is the truth
    value of that key. *)
Record FeedbackEntry := {
  timestamp : option string;
  memory_id : option string;
  outcome : option string;
  feedback_type : option string;
  auto_creates_memory : bool;
  feedback : option string;
  correct_action : option string;
  session_id : option string
}.

(** A line of the log: blank or comment, not decodable ([json.loads]
    raises [JSONDecodeError]), or an entry. *)
Inductive LogLine :=
| Blank
| Malformed
| Entry (e : FeedbackEntry).

(** [FEEDBACK_FILE] and the marker file [.feedback_processed], each absent
    or with its content. *)
Record FeedbackFiles := {
  feedback_file : option (list LogLine);
  processed_marker : option string
}.

Record FeedbackStats := {
  fb_processed : Z;
  fb_errors : Z;
  corrections_created : Z
}.

Definition fb_stats0 : FeedbackStats :=
  {| fb_processed := 0; fb_errors := 0; corrections_created := 0 |}.

Definition incr_fb_processed (s : FeedbackStats) : FeedbackStats :=
  {| fb_processed := fb_processed s + 1; fb_errors := fb_errors s;
     corrections_created := corrections_created s |}.
Definition incr_fb_errors (s : FeedbackStats) : FeedbackStats :=
  {| fb_processed := fb_processed s; fb_errors := fb_errors s + 1;
     corrections_created := corrections_created s |}.
Definition incr_corrections (s : FeedbackStats) : FeedbackStats :=
  {| fb_processed := fb_processed s; fb_errors := fb_errors s;
     corrections_created := corrections_created s + 1 |}.

(** [entry.get("timestamp", "")]. *)
Definition entry_timestamp (e : FeedbackEntry) : string :=
  default ""%string (timestamp e).

(** The content of the marker file as the run reads it:
    [f.read().strip()], or [None] without the file. *)
Definition read_marker (files : FeedbackFiles) : option string :=
  option_map Py.strip (processed_marker files).

(** [last_processed and entry.get("timestamp", "") <= last_processed]. *)
Definition already_processed (last_processed : option string)
    (e : FeedbackEntry) : bool :=
  match last_processed with
  | Some w => Py.nonempty w && String.leb (entry_timestamp e) w
  | None => false
  end.

(** The reading loop: the entries to process, in log order, and the number
    of lines that could not be decoded. *)
Fixpoint read_entries (last_processed : option string) (lines : list LogLine)
    : list FeedbackEntry * Z :=
  match lines with
  | [] => ([], 0%Z)
  | line :: rest =>
      let '(entries, errors) := read_entries last_processed rest in
      match line with
      | Blank => (entries, errors)
      | Malformed => (entries, (errors + 1)%Z)
      | Entry e =>
          if already_processed last_processed e then (entries, errors)
          else (e :: entries, errors)
      end
  end.

Definition truthy_string (s : option string) : bool :=
  match s with
  | Some s => Py.nonempty s
  | None => false
  end.

(** What a call of a function of [memory_lib] can do: raise, or return. *)
Inductive CallResult :=
| Raised (st : Store)
| Returned (new_id : option string) (st : Store).

Section Feedback.

(** [create_correction_memory] of [memory_lib] is not part of the sources;
    the run only looks at whether it raises and whether it returns an id. *)
Variable create_correction_memory :
  string -> string -> string -> option string -> Store -> CallResult.

(** The body of [for entry in entries_to_process], run at the instant
    [now]. *)
Definition process_entry (now : Z) (e : FeedbackEntry)
    (acc : Store * FeedbackStats) : Store * FeedbackStats :=
  let '(st, stats) := acc in
  if negb (truthy_string (memory_id e)) || negb (truthy_string (outcome e))
  then (st, incr_fb_errors stats)
  else
    let mid := default ""%string (memory_id e) in
    let out := default ""%string (outcome e) in
    match adjust_confidence mid out (Py.Float 0) now st with
    | (true, st1) =>
        let stats1 := incr_fb_processed stats in
        if match feedback_type e with
           | Some t => String.eqb t "correction"
           | None => false
           end && auto_creates_memory e
        then
          let correction_text := default "Correction applied"%string (feedback e) in
          let action := default "Use the corrected approach"%string (correct_action e) in
          match create_correction_memory mid correction_text action (session_id e) st1 with
          | Returned new_id st2 =>
              if truthy_string new_id
              then (st2, incr_corrections stats1)
              else (st2, stats1)
          | Raised st2 => (st2, incr_fb_errors stats1)
          end
        else (st1, stats1)
    | (false, st1) => (st1, incr_fb_errors stats)
    end.

Fixpoint process_entries_to_process (clock : nat -> Z) (n : nat)
    (entries : list FeedbackEntry) (acc : Store * FeedbackStats)
    : Store * FeedbackStats :=
  match entries with
  | [] => acc
  | e :: rest =>
      process_entries_to_process clock (S n) rest
        (process_entry (clock n) e acc)
  end.

(** [process_pending_feedback()]: the statistics, and the record store and
    the two feedback files afterwards. *)
Definition process_pending_feedback (clock : nat -> Z)
    (files : FeedbackFiles) (st : Store)
    : FeedbackStats * Store * FeedbackFiles :=
  match feedback_file files with
  | None => (fb_stats0, st, files)
  | Some lines =>
      let last_processed := read_marker files in
      let '(entries_to_process, errors) := read_entries last_processed lines in
      let stats :=
        {| fb_processed := 0; fb_errors := errors; corrections_created := 0 |} in
      match entries_to_process with
      | [] => (stats, st, files)
      | _ :: _ =>
          let '(st', stats') :=
            process_entries_to_process clock 0 entries_to_process (st, stats) in
          let last_timestamp :=
            Py.max_string (map entry_timestamp entries_to_process) in
          (stats', st',
           {| feedback_file := feedback_file files;
              processed_marker := last_timestamp |})
      end
  end.

End Feedback.

End UpdateConfidence.

(** ** sync-claude-md.py *)

Module SyncClaudeMd.
Import MemoryLib Re.
Local Open Scope Q_scope.



(** [positive_ratio] of the promotion loop. *)
Definition positive_ratio (meta : Metadata) : Q :=
  let positive := default 0%Z (positive_reinforcement meta) in
  let negative := default 0%Z (negative_reinforcement meta) in
  let total := (positive + negative)%Z in
  if (total =? 0)%Z then 0.5
  else inject_Z positive / inject_Z total.




(** *** Import *)

Local Close Scope Q_scope.
Local Open Scope string_scope.

(** [<!--\s*memory-sync:\s*start\s*-->(.*?)<!--\s*memory-sync:\s*end\s*-->]
    with [re.DOTALL]. *)
Definition auto_sync_pattern : list item :=
  [Lit "<!--"; Rep Py.is_space 0 None true; Lit "memory-sync:";
   Rep Py.is_space 0 None true; Lit "start"; Rep Py.is_space 0 None true;
   Lit "-->"; GroupOpen 1; Rep any_char 0 None false; GroupClose 1;
   Lit "<!--"; Rep Py.is_space 0 None true; Lit "memory-sync:";
   Rep Py.is_space 0 None true; Lit "end"; Rep Py.is_space 0 None true;
   Lit "-->"].

(** [parse_claude_md(...)["manual_sections"]] on the text of the file. *)
Definition manual_sections (file_content : string) : string :=
  Py.strip (sub_empty false auto_sync_pattern file_content).

(** [^[\s]*[-*][\s]+(.+)$] with [re.MULTILINE]. *)
Definition rule_pattern : list item :=
  [Bol; Rep Py.is_space 0 None true; Rep (one_of "-*") 1 (Some 1) true;
   Rep Py.is_space 1 None true; GroupOpen 1; Rep not_newline 1 None true;
   GroupClose 1; Eol].

(** [re.findall(rule_pattern, manual, re.MULTILINE)]. *)
Definition potential_rules (manual : string) : list string :=
  map (group 1 manual) (finditer true rule_pattern manual).

(** [\b\w{4,}\b]. *)
Definition word_pattern : list item :=
  [WordBoundary; Rep Py.is_word 4 None true; WordBoundary].

(** [re.findall(r'\b\w{4,}\b', rule_lower)]. *)
Definition rule_words (rule_lower : string) : list string :=
  map (group0 rule_lower) (finditer false word_pattern rule_lower).

Definition any_in (needles : list string) (s : string) : bool :=
  existsb (fun w => Py.contains w s) needles.

(** [mem_type] of a rule. *)
Definition rule_type (rule_lower : string) : string :=
  if any_in ["prefer"; "always use"; "never use"] rule_lower then "preference"
  else if any_in ["pattern"; "convention"; "style"] rule_lower then "pattern"
  else if any_in ["before"; "after"; "workflow"; "process"] rule_lower then "workflow"
  else if any_in ["never"; "avoid"; "don't"] rule_lower then "negative"
  else "project".

(** [list(set(words))[:5]]; [set_order] is the order in which the set of
    the given words is iterated. *)
Definition trigger_keywords (set_order : list string -> list string)
    (rule : string) : list string :=
  take 5 (set_order (rule_words (Py.lower rule))).

(** The arguments of one [create_memory] call. *)
Record Draft := {
  draft_type : string;
  draft_title : string;
  draft_description : string;
  draft_action : string;
  draft_keywords : list string;
  draft_confidence : Q
}.

Definition draft_of_rule (set_order : list string -> list string)
    (rule : string) : Draft :=
  {| draft_type := rule_type (Py.lower rule);
     draft_title :=
       Py.take_chars 60 rule
       ++ (if (60 <? String.length rule)%nat then "..." else "");
     draft_description := rule;
     draft_action := "Follow this rule: " ++ Py.take_chars 100 rule;
     draft_keywords := trigger_keywords set_order rule;
     draft_confidence := 0.6%Q |}.

(** The memories [import_claude_md_to_memories] creates (without
    [dry_run]) from the text of the file it found. *)
Definition import_claude_md_to_memories (set_order : list string -> list string)
    (file_content : string) : list Draft :=
  map (draft_of_rule set_order)
    (List.filter (fun rule => negb (String.length rule <? 10)%nat)
       (potential_rules (manual_sections file_content))).

End SyncClaudeMd.

(** ** promote-workflow.py *)

Module PromoteWorkflow.
Import MemoryLib Re.
Local Open Scope string_scope.

Definition nl : string := String Py.newline "".

(** [\b[a-z]{3,}\b]. *)
Definition keyword_pattern : list item :=
  [WordBoundary; Rep ascii_lower 3 None true; WordBoundary].

Definition stop_words : list string :=
  ["the"; "and"; "for"; "use"; "use"; "when"; "with"; "should";
   "from"; "that"; "this"; "have"; "will"; "your"; "prefer";
   "default"; "instead"; "always"; "never"; "avoid"; "suggest"].

Definition mem_string (w : string) (l : list string) : bool :=
  existsb (String.eqb w) l.

(** [extract_keywords(text)]. *)
Definition extract_keywords (text : string) : list string :=
  let lowered := Py.lower text in
  let words := map (group0 lowered) (finditer false keyword_pattern lowered) in
  List.filter (fun w => negb (mem_string w stop_words)) words.

(** [^\s*[-*]\s*\*\*([^*]+)\*\*] with [re.MULTILINE]. *)
Definition title_pattern : list item :=
  [Bol; Rep Py.is_space 0 None true; Rep (one_of "-*") 1 (Some 1) true;
   Rep Py.is_space 0 None true; Lit "**"; GroupOpen 1;
   Rep (none_of "*") 1 None true; GroupClose 1; Lit "**"].

(** [extract_memory_titles(content)]. *)
Definition extract_memory_titles (claude_md_content : string) : list string :=
  map (fun m => Py.strip (group 1 claude_md_content m))
    (finditer true title_pattern claude_md_content).

(** *** Sections *)

Record DocSection := {
  sec_title : string;
  sec_content : string;
  sec_level : nat
}.

(** [<!--\s*memory-sync:.*?-->] with [re.DOTALL]. *)
Definition marker_pattern : list item :=
  [Lit "<!--"; Rep Py.is_space 0 None true; Lit "memory-sync:";
   Rep any_char 0 None false; Lit "-->"].

(** [^(#{2,3})\s+(.+)$]. *)
Definition section_pattern : list item :=
  [Bol; GroupOpen 1; Rep (is_char "#") 2 (Some 3) true; GroupClose 1;
   Rep Py.is_space 1 None true; GroupOpen 2; Rep not_newline 1 None true;
   GroupClose 2; Eol].

Definition truthy_string (s : option string) : bool :=
  match s with
  | Some s => Py.nonempty s
  | None => false
  end.

Definition close_section (current_section : option string)
    (current_content : list string) (level : nat) : list DocSection :=
  if truthy_string current_section
  then [{| sec_title := default "" current_section;
           sec_content := Py.strip (Py.join_lines current_content);
           sec_level := level |}]
  else [].

(** The loop of [parse_claude_md_sections] over the lines, with the section
    being read and its lines so far; the last section is closed with
    level 2. *)
Fixpoint parse_lines (lines : list string) (current_section : option string)
    (current_content : list string) : list DocSection :=
  match lines with
  | [] => close_section current_section current_content 2
  | line :: rest =>
      match re_match false section_pattern line with
      | Some m =>
          close_section current_section current_content
            (String.length (group 1 line m))
          ++ parse_lines rest (Some (Py.strip (group 2 line m))) []
      | None => parse_lines rest current_section (current_content ++ [line])
      end
  end.

(** [parse_claude_md_sections(content)]. *)
Definition parse_claude_md_sections (claude_md_content : string)
    : list DocSection :=
  parse_lines
    (Py.split_lines (sub_empty false marker_pattern claude_md_content))
    None [].

(** *** Duplicates *)

Definition keyword_set (text : string) : gset string :=
  list_to_set (extract_keywords text).

Definition is_empty_set (s : gset string) : bool := bool_decide (s = ∅).

(** [len(intersection) / len(union)]. *)
Definition overlap (a b : gset string) : Q :=
  (inject_Z (Z.of_nat (size (a ∩ b))) / inject_Z (Z.of_nat (size (a ∪ b))))%Q.

(** The loop [for title in existing_titles] of [check_duplicate]: the first
    title whose overlap with the keywords of the memory is above 0.7. *)
Fixpoint first_similar (memory_keywords : gset string)
    (existing_titles : list string) : option string :=
  match existing_titles with
  | [] => None
  | t :: rest =>
      let title_keywords := keyword_set t in
      if is_empty_set title_keywords then first_similar memory_keywords rest
      else if negb (is_empty_set (memory_keywords ∪ title_keywords))
              && Py.gtb (overlap memory_keywords title_keywords) 0.7%Q
      then Some t
      else first_similar memory_keywords rest
  end.

(** [check_duplicate(memory, claude_md_content)]. *)
Definition check_duplicate (memory : Memory) (claude_md_content : string)
    : string * option string :=
  let existing_titles := extract_memory_titles claude_md_content in
  let memory_title := Py.strip (default "" (title (content memory))) in
  if mem_string memory_title existing_titles then ("exact", Some memory_title)
  else
    let memory_keywords := keyword_set memory_title in
    if is_empty_set memory_keywords then ("new", None)
    else
      match first_similar memory_keywords existing_titles with
      | Some t => ("similar", Some t)
      | None => ("new", None)
      end.

(** *** Insertion *)

(** [format_memory_entry(memory)]; [None] where [content['title']] or
    [content['description']] raises [KeyError]. *)
Definition format_memory_entry (memory : Memory) : option string :=
  let c := content memory in
  match title c, description c with
  | Some t, Some d =>
      Some (Py.join_lines
        (["- **" ++ t ++ "**"; "  - " ++ d]
         ++ (if truthy_string (action c)
             then ["  - " ++ default "" (action c)] else [])
         ++ map (fun example => "  - Example: `" ++ example ++ "`")
                (take 3 (examples c))))
  | _, _ => None
  end.

(** [^##\s+{re.escape(section_name)}\s*$]. *)
Definition header_pattern (section_name : string) : list item :=
  [Bol; Lit "##"; Rep Py.is_space 1 None true; Lit section_name;
   Rep Py.is_space 0 None true; Eol].

(** [section_exists(content, section_name)]. *)
Definition section_exists (claude_md_content section_name : string) : bool :=
  match re_search true (header_pattern section_name) claude_md_content with
  | Some _ => true
  | None => false
  end.

(** [^(#{2,})\s+]. *)
Definition next_section_pattern : list item :=
  [Bol; GroupOpen 1; Rep (is_char "#") 2 None true; GroupClose 1;
   Rep Py.is_space 1 None true].

(** [next_section_match and len(next_section_match.group(1)) <= section_level]. *)
Definition leaves_section (section_level : nat) (line : string) : bool :=
  match re_match false next_section_pattern line with
  | Some m => (String.length (group 1 line m) <=? section_level)%nat
  | None => false
  end.

Definition is_match (m : option Match) : bool :=
  match m with
  | Some _ => true
  | None => false
  end.

(** The loop of [insert_into_section] and what follows it: the lines of
    the result. *)
Fixpoint insert_into_lines (section_name entry : string) (lines : list string)
    (in_target_section inserted : bool) : list string :=
  match lines with
  | [] => if in_target_section && negb inserted then [""; entry] else []
  | line :: rest =>
      if is_match (re_match false (header_pattern section_name) line)
      then line :: insert_into_lines section_name entry rest true inserted
      else if in_target_section && negb inserted && leaves_section 2 line
      then entry :: "" :: line
           :: insert_into_lines section_name entry rest false true
      else line :: insert_into_lines section_name entry rest
                     in_target_section inserted
  end.

(** [insert_into_section(content, section_name, entry)]. *)
Definition insert_into_section (claude_md_content section_name entry : string)
    : string :=
  Py.join_lines
    (insert_into_lines section_name entry (Py.split_lines claude_md_content)
       false false).

(** The pattern [rf'^(#{2,})\s+{re.escape(section_name)}\s*$'] of
    [insert_after_section]: in this f-string [{2,}] is a replacement field,
    the tuple [(2,)], so the pattern compiled is
    [^(#(2,))\s+{re.escape(section_name)}\s*$]. *)
Definition after_header_pattern (section_name : string) : list item :=
  [Bol; GroupOpen 1; Lit "#"; GroupOpen 2; Lit "2,"; GroupClose 2;
   GroupClose 1; Rep Py.is_space 1 None true; Lit section_name;
   Rep Py.is_space 0 None true; Eol].

(** The loop of [insert_after_section] and what follows it. *)
Fixpoint insert_after_lines (section_name text : string) (lines : list string)
    (in_section : bool) (section_level : nat) : list string :=
  match lines with
  | [] => if in_section then [text] else []
  | line :: rest =>
      match re_match false (after_header_pattern section_name) line with
      | Some m =>
          line :: insert_after_lines section_name text rest true
                    (String.length (group 1 line m))
      | None =>
          if in_section && leaves_section section_level line
          then text :: "" :: line
               :: insert_after_lines section_name text rest false section_level
          else line :: insert_after_lines section_name text rest
                         in_section section_level
      end
  end.

(** [insert_after_section(content, section_name, text)]. *)
Definition insert_after_section (claude_md_content section_name text : string)
    : string :=
  Py.join_lines
    (insert_after_lines section_name text (Py.split_lines claude_md_content)
       false 2).

Definition type_order : list string :=
  ["Preferences"; "Patterns & Conventions"; "Workflows";
   "Project-Specific"; "Learned Corrections"; "Avoid"].

(** [type_order.index(section_name)], when [section_name in type_order]. *)
Fixpoint index_of (x : string) (l : list string) : option nat :=
  match l with
  | [] => None
  | y :: rest =>
      if String.eqb y x then Some 0%nat
      else option_map S (index_of x rest)
  end.

(** [content.rstrip() + f"\n\n## {section_name}\n\n{entry}\n"]. *)
Definition append_section (claude_md_content section_name entry : string)
    : string :=
  Py.rstrip claude_md_content ++ nl ++ nl ++ "## " ++ section_name
  ++ nl ++ nl ++ entry ++ nl.

(** [create_section(content, section_name, entry)]. *)
Definition create_section (claude_md_content section_name entry : string)
    : string :=
  match parse_claude_md_sections claude_md_content with
  | [] => append_section claude_md_content section_name entry
  | _ :: _ =>
      match index_of section_name type_order with
      | Some idx =>
          match List.find (section_exists claude_md_content)
                  (rev (take idx type_order)) with
          | Some prev_section =>
              insert_after_section claude_md_content prev_section
                (nl ++ "## " ++ section_name ++ nl ++ nl ++ entry)
          | None => append_section claude_md_content section_name entry
          end
      | None => append_section claude_md_content section_name entry
      end
  end.

(** [section_map.get(memory['type'], 'General')]; [None] where
    [memory['type']] raises [KeyError]. *)
Definition section_of_type (memory_type : string) : string :=
  if String.eqb memory_type "preference" then "Preferences"
  else if String.eqb memory_type "pattern" then "Patterns & Conventions"
  else if String.eqb memory_type "workflow" then "Workflows"
  else if String.eqb memory_type "project" then "Project-Specific"
  else if String.eqb memory_type "correction" then "Learned Corrections"
  else if String.eqb memory_type "negative" then "Avoid"
  else "General".

(** [new_content] of [add_to_claude_md] for a target file with the given
    text; [None] where the code raises. *)
Definition add_to_claude_md (memory : Memory) (claude_md_content : string)
    : option string :=
  match type memory, format_memory_entry memory with
  | Some t, Some memory_entry =>
      let section_name := section_of_type t in
      if section_exists claude_md_content section_name
      then Some (insert_into_section claude_md_content section_name memory_entry)
      else Some (create_section claude_md_content section_name memory_entry)
  | _, _ => None
  end.

(** *** Overlaps *)

Record Overlap := {
  section_title : string;
  overlap_keywords : list string;
  content_preview : string
}.

(** [section['content'][:200] + '...'] when the content has more than 200
    characters, the content otherwise. *)
Definition preview (section_content : string) : string :=
  if (200 <? String.length section_content)%nat
  then Py.take_chars 200 section_content ++ "..."
  else section_content.

(** [check_overlaps(memory, claude_md_content)]; [set_list] is the order
    in which [list(overlap)] iterates the set. *)
Definition check_overlaps (set_list : gset string -> list string)
    (memory : Memory) (claude_md_content : string) : list Overlap :=
  let memory_text :=
    default "" (title (content memory)) ++ " "
    ++ default "" (description (content memory)) in
  let memory_keywords := keyword_set memory_text in
  if is_empty_set memory_keywords then []
  else
    flat_map
      (fun section =>
         let section_keywords := keyword_set (sec_content section) in
         let shared := memory_keywords ∩ section_keywords in
         if (2 <=? size shared)%nat
         then [{| section_title := sec_title section;
                  overlap_keywords := take 5 (set_list shared);
                  content_preview := preview (sec_content section) |}]
         else [])
      (parse_claude_md_sections claude_md_content).

End PromoteWorkflow.

(** ** Sample data *)

Module Samples.
Import MemoryLib UpdateConfidence.
Local Open Scope string_scope.

Definition meta : Metadata :=
  {| confidence := Py.Float 0.5; status := Some "active";
     positive_reinforcement := Some 2%Z;
     negative_reinforcement := Some 1%Z;
     access_count := Some 3%Z;
     created_at := Some 0%Z;
     last_accessed := Some 0%Z |}.

Definition memory : Memory :=
  {| id := "m1"; type := Some "preference";
     content := {| title := Some "Use tabs";
                   description := Some "Indent with tabs";
                   action := None; examples := [] |};
     metadata := meta; scope_path := None |}.

Definition entry : IndexEntry :=
  {| entry_id := "m1"; entry_confidence := Py.Float 0.5;
     entry_last_accessed := Some 0%Z; entry_access_count := Some 3%Z |}.

Definition store_of (m : Memory) (floor : option Py.float) : Store :=
  {| memories := <["m1" := m]> ∅;
     index := {| index_global := [entry]; index_projects := [] |};
     config := {| confidence_decay_days := None; min_confidence := floor |} |}.

Definition store : Store := store_of memory None.

Definition with_metadata (meta' : Metadata) : Memory :=
  set_metadata memory meta'.

(** A record that was never accessed. *)
Definition fresh_memory : Memory :=
  with_metadata
    {| confidence := Py.Float 0.5; status := Some "active";
       positive_reinforcement := Some 0%Z;
       negative_reinforcement := Some 0%Z;
       access_count := Some 0%Z;
       created_at := Some 0%Z;
       last_accessed := Some 0%Z |}.

(** A record with the confidence 0.7. *)
Definition likely_memory : Memory :=
  with_metadata (set_confidence meta (Py.Float 0.7)).

(** A record accessed twice without positive feedback. *)
Definition idle_memory : Memory :=
  with_metadata
    {| confidence := Py.Float 0.5; status := Some "active";
       positive_reinforcement := Some 0%Z;
       negative_reinforcement := Some 0%Z;
       access_count := Some 2%Z;
       created_at := Some 0%Z;
       last_accessed := Some 0%Z |}.

(** A record at 0.1 whose accesses were all positive. *)
Definition faint_memory : Memory :=
  with_metadata
    {| confidence := Py.Float 0.1; status := Some "active";
       positive_reinforcement := Some 3%Z;
       negative_reinforcement := Some 0%Z;
       access_count := Some 3%Z;
       created_at := Some 0%Z;
       last_accessed := Some 0%Z |}.

(** A record of low confidence without feedback so far. *)
Definition shaky_memory : Memory :=
  with_metadata
    {| confidence := Py.Float 0.25; status := Some "active";
       positive_reinforcement := None;
       negative_reinforcement := None;
       access_count := None;
       created_at := Some 0%Z;
       last_accessed := None |}.

Definition one_day : Z := Py.microseconds_per_day.

(** A [pow] that returns the binary64 number nearest to the exact power,
    as the C library does on most arguments. *)
Definition pow (x : Py.float) (n : Z) : Py.float :=
  Py.Float (Py.value x ^ n).

(** A log entry without a time stamp, for a memory the store does not have. *)
Definition untimed : FeedbackEntry :=
  {| timestamp := None; memory_id := Some "ghost"; outcome := Some "accepted";
     feedback_type := None; auto_creates_memory := false; feedback := None;
     correct_action := None; session_id := None |}.

Definition timed (ts mid out : string) : FeedbackEntry :=
  {| timestamp := Some ts; memory_id := Some mid; outcome := Some out;
     feedback_type := None; auto_creates_memory := false; feedback := None;
     correct_action := None; session_id := None |}.

Definition log_of (lines : list LogLine) : FeedbackFiles :=
  {| feedback_file := Some lines; processed_marker := None |}.

Definition two_entries : list LogLine :=
  [Entry (timed "2024-01-02T00:00:00Z" "ghost" "accepted");
   Malformed;
   Entry (timed "2024-01-01T00:00:00Z" "m1" "rejected")].


Definition clock0 (n : nat) : Z := 0%Z.

Definition nl : string := PromoteWorkflow.nl.


Definition doc_with_intro : string :=
  "intro" ++ nl ++ "## Preferences" ++ nl ++ nl ++ "- use tabs".

(** A document with a "Preferences" section only, and a workflow record. *)
Definition preferences_doc : string :=
  "# CLAUDE.md" ++ nl ++ nl ++ "## Preferences" ++ nl ++ nl
  ++ "- **Use tabs**" ++ nl ++ "  - Indent with tabs" ++ nl.

Definition workflow_memory : Memory :=
  {| id := "m2"; type := Some "workflow";
     content := {| title := Some "Run tests";
                   description := Some "Run the tests before a commit";
                   action := None; examples := [] |};
     metadata := meta; scope_path := None |}.

(** A document with a "Patterns & Conventions" section only. *)
Definition patterns_doc : string :=
  "## Patterns & Conventions" ++ nl ++ nl ++ "- **Name tests**" ++ nl
  ++ "  - Name tests after the behaviour" ++ nl.

(** A document with two sections on tests. *)
Definition testing_doc : string :=
  "## Testing" ++ nl ++ nl ++ "Run the unit tests before every commit" ++ nl
  ++ nl ++ "## Style" ++ nl ++ nl ++ "Name tests after the behaviour" ++ nl.

(** A record whose title ends in a space. *)
Definition spaced_memory : Memory :=
  {| id := "m3"; type := Some "preference";
     content := {| title := Some "Use tabs ";
                   description := Some "Indent with tabs";
                   action := None; examples := [] |};
     metadata := meta; scope_path := None |}.

(** A [create_correction_memory] that creates nothing. *)
Definition no_correction (original_id correction action : string)
    (session : option string) (st : Store) : CallResult :=
  Returned None st.

End Samples.

(** ** The formulas of the specification, as it words them *)

Module Stated.
Local Open Scope Q_scope.

(** "[base = 0.99^days]; [ratio = positive / access_count] (0 if
    [access_count = 0]); [factor = base * (0.5 + 0.5*ratio)];
    [new_confidence = max(floor, confidence * factor)]". *)
Definition decay_confidence (floor c : Q) (days positive access_count : Z) : Q :=
  let ratio :=
    if (access_count =? 0)%Z then 0
    else inject_Z positive / inject_Z access_count in
  Qmax floor (c * (0.99 ^ days * (0.5 + 0.5 * ratio))).

(** "the first 5 distinct words of length >= 4 found in the bullet text
    (order of extraction, not alphabetical)": each word once, at its first
    occurrence. *)
Fixpoint distinct_in_order (seen words : list string) : list string :=
  match words with
  | [] => []
  | w :: rest =>
      if existsb (String.eqb w) seen then distinct_in_order seen rest
      else w :: distinct_in_order (w :: seen) rest
  end.

Definition trigger_keywords (rule : string) : list string :=
  take 5 (distinct_in_order [] (SyncClaudeMd.rule_words (Py.lower rule))).

(** "containing no memory-sync markers". *)
Definition has_marker (doc : string) : bool :=
  PromoteWorkflow.is_match
    (Re.re_search false PromoteWorkflow.marker_pattern doc).

End Stated.

(** ** Relations between the states of a run *)

Module Invariants.
Import MemoryLib UpdateConfidence.

(** What a stretch of the decay pass over the index entries of the ids
    [ids] does to the files and the counters. *)
Definition decay_step (ids : list string) (dry_run : bool)
    (before after : Store * DecayStats) : Prop :=
  let st := fst before in
  let s := snd before in
  let st' := fst after in
  let s' := snd after in
  (processed s' - processed s
   = (decayed s' - decayed s) + (unchanged s' - unchanged s))%Z
  /\ (0 <= archived s' - archived s <= decayed s' - decayed s)%Z
  /\ (0 <= unchanged s' - unchanged s)%Z
  /\ (processed s' - processed s <= Z.of_nat (length ids))%Z
  /\ config st' = config st
  /\ index st' = index st
  /\ (forall other, ~ In other ids ->
        load_memory other st' = load_memory other st)
  /\ (dry_run = true -> st' = st /\ archived s' = archived s).


(** The ids of the entries of the project lists of an index, in order. *)
Definition project_ids (projects : list (string * list IndexEntry))
    : list string :=
  concat (map (fun p => map entry_id (snd p)) projects).

Definition index_ids (ix : Index) : list string :=
  (map entry_id (index_global ix) ++ project_ids (index_projects ix))%list.

(** The lines of the log that cannot be decoded. *)
Definition is_malformed (line : LogLine) : bool :=
  match line with
  | Malformed => true
  | _ => false
  end.

Definition malformed_count (lines : list LogLine) : Z :=
  Z.of_nat (length (List.filter is_malformed lines)).

(** The items that look at nothing but the characters and the ends of
    lines. *)
Definition plain_item (it : Re.item) : bool :=
  match it with
  | Re.Lit _ | Re.Rep _ _ _ _ | Re.Bol | Re.Eol => true
  | _ => false
  end.

(** The character before a position of a line, and the character before
    the same position once the line stands in a document. *)
Definition line_context (prev prev' : option ascii) : Prop :=
  match prev with
  | None => prev' = None \/ prev' = Some Py.newline
  | Some c => prev' = Some c
  end.

(** What may follow a line in a document: nothing, or a newline. *)
Definition line_end (t : string) : Prop :=
  t = ""%string \/ exists t', t = String Py.newline t'.

End Invariants.

(** * Properties *)

(** ** Floats *)

Module FloatProps.
Local Open Scope Q_scope.

(** *** Rounding to an integer *)

Lemma round_half_even_floor (q : Q) :
  let f := Qfloor q in
  Py.round_half_even q
  = match 2 * (q - inject_Z f) ?= 1 with
    | Lt => f
    | Gt => (f + 1)%Z
    | Eq => if Z.even f then f else (f + 1)%Z
    end.
Proof.
  destruct q as [n d]. unfold Py.round_half_even, Qfloor. cbn [Qnum Qden].
  pose proof (Z.div_mod n (Z.pos d) ltac:(lia)) as Hdm.
  set (f := (n / Z.pos d)%Z) in *. set (r := (n mod Z.pos d)%Z) in *.
  assert (E : (2 * ((n # d) - inject_Z f) ?= 1)
              = (2 * r ?= Z.pos d)%Z).
  { unfold Qcompare, Qmult, Qminus, Qplus, Qopp, inject_Z. cbn [Qnum Qden].
    rewrite !Pos.mul_1_r, !Z.mul_1_r.
    destruct (Z.compare_spec (2 * r) (Z.pos d));
      [apply Z.compare_eq_iff | apply Z.compare_lt_iff | apply Z.compare_gt_iff];
      nia. }
  cbv zeta. rewrite E. reflexivity.
Qed.

Lemma round_half_even_comp (p q : Q) :
  p == q -> Py.round_half_even p = Py.round_half_even q.
Proof.
  intros E. rewrite !round_half_even_floor. cbv zeta.
  rewrite (Qfloor_comp _ _ E).
  assert (E2 : 2 * (p - inject_Z (Qfloor q)) == 2 * (q - inject_Z (Qfloor q)))
    by (rewrite E; reflexivity).
  now rewrite (Qcompare_comp _ _ E2 1 1 (Qeq_refl 1)).
Qed.

Lemma round_half_even_cases (q : Q) :
  (Py.round_half_even q = Qfloor q /\ 2 * (q - inject_Z (Qfloor q)) <= 1)
  \/ (Py.round_half_even q = (Qfloor q + 1)%Z
      /\ 1 <= 2 * (q - inject_Z (Qfloor q))).
Proof.
  rewrite round_half_even_floor. cbv zeta.
  destruct (Qcompare_spec (2 * (q - inject_Z (Qfloor q))) 1) as [H | H | H].
  - destruct (Z.even (Qfloor q)); [left | right]; split; try reflexivity;
      rewrite H; apply Qle_refl.
  - left. split; [reflexivity | now apply Qlt_le_weak].
  - right. split; [reflexivity | now apply Qlt_le_weak].
Qed.

Lemma round_half_even_near (q : Q) :
  q - (1 # 2) <= inject_Z (Py.round_half_even q) <= q + (1 # 2).
Proof.
  pose proof (Qfloor_le q) as Hlo. pose proof (Qlt_floor q) as Hhi.
  rewrite inject_Z_plus in Hhi. change (inject_Z 1) with 1 in Hhi.
  destruct (round_half_even_cases q) as [[-> H] | [-> H]].
  - split; lra.
  - rewrite inject_Z_plus. change (inject_Z 1) with 1. split; lra.
Qed.

Lemma round_half_even_Z (z : Z) : Py.round_half_even (inject_Z z) = z.
Proof.
  unfold Py.round_half_even, inject_Z. cbn [Qnum Qden].
  rewrite Z.mod_1_r, Z.div_1_r. reflexivity.
Qed.

Lemma round_half_even_mono (p q : Q) :
  p <= q -> (Py.round_half_even p <= Py.round_half_even q)%Z.
Proof.
  intros Hle. pose proof (Qfloor_resp_le _ _ Hle) as Hf.
  destruct (Z.eq_dec (Qfloor p) (Qfloor q)) as [E | Hne].
  - rewrite !round_half_even_floor. cbv zeta. rewrite E.
    destruct (Qcompare_spec (2 * (p - inject_Z (Qfloor q))) 1) as [Hp | Hp | Hp];
      destruct (Qcompare_spec (2 * (q - inject_Z (Qfloor q))) 1) as [Hq | Hq | Hq];
      try lia; try (destruct (Z.even (Qfloor q)); lia); exfalso; lra.
  - destruct (round_half_even_cases p) as [[-> _] | [-> _]];
      destruct (round_half_even_cases q) as [[-> _] | [-> _]]; lia.
Qed.

(** *** Powers of two *)

Lemma pow2_pos (e : Z) : 0 < Py.pow2 e.
Proof. apply Qpower_0_lt. reflexivity. Qed.

Lemma pow2_add (a b : Z) : Py.pow2 (a + b) == Py.pow2 a * Py.pow2 b.
Proof. apply Qpower_plus. discriminate. Qed.

Lemma pow2_le (a b : Z) : (a <= b)%Z -> Py.pow2 a <= Py.pow2 b.
Proof. intros H. apply Qpower_le_compat_l; [exact H | discriminate]. Qed.

Lemma pow2_lt (a b : Z) : (a < b)%Z -> Py.pow2 a < Py.pow2 b.
Proof. intros H. apply Qpower_lt_compat_l; [exact H | reflexivity]. Qed.

Lemma pow2_Z (e : Z) : (0 <= e)%Z -> Py.pow2 e == inject_Z (2 ^ e).
Proof. intros H. unfold Py.pow2. now rewrite Zpower_Qpower. Qed.

Lemma pow2_sub (a b : Z) : Py.pow2 (a - b) == Py.pow2 a / Py.pow2 b.
Proof. apply Qpower_minus. discriminate. Qed.


(** *** The binary logarithm *)

Lemma Qmake_div (n : Z) (d : positive) : n # d == inject_Z n / inject_Z (Z.pos d).
Proof. apply Qmake_Qdiv. Qed.

Lemma ilog2_spec (q : Q) :
  0 < q -> Py.pow2 (Py.ilog2 q) <= q < Py.pow2 (Py.ilog2 q + 1).
Proof.
  intros Hq. destruct q as [n d].
  assert (Hn : (0 < n)%Z) by (unfold Qlt in Hq; simpl in Hq; lia).
  unfold Py.ilog2. cbn [Qnum Qden].
  set (a := Z.log2 n). set (b := Z.log2 (Z.pos d)).
  pose proof (Z.log2_nonneg n) as Ha0. pose proof (Z.log2_nonneg (Z.pos d)) as Hb0.
  fold a in Ha0. fold b in Hb0.
  destruct (Z.log2_spec n Hn) as [Ha1 Ha2]. fold a in Ha1, Ha2.
  destruct (Z.log2_spec (Z.pos d) ltac:(lia)) as [Hb1 Hb2]. fold b in Hb1, Hb2.
  assert (HA : Py.pow2 a <= inject_Z n < 2 * Py.pow2 a).
  { rewrite (pow2_Z a Ha0). split.
    - now rewrite <- Zle_Qle.
    - replace (Z.succ a) with (1 + a)%Z in Ha2 by lia.
      rewrite Z.pow_add_r in Ha2 by lia. change (2 ^ 1)%Z with 2%Z in Ha2.
      assert (H : inject_Z n < inject_Z (2 * 2 ^ a)) by now rewrite <- Zlt_Qlt.
      rewrite inject_Z_mult in H. exact H. }
  assert (HB : Py.pow2 b <= inject_Z (Z.pos d) < 2 * Py.pow2 b).
  { rewrite (pow2_Z b Hb0). split.
    - now rewrite <- Zle_Qle.
    - replace (Z.succ b) with (1 + b)%Z in Hb2 by lia.
      rewrite Z.pow_add_r in Hb2 by lia. change (2 ^ 1)%Z with 2%Z in Hb2.
      assert (H : inject_Z (Z.pos d) < inject_Z (2 * 2 ^ b)) by now rewrite <- Zlt_Qlt.
      rewrite inject_Z_mult in H. exact H. }
  pose proof (pow2_pos a) as HAp. pose proof (pow2_pos b) as HBp.
  set (A := Py.pow2 a) in *. set (B := Py.pow2 b) in *.
  set (N := inject_Z n) in *. set (D := inject_Z (Z.pos d)) in *.
  assert (Hq' : n # d == N / D) by apply Qmake_div.
  assert (HD : 0 < D) by lra.
  assert (Hk : Py.pow2 (a - b) == A / B) by apply pow2_sub.
  assert (Hk1 : Py.pow2 (a - b + 1) == 2 * A / B).
  { rewrite pow2_add, Hk. change (Py.pow2 1) with 2. field. lra. }
  assert (Hk0 : Py.pow2 (a - b - 1 + 1) == A / B).
  { replace (a - b - 1 + 1)%Z with (a - b)%Z by lia. exact Hk. }
  assert (Hkm : Py.pow2 (a - b - 1) == A / (2 * B)).
  { assert (E : Py.pow2 (a - b) == Py.pow2 (a - b - 1) * 2).
    { replace (a - b)%Z with ((a - b - 1) + 1)%Z at 1 by lia.
      rewrite pow2_add. reflexivity. }
    rewrite Hk in E.
    assert (E2 : Py.pow2 (a - b - 1) == A / B / 2) by (rewrite E; field).
    rewrite E2. field. lra. }
  assert (Hup : N / D < 2 * A / B).
  { apply Qlt_shift_div_r; [exact HD |].
    assert (E : 2 * A / B * D == 2 * A * D / B) by (field; lra).
    rewrite E. apply Qlt_shift_div_l; [exact HBp |]. nra. }
  assert (Hlow : A / (2 * B) <= N / D).
  { apply Qle_shift_div_l; [exact HD |].
    assert (E : A / (2 * B) * D == A * D / (2 * B)) by (field; lra).
    rewrite E. apply Qle_shift_div_r; [lra |]. nra. }
  destruct (Qle_bool (Py.pow2 (a - b)) (n # d)) eqn:E.
  - apply Qle_bool_iff in E. split; [exact E |]. rewrite Hk1, Hq'. exact Hup.
  - assert (Hlt : n # d < Py.pow2 (a - b)).
    { apply Qnot_le_lt. intros H. apply Qle_bool_iff in H. congruence. }
    split.
    + rewrite Hkm, Hq'. exact Hlow.
    + rewrite Hk0. rewrite <- Hk. exact Hlt.
Qed.

Lemma ilog2_unique (q : Q) (k : Z) :
  Py.pow2 k <= q < Py.pow2 (k + 1) -> Py.ilog2 q = k.
Proof.
  intros [Hlo Hhi].
  assert (Hq : 0 < q) by (pose proof (pow2_pos k); lra).
  destruct (ilog2_spec q Hq) as [Hlo' Hhi'].
  destruct (Z.lt_trichotomy (Py.ilog2 q) k) as [H | [H | H]]; [| exact H |];
    exfalso.
  - pose proof (pow2_le (Py.ilog2 q + 1) k ltac:(lia)). lra.
  - pose proof (pow2_le (k + 1) (Py.ilog2 q) ltac:(lia)). lra.
Qed.

Lemma ilog2_comp (p q : Q) : 0 < p -> p == q -> Py.ilog2 p = Py.ilog2 q.
Proof.
  intros Hp E. symmetry. apply ilog2_unique. rewrite <- E.
  now apply ilog2_spec.
Qed.

Lemma ilog2_mono (p q : Q) : 0 < p -> p <= q -> (Py.ilog2 p <= Py.ilog2 q)%Z.
Proof.
  intros Hp Hle.
  destruct (ilog2_spec p Hp) as [Hlo _].
  destruct (ilog2_spec q ltac:(lra)) as [_ Hhi].
  destruct (Z.le_gt_cases (Py.ilog2 p) (Py.ilog2 q)) as [H | H]; [exact H |].
  exfalso. pose proof (pow2_le (Py.ilog2 q + 1) (Py.ilog2 p) ltac:(lia)). lra.
Qed.


(** *** The nearest binary64 number *)

Lemma nearest_pos_value (q : Q) :
  Py.nearest_pos q
  == inject_Z (Py.round_half_even (q / Py.pow2 (Py.last_place q)))
     * Py.pow2 (Py.last_place q).
Proof. unfold Py.nearest_pos. apply Qred_correct. Qed.

Lemma last_place_comp (p q : Q) :
  0 < p -> p == q -> Py.last_place p = Py.last_place q.
Proof. intros Hp E. unfold Py.last_place. now rewrite (ilog2_comp p q Hp E). Qed.

Lemma nearest_pos_comp (p q : Q) :
  0 < p -> p == q -> Py.nearest_pos p == Py.nearest_pos q.
Proof.
  intros Hp E. rewrite !nearest_pos_value.
  rewrite (last_place_comp p q Hp E).
  assert (E2 : p / Py.pow2 (Py.last_place q) == q / Py.pow2 (Py.last_place q))
    by (rewrite E; reflexivity).
  now rewrite (round_half_even_comp _ _ E2).
Qed.

Lemma last_place_bounds (q : Q) :
  (Py.ilog2 q - 52 <= Py.last_place q)%Z /\ (-1074 <= Py.last_place q)%Z.
Proof. unfold Py.last_place. lia. Qed.

(** The scaled value has at most 53 bits. *)
Lemma scaled_lt (q : Q) :
  0 < q -> q / Py.pow2 (Py.last_place q) < Py.pow2 53.
Proof.
  intros Hq. destruct (ilog2_spec q Hq) as [_ Hhi].
  destruct (last_place_bounds q) as [He _].
  pose proof (pow2_pos (Py.last_place q)) as Hp.
  apply Qlt_shift_div_r; [exact Hp |].
  rewrite <- pow2_add.
  pose proof (pow2_le (Py.ilog2 q + 1) (53 + Py.last_place q) ltac:(lia)).
  lra.
Qed.

Lemma scaled_ge (q : Q) :
  0 < q -> Py.last_place q = (Py.ilog2 q - 52)%Z ->
  Py.pow2 52 <= q / Py.pow2 (Py.last_place q).
Proof.
  intros Hq He. destruct (ilog2_spec q Hq) as [Hlo _].
  pose proof (pow2_pos (Py.last_place q)) as Hp.
  apply Qle_shift_div_l; [exact Hp |].
  rewrite <- pow2_add.
  replace (52 + Py.last_place q)%Z with (Py.ilog2 q) by lia. exact Hlo.
Qed.

Lemma inject_Z_pow2 (e : Z) : (0 <= e)%Z -> inject_Z (2 ^ e) == Py.pow2 e.
Proof. intros H. now rewrite pow2_Z. Qed.

Lemma mantissa_bounds (q : Q) :
  0 < q ->
  (0 <= Py.round_half_even (q / Py.pow2 (Py.last_place q)) <= 2 ^ 53)%Z.
Proof.
  intros Hq. pose proof (pow2_pos (Py.last_place q)) as Hp. split.
  - assert (H : (Py.round_half_even (inject_Z 0)
                 <= Py.round_half_even (q / Py.pow2 (Py.last_place q)))%Z).
    { apply round_half_even_mono. change (inject_Z 0) with 0.
      apply Qle_shift_div_l; [exact Hp | lra]. }
    now rewrite round_half_even_Z in H.
  - assert (H : (Py.round_half_even (q / Py.pow2 (Py.last_place q))
                 <= Py.round_half_even (inject_Z (2 ^ 53)))%Z).
    { apply round_half_even_mono. rewrite inject_Z_pow2 by lia.
      apply Qlt_le_weak. now apply scaled_lt. }
    now rewrite round_half_even_Z in H.
Qed.

Lemma nearest_pos_nonneg (q : Q) : 0 < q -> 0 <= Py.nearest_pos q.
Proof.
  intros Hq. rewrite nearest_pos_value.
  destruct (mantissa_bounds q Hq) as [H _].
  apply Qmult_le_0_compat; [| apply Qlt_le_weak, pow2_pos].
  change 0 with (inject_Z 0). now rewrite <- Zle_Qle.
Qed.

Lemma nearest_pos_le (q : Q) :
  0 < q -> Py.nearest_pos q <= Py.pow2 (53 + Py.last_place q).
Proof.
  intros Hq. rewrite nearest_pos_value, pow2_add.
  destruct (mantissa_bounds q Hq) as [_ H].
  apply Qmult_le_compat_r; [| apply Qlt_le_weak, pow2_pos].
  rewrite (pow2_Z 53 ltac:(lia)). now rewrite <- Zle_Qle.
Qed.

Lemma nearest_pos_ge (q : Q) :
  0 < q -> Py.last_place q = (Py.ilog2 q - 52)%Z ->
  Py.pow2 (52 + Py.last_place q) <= Py.nearest_pos q.
Proof.
  intros Hq He. rewrite nearest_pos_value, pow2_add.
  apply Qmult_le_compat_r; [| apply Qlt_le_weak, pow2_pos].
  rewrite (pow2_Z 52 ltac:(lia)). rewrite <- Zle_Qle.
  assert (H : (Py.round_half_even (inject_Z (2 ^ 52))
               <= Py.round_half_even (q / Py.pow2 (Py.last_place q)))%Z).
  { apply round_half_even_mono. rewrite inject_Z_pow2 by lia.
    now apply scaled_ge. }
  now rewrite round_half_even_Z in H.
Qed.

Lemma nearest_pos_mono (p q : Q) :
  0 < p -> p <= q -> Py.nearest_pos p <= Py.nearest_pos q.
Proof.
  intros Hp Hle. assert (Hq : 0 < q) by lra.
  pose proof (ilog2_mono p q Hp Hle) as Hlog.
  destruct (Z.eq_dec (Py.last_place p) (Py.last_place q)) as [E | Hne].
  - rewrite !nearest_pos_value, E.
    pose proof (pow2_pos (Py.last_place q)) as Hpos.
    apply Qmult_le_compat_r; [| lra].
    rewrite <- Zle_Qle. apply round_half_even_mono.
    apply Qmult_le_compat_r; [exact Hle |].
    apply Qlt_le_weak, Qinv_lt_0_compat, Hpos.
  - assert (Hlt : (Py.last_place p < Py.last_place q)%Z)
      by (unfold Py.last_place in *; lia).
    assert (Hnormal : Py.last_place q = (Py.ilog2 q - 52)%Z)
      by (unfold Py.last_place in *; lia).
    pose proof (nearest_pos_le p Hp) as H1.
    pose proof (nearest_pos_ge q Hq Hnormal) as H2.
    pose proof (pow2_le (53 + Py.last_place p) (52 + Py.last_place q)
                  ltac:(lia)).
    lra.
Qed.

(** A number with at most 53 bits at an exponent of at least -1074 is a
    binary64 number. *)
Lemma nearest_pos_exact_lt (M e : Z) :
  (0 < M < 2 ^ 53)%Z -> (-1074 <= e)%Z ->
  Py.nearest_pos (inject_Z M * Py.pow2 e) == inject_Z M * Py.pow2 e.
Proof.
  intros HM He. set (v := inject_Z M * Py.pow2 e).
  pose proof (pow2_pos e) as Hpe.
  assert (HM1 : 1 <= inject_Z M)
    by (change 1 with (inject_Z 1); rewrite <- Zle_Qle; lia).
  assert (HM2 : inject_Z M < Py.pow2 53).
  { rewrite (pow2_Z 53 ltac:(lia)). rewrite <- Zlt_Qlt. lia. }
  assert (Hv : 0 < v) by (unfold v; nra).
  assert (Hvlt : v < Py.pow2 (53 + e)).
  { unfold v. rewrite pow2_add. nra. }
  destruct (ilog2_spec v Hv) as [Hlo _].
  assert (Hk : (Py.ilog2 v < 53 + e)%Z).
  { destruct (Z.lt_ge_cases (Py.ilog2 v) (53 + e)) as [H | H]; [exact H |].
    exfalso. pose proof (pow2_le (53 + e) (Py.ilog2 v) H). lra. }
  assert (He' : (Py.last_place v <= e)%Z) by (unfold Py.last_place; lia).
  set (e' := Py.last_place v) in *.
  assert (Hscaled : v / Py.pow2 e' == inject_Z (M * 2 ^ (e - e'))).
  { rewrite inject_Z_mult, inject_Z_pow2 by lia. unfold v.
    rewrite pow2_sub. field. pose proof (pow2_pos e'). lra. }
  rewrite nearest_pos_value. fold e'.
  rewrite (round_half_even_comp _ _ Hscaled), round_half_even_Z.
  rewrite inject_Z_mult, inject_Z_pow2 by lia. unfold v.
  rewrite pow2_sub. field. pose proof (pow2_pos e'). lra.
Qed.

Lemma nearest_pos_exact (M e : Z) :
  (0 < M <= 2 ^ 53)%Z -> (-1074 <= e)%Z ->
  Py.nearest_pos (inject_Z M * Py.pow2 e) == inject_Z M * Py.pow2 e.
Proof.
  intros HM He.
  destruct (Z.eq_dec M (2 ^ 53)%Z) as [-> | Hne].
  - assert (E : inject_Z (2 ^ 53) * Py.pow2 e
                == inject_Z (2 ^ 52) * Py.pow2 (e + 1)).
    { rewrite !inject_Z_pow2 by lia. rewrite <- !pow2_add.
      replace (52 + (e + 1))%Z with (53 + e)%Z by lia. reflexivity. }
    assert (Hpos : 0 < inject_Z (2 ^ 53) * Py.pow2 e).
    { pose proof (pow2_pos e). rewrite inject_Z_pow2 by lia.
      pose proof (pow2_pos 53). nra. }
    rewrite (nearest_pos_comp _ _ Hpos E), E.
    apply nearest_pos_exact_lt; lia.
  - apply nearest_pos_exact_lt; lia.
Qed.

Lemma nearest_pos_idem (q : Q) :
  0 < q -> 0 < Py.nearest_pos q ->
  Py.nearest_pos (Py.nearest_pos q) == Py.nearest_pos q.
Proof.
  intros Hq Hpos.
  pose proof (nearest_pos_value q) as E.
  destruct (mantissa_bounds q Hq) as [HM0 HM].
  destruct (last_place_bounds q) as [_ He].
  set (M := Py.round_half_even (q / Py.pow2 (Py.last_place q))) in *.
  assert (HMpos : (0 < M)%Z).
  { destruct (Z.eq_dec M 0%Z) as [E0 | ]; [| lia].
    rewrite E0 in E. change (inject_Z 0) with 0 in E.
    exfalso. rewrite E in Hpos. lra. }
  rewrite (nearest_pos_comp _ _ Hpos E), E.
  apply nearest_pos_exact; [lia | exact He].
Qed.

(** *** [binary64] *)

Lemma Qcompare_Gt (q : Q) : 0 < q -> (q ?= 0) = Gt.
Proof. intros H. apply Qgt_alt. exact H. Qed.

Lemma Qcompare_Lt (q : Q) : q < 0 -> (q ?= 0) = Lt.
Proof. intros H. apply Qlt_alt. exact H. Qed.

Lemma Qcompare_Eq (q : Q) : q == 0 -> (q ?= 0) = Eq.
Proof. intros H. apply Qeq_alt. exact H. Qed.

Lemma binary64_pos (q : Q) : 0 < q -> Py.binary64 q = Py.nearest_pos q.
Proof. intros H. unfold Py.binary64. now rewrite Qcompare_Gt. Qed.

Lemma binary64_neg (q : Q) : q < 0 -> Py.binary64 q = - Py.nearest_pos (- q).
Proof. intros H. unfold Py.binary64. now rewrite Qcompare_Lt. Qed.

Lemma binary64_zero (q : Q) : q == 0 -> Py.binary64 q = 0.
Proof. intros H. unfold Py.binary64. now rewrite Qcompare_Eq. Qed.

Lemma binary64_nonneg (q : Q) : 0 <= q -> 0 <= Py.binary64 q.
Proof.
  intros H. destruct (Qlt_le_dec 0 q) as [Hpos | Hle].
  - rewrite binary64_pos by exact Hpos. now apply nearest_pos_nonneg.
  - rewrite binary64_zero by lra. lra.
Qed.

Lemma binary64_nonpos (q : Q) : q <= 0 -> Py.binary64 q <= 0.
Proof.
  intros H. destruct (Qlt_le_dec q 0) as [Hneg | Hle].
  - rewrite binary64_neg by exact Hneg.
    pose proof (nearest_pos_nonneg (- q) ltac:(lra)). lra.
  - rewrite binary64_zero by lra. lra.
Qed.

Lemma binary64_comp (p q : Q) : p == q -> Py.binary64 p == Py.binary64 q.
Proof.
  intros E. destruct (Q_dec p 0) as [[Hneg | Hpos] | Hz].
  - rewrite (binary64_neg p Hneg), (binary64_neg q) by lra.
    apply Qopp_comp, nearest_pos_comp; [lra | now rewrite E].
  - rewrite (binary64_pos p Hpos), (binary64_pos q) by lra.
    now apply nearest_pos_comp.
  - rewrite (binary64_zero p Hz), (binary64_zero q) by lra. reflexivity.
Qed.

Lemma binary64_opp (q : Q) : Py.binary64 (- q) == - Py.binary64 q.
Proof.
  destruct (Q_dec q 0) as [[Hneg | Hpos] | Hz].
  - rewrite (binary64_neg q Hneg), (binary64_pos (- q)) by lra. lra.
  - rewrite (binary64_pos q Hpos), (binary64_neg (- q)) by lra.
    apply Qopp_comp, nearest_pos_comp; lra.
  - rewrite (binary64_zero q Hz), (binary64_zero (- q)) by lra. reflexivity.
Qed.

Lemma binary64_mono (p q : Q) : p <= q -> Py.binary64 p <= Py.binary64 q.
Proof.
  intros Hle. destruct (Qlt_le_dec 0 p) as [Hp | Hp].
  - rewrite (binary64_pos p Hp), (binary64_pos q) by lra.
    now apply nearest_pos_mono.
  - destruct (Qlt_le_dec 0 q) as [Hq | Hq].
    + pose proof (binary64_nonpos p Hp). pose proof (binary64_nonneg q).
      lra.
    + destruct (Qlt_le_dec q 0) as [Hq' | Hq'].
      * rewrite (binary64_neg p), (binary64_neg q) by lra.
        pose proof (nearest_pos_mono (- q) (- p) ltac:(lra) ltac:(lra)). lra.
      * pose proof (binary64_nonpos p Hp).
        rewrite (binary64_zero q) by lra. exact H.
Qed.

Lemma binary64_idem (q : Q) : Py.binary64 (Py.binary64 q) == Py.binary64 q.
Proof.
  destruct (Q_dec q 0) as [[Hneg | Hpos] | Hz].
  - rewrite (binary64_neg q Hneg).
    pose proof (nearest_pos_nonneg (- q) ltac:(lra)) as H0.
    destruct (Qlt_le_dec 0 (Py.nearest_pos (- q))) as [H | H].
    + rewrite binary64_opp, (binary64_pos _ H).
      apply Qopp_comp, nearest_pos_idem; [lra | exact H].
    + rewrite binary64_zero by lra. lra.
  - rewrite (binary64_pos q Hpos).
    pose proof (nearest_pos_nonneg q Hpos) as H0.
    destruct (Qlt_le_dec 0 (Py.nearest_pos q)) as [H | H].
    + rewrite (binary64_pos _ H). now apply nearest_pos_idem.
    + rewrite binary64_zero by lra. lra.
  - rewrite (binary64_zero q Hz). reflexivity.
Qed.

(** Numbers of at most 53 bits at an exponent of at least -1074 are
    binary64 numbers. *)
Lemma binary64_exact (M e : Z) :
  (Z.abs M <= 2 ^ 53)%Z -> (-1074 <= e)%Z ->
  Py.binary64 (inject_Z M * Py.pow2 e) == inject_Z M * Py.pow2 e.
Proof.
  intros HM He. pose proof (pow2_pos e) as Hp.
  destruct (Z.lt_trichotomy M 0) as [H | [-> | H]].
  - assert (E : inject_Z M * Py.pow2 e == - (inject_Z (- M) * Py.pow2 e))
      by (rewrite inject_Z_opp; ring).
    rewrite (binary64_comp _ _ E), binary64_opp.
    assert (Hpos : 0 < inject_Z (- M) * Py.pow2 e).
    { assert (1 <= inject_Z (- M))
        by (change 1 with (inject_Z 1); rewrite <- Zle_Qle; lia).
      nra. }
    rewrite (binary64_pos _ Hpos), E.
    apply Qopp_comp, nearest_pos_exact; lia.
  - rewrite binary64_zero by ring. ring.
  - assert (Hpos : 0 < inject_Z M * Py.pow2 e).
    { assert (1 <= inject_Z M)
        by (change 1 with (inject_Z 1); rewrite <- Zle_Qle; lia).
      nra. }
    rewrite (binary64_pos _ Hpos). apply nearest_pos_exact; lia.
Qed.

(** A binary64 number is a multiple of the unit in its last place. *)
Lemma binary64_multiple (q : Q) :
  0 < Py.binary64 q ->
  exists M : Z,
    Py.binary64 q == inject_Z M * Py.pow2 (Py.last_place (Py.binary64 q)).
Proof.
  intros Hpos. pose proof (binary64_idem q) as E.
  rewrite (binary64_pos _ Hpos), nearest_pos_value in E.
  eexists. symmetry. exact E.
Qed.

(** *** Operations on floats *)

Lemma ltb_lt (a b : Q) : Py.ltb a b = true <-> a < b.
Proof.
  unfold Py.ltb. rewrite negb_true_iff. split.
  - intros H. apply Qnot_le_lt. intros Hle.
    apply Qle_bool_iff in Hle. congruence.
  - intros H. destruct (Qle_bool b a) eqn:E; [| reflexivity].
    apply Qle_bool_iff in E. exfalso. exact (Qlt_not_le _ _ H E).
Qed.

Lemma ltb_ge (a b : Q) : Py.ltb a b = false <-> b <= a.
Proof.
  unfold Py.ltb. rewrite negb_false_iff. apply Qle_bool_iff.
Qed.

Lemma leb_le (a b : Q) : Py.leb a b = true <-> a <= b.
Proof. apply Qle_bool_iff. Qed.

Lemma gtb_gt (a b : Q) : Py.gtb a b = true <-> b < a.
Proof. apply ltb_lt. Qed.

(** The value of a float is a binary64 number. *)
Lemma value_binary64 (x : Py.float) : Py.binary64 x == x.
Proof. apply binary64_idem. Qed.

Lemma value_mono (a b : Q) : a <= b -> Py.Float a <= Py.Float b.
Proof. apply binary64_mono. Qed.

(** A value rounded below a float, or above one, stays there. *)
Lemma binary64_le_value (q : Q) (x : Py.float) : q <= x -> Py.binary64 q <= x.
Proof.
  intros H. rewrite <- (value_binary64 x). now apply binary64_mono.
Qed.

Lemma value_le_binary64 (x : Py.float) (q : Q) : x <= q -> x <= Py.binary64 q.
Proof.
  intros H. rewrite <- (value_binary64 x). now apply binary64_mono.
Qed.

Lemma fmin_value (a b : Py.float) : Py.fmin a b == Qmin a b.
Proof.
  unfold Py.fmin. destruct (Py.ltb b a) eqn:E.
  - apply ltb_lt in E. symmetry. apply Q.min_r. now apply Qlt_le_weak.
  - apply ltb_ge in E. symmetry. now apply Q.min_l.
Qed.

Lemma fmax_value (a b : Py.float) : Py.fmax a b == Qmax a b.
Proof.
  unfold Py.fmax. destruct (Py.ltb a b) eqn:E.
  - apply ltb_lt in E. symmetry. apply Q.max_r. now apply Qlt_le_weak.
  - apply ltb_ge in E. symmetry. now apply Q.max_l.
Qed.

Lemma binary64_abs (q : Q) : Py.binary64 (Qabs q) == Qabs (Py.binary64 q).
Proof.
  destruct (Qlt_le_dec q 0) as [H | H].
  - assert (E : Qabs q == - q) by (apply Qabs_neg; lra).
    rewrite (binary64_comp _ _ E), binary64_opp.
    symmetry. apply Qabs_neg. apply binary64_nonpos. lra.
  - assert (E : Qabs q == q) by (apply Qabs_pos; lra).
    rewrite (binary64_comp _ _ E).
    symmetry. apply Qabs_pos. now apply binary64_nonneg.
Qed.

Lemma fabs_value (a : Py.float) : Py.fabs a == Qabs a.
Proof.
  unfold Py.fabs, Py.value at 1. cbn [Py.written].
  rewrite binary64_abs. now rewrite value_binary64.
Qed.

(** [round(x, 3)] is monotone and moves a value by at most 0.0005 before
    it is read as a float. *)
Lemma round3_mono (a b : Py.float) : a <= b -> Py.round3 a <= Py.round3 b.
Proof.
  intros H. unfold Py.round3. apply value_mono.
  apply Qmult_le_compat_r; [| unfold Qle; simpl; lia].
  rewrite <- Zle_Qle. apply round_half_even_mono.
  apply Qmult_le_compat_r; [exact H | unfold Qle; simpl; lia].
Qed.

Lemma round3_comp (a b : Py.float) : a == b -> Py.round3 a == Py.round3 b.
Proof.
  intros H. apply Qle_antisym; apply round3_mono; rewrite H; apply Qle_refl.
Qed.

Lemma round3_upper (x y : Py.float) : x + (1 # 2000) <= y -> Py.round3 x <= y.
Proof.
  intros H. unfold Py.round3, Py.value at 1. cbn [Py.written].
  apply binary64_le_value.
  destruct (round_half_even_near (x * 1000)) as [_ Hup].
  apply Qle_shift_div_r; [reflexivity |]. lra.
Qed.

(** The binary64 numbers below 1/2 end at [1/2 - 2^-54]. *)
Lemma below_half (x : Py.float) :
  x < 1 # 2 -> x <= 9007199254740991 # 18014398509481984.
Proof.
  intros Hlt. destruct (Qlt_le_dec x (1 # 4)) as [Hsmall | Hbig].
  { eapply Qle_trans; [apply Qlt_le_weak, Hsmall |]. unfold Qle. simpl. lia. }
  assert (Hpos : 0 < Py.binary64 (Py.written x)) by (fold (Py.value x); lra).
  destruct (binary64_multiple _ Hpos) as (M & HM). fold (Py.value x) in HM.
  assert (Hlog : Py.ilog2 x = (-2)%Z).
  { apply ilog2_unique. change (Py.pow2 (-2)) with (1 # 4).
    change (Py.pow2 (-2 + 1)) with (1 # 2). split; assumption. }
  assert (Hlast : Py.last_place x = (-54)%Z)
    by (unfold Py.last_place; rewrite Hlog; reflexivity).
  rewrite Hlast in HM. change (Py.pow2 (-54)) with (1 # 18014398509481984) in HM.
  assert (HMlt : inject_Z M < inject_Z 9007199254740992).
  { change (inject_Z 9007199254740992) with (9007199254740992 # 1). lra. }
  rewrite <- Zlt_Qlt in HMlt.
  assert (HMle : inject_Z M <= inject_Z 9007199254740991)
    by (rewrite <- Zle_Qle; lia).
  change (inject_Z 9007199254740991) with (9007199254740991 # 1) in HMle.
  lra.
Qed.

End FloatProps.

(** ** The confidence engine *)

Module ConfidenceProps.
Import MemoryLib UpdateConfidence FloatProps Invariants.
Local Open Scope Q_scope.

Lemma load_after_write (mid : string) (m : Memory) (st : Store) :
  load_memory mid (write_memory mid m st) = Some m.
Proof. unfold load_memory, write_memory. simpl. apply lookup_insert_eq. Qed.

Lemma load_after_save_index (mid : string) (ix : Index) (st : Store) :
  load_memory mid (save_index ix st) = load_memory mid st.
Proof. reflexivity. Qed.

(** What [adjust_confidence] leaves in the store for a known id. *)
Lemma adjust_confidence_known (mid outcome : string) (delta : Py.float)
    (now : Z) (st : Store) (m : Memory) :
  load_memory mid st = Some m ->
  exists st',
    adjust_confidence mid outcome delta now st = (true, st')
    /\ load_memory mid st'
       = Some (set_metadata m (adjust_metadata outcome delta now (metadata m))).
Proof.
  intros Hload. unfold adjust_confidence. rewrite Hload.
  eexists. split; [reflexivity |].
  rewrite load_after_save_index. apply load_after_write.
Qed.

Lemma adjust_confidence_unknown (mid outcome : string) (delta : Py.float)
    (now : Z) (st : Store) :
  load_memory mid st = None ->
  adjust_confidence mid outcome delta now st = (false, st).
Proof. intros Hload. unfold adjust_confidence. now rewrite Hload. Qed.

(** [adjust_confidence] on another id leaves a record as it is. *)
Lemma adjust_confidence_other (mid outcome : string) (delta : Py.float)
    (now : Z) (st : Store) (other : string) :
  other <> mid ->
  load_memory other (snd (adjust_confidence mid outcome delta now st))
  = load_memory other st.
Proof.
  intros Hne. unfold adjust_confidence.
  destruct (load_memory mid st); [| reflexivity].
  cbn [snd]. rewrite load_after_save_index.
  unfold load_memory, write_memory. cbn [memories set_memories].
  now apply lookup_insert_ne.
Qed.

Lemma truthy_zero : Py.truthy (Py.Float 0) = false.
Proof. reflexivity. Qed.

(** The metadata after the outcomes "accepted" and "rejected", without an
    explicit delta. *)
Lemma adjust_metadata_accepted (now : Z) (meta : Metadata) :
  adjust_metadata "accepted" (Py.Float 0) now meta
  = set_access
      (set_positive_reinforcement
         (set_confidence meta
            (Py.fmin (Py.Float 1) (Py.fadd (confidence meta) (Py.Float 0.1))))
         (default 0%Z (positive_reinforcement meta) + 1)%Z)
      now (default 0%Z (access_count meta) + 1)%Z.
Proof. reflexivity. Qed.

Lemma adjust_metadata_rejected (now : Z) (meta : Metadata) :
  let c' := Py.fmax (Py.Float 0.1) (Py.fsub (confidence meta) (Py.Float 0.2)) in
  let meta'' :=
    set_negative_reinforcement (set_confidence meta c')
      (default 0%Z (negative_reinforcement meta) + 1)%Z in
  adjust_metadata "rejected" (Py.Float 0) now meta
  = set_access
      (if Py.ltb c' (Py.Float 0.3) then set_status meta'' "under_review"
       else meta'')
      now (default 0%Z (access_count meta) + 1)%Z.
Proof.
  cbv zeta. unfold adjust_metadata.
  change (String.eqb "rejected" "accepted") with false.
  change (String.eqb "rejected" "rejected") with true.
  rewrite truthy_zero. cbv iota.
  cbn [confidence set_confidence set_negative_reinforcement
       negative_reinforcement].
  destruct (Py.ltb _ _); reflexivity.
Qed.

(** C2. For a stored memory with confidence [c] in [0.1, 1.0]: [adjust]
    with outcome "accepted" succeeds, sets the confidence to
    [min(1.0, c + 0.1)] and adds 1 to [positive_reinforcement]; with outcome
    "rejected" it succeeds, sets the confidence to [max(0.1, c - 0.2)], adds
    1 to [negative_reinforcement], and sets the status to "under_review"
    when the resulting confidence is below 0.3, that is when [c - 0.2 < 0.3],
    and leaves the status as it was otherwise. The sum and the difference
    are those of binary64 numbers: the exact result rounded to the nearest
    binary64 number. *)
Theorem adjust_accepted_rejected (st : Store) (mid : string) (m : Memory)
    (now : Z) :
  load_memory mid st = Some m ->
  Py.Float 0.1 <= confidence (metadata m) <= Py.Float 1 ->
  let c := confidence (metadata m) in
  (exists st' m',
      adjust_confidence mid "accepted" (Py.Float 0) now st = (true, st')
      /\ load_memory mid st' = Some m'
      /\ confidence (metadata m')
         = Py.fmin (Py.Float 1) (Py.fadd c (Py.Float 0.1))
      /\ confidence (metadata m') == Qmin 1 (Py.binary64 (c + Py.Float 0.1))
      /\ positive_reinforcement (metadata m')
         = Some (default 0%Z (positive_reinforcement (metadata m)) + 1)%Z)
  /\ (exists st' m',
      adjust_confidence mid "rejected" (Py.Float 0) now st = (true, st')
      /\ load_memory mid st' = Some m'
      /\ confidence (metadata m')
         = Py.fmax (Py.Float 0.1) (Py.fsub c (Py.Float 0.2))
      /\ confidence (metadata m')
         == Qmax (Py.Float 0.1) (Py.binary64 (c - Py.Float 0.2))
      /\ negative_reinforcement (metadata m')
         = Some (default 0%Z (negative_reinforcement (metadata m)) + 1)%Z
      /\ (confidence (metadata m') < Py.Float 0.3
          <-> Py.fsub c (Py.Float 0.2) < Py.Float 0.3)
      /\ (confidence (metadata m') < Py.Float 0.3 ->
          status (metadata m') = Some "under_review"%string)
      /\ (~ confidence (metadata m') < Py.Float 0.3 ->
          status (metadata m') = status (metadata m))).
Proof.
  intros Hload Hrange c. split.
  - destruct (adjust_confidence_known mid "accepted" (Py.Float 0) now st m Hload)
      as (st' & Hrun & Hst').
    rewrite adjust_metadata_accepted in Hst'.
    eexists. eexists. split; [exact Hrun |]. split; [exact Hst' |].
    cbn [metadata set_metadata confidence positive_reinforcement set_access
         set_positive_reinforcement set_confidence].
    split; [reflexivity |]. split; [| reflexivity].
    rewrite fmin_value. reflexivity.
  - destruct (adjust_confidence_known mid "rejected" (Py.Float 0) now st m Hload)
      as (st' & Hrun & Hst').
    rewrite adjust_metadata_rejected in Hst'. cbv zeta in Hst'. fold c in Hst'.
    set (c' := Py.fmax (Py.Float 0.1) (Py.fsub c (Py.Float 0.2))) in *.
    assert (Hc' : c' == Qmax (Py.Float 0.1) (Py.fsub c (Py.Float 0.2)))
      by apply fmax_value.
    assert (Hiff : c' < Py.Float 0.3 <-> Py.fsub c (Py.Float 0.2) < Py.Float 0.3).
    { rewrite Hc'. split; intros H.
      - eapply Qle_lt_trans; [apply Q.le_max_r | exact H].
      - apply Q.max_lub_lt; [reflexivity | exact H]. }
    eexists. eexists. split; [exact Hrun |]. split; [exact Hst' |].
    cbn [metadata set_metadata].
    destruct (Py.ltb c' (Py.Float 0.3)) eqn:E;
      cbn [confidence negative_reinforcement status set_access set_status
           set_negative_reinforcement set_confidence].
    + apply ltb_lt in E.
      split; [reflexivity |]. split; [exact Hc' |]. split; [reflexivity |].
      split; [exact Hiff |]. split; [reflexivity |]. intros Hn. contradiction.
    + apply ltb_ge in E.
      split; [reflexivity |]. split; [exact Hc' |]. split; [reflexivity |].
      split; [exact Hiff |]. split; [| reflexivity].
      intros Hlt. exfalso. exact (Qlt_not_le _ _ Hlt E).
Qed.

(** From the confidence 0.7 the outcome "accepted" leads to
    0.7999999999999999 (the binary64 number below 0.8), and two outcomes
    "rejected" lead below 0.3 and to the status "under_review". *)
Lemma adjust_accepted_rejected_witness :
  (exists st' m',
     adjust_confidence "m1" "accepted" (Py.Float 0) 7
       (Samples.store_of Samples.likely_memory None) = (true, st')
     /\ load_memory "m1" st' = Some m'
     /\ confidence (metadata m') == 7205759403792793 # 9007199254740992
     /\ confidence (metadata m') < Py.Float 0.8)
  /\ (let st1 :=
        snd (adjust_confidence "m1" "rejected" (Py.Float 0) 7
               (Samples.store_of Samples.likely_memory None)) in
      exists st' m',
        adjust_confidence "m1" "rejected" (Py.Float 0) 8 st1 = (true, st')
        /\ load_memory "m1" st' = Some m'
        /\ confidence (metadata m') == 2702159776422297 # 9007199254740992
        /\ status (metadata m') = Some "under_review"%string).
Proof.
  split.
  - destruct (adjust_accepted_rejected
                (Samples.store_of Samples.likely_memory None) "m1"
                Samples.likely_memory 7)
      as [(st' & m' & Hrun & Hload & _ & Hconf & _) _].
    + reflexivity.
    + split; vm_compute; discriminate.
    + exists st', m'. split; [exact Hrun |]. split; [exact Hload |].
      rewrite Hconf. split; vm_compute; reflexivity.
  - cbv zeta. eexists. eexists.
    split; [vm_compute; reflexivity |]. split; [vm_compute; reflexivity |].
    split; [vm_compute; reflexivity |]. vm_compute. reflexivity.
Defined.

Lemma nonempty_true (s : string) : s <> ""%string -> Py.nonempty s = true.
Proof.
  intros H. unfold Py.nonempty. apply negb_true_iff. now apply String.eqb_neq.
Qed.


(** The lines of the log that cannot be decoded are the errors of the
    reading loop. *)
Lemma read_entries_errors (last_processed : option string)
    (lines : list LogLine) :
  snd (read_entries last_processed lines) = malformed_count lines.
Proof.
  unfold malformed_count.
  induction lines as [| line rest IH]; [reflexivity |].
  cbn [read_entries].
  destruct (read_entries last_processed rest) as [entries errors].
  cbn [snd] in IH. subst errors.
  destruct line as [| | e]; cbn [snd List.filter is_malformed length].
  - reflexivity.
  - lia.
  - destruct (already_processed last_processed e); reflexivity.
Qed.





(** *** Decay *)

Section DecayProps.

Variable pow : Py.float -> Z -> Py.float.

(** The record of [memory_id] after [process_memory], in each of its
    branches. *)
Lemma process_memory_known (dry_run : bool) (now : Z) (mid : string)
    (entry : IndexEntry) (st : Store) (stats : DecayStats) (m : Memory) :
  load_memory mid st = Some m ->
  let days := days_since_access (config_decay_days (config st)) now (metadata m) in
  let floor := config_min_confidence (config st) in
  let new := decayed_confidence pow floor days (metadata m) in
  let r := process_memory pow dry_run now mid entry (st, stats) in
  (is_retired (metadata m) = true -> fst r = entry /\ fst (snd r) = st)
  /\ ((days < 1)%Z -> fst r = entry /\ fst (snd r) = st)
  /\ (is_retired (metadata m) = false -> (1 <= days)%Z ->
      exists m', load_memory mid (fst (snd r)) = Some m'
        /\ confidence (metadata m')
           = if Py.gtb (Py.fabs (Py.fsub new (confidence (metadata m))))
                  (Py.Float 0.001)
                && negb dry_run
             then Py.round3 new else confidence (metadata m)).
Proof.
  intros Hload days floor new r. subst r. unfold process_memory.
  unfold load_config. rewrite Hload. fold days. fold floor. fold new.
  split; [| split].
  - intros ->. split; reflexivity.
  - intros Hlt. apply Z.ltb_lt in Hlt.
    destruct (is_retired (metadata m)); [split; reflexivity |].
    rewrite Hlt. split; reflexivity.
  - intros -> Hge. apply Z.ltb_ge in Hge. rewrite Hge.
    destruct (Py.gtb (Py.fabs (Py.fsub new (confidence (metadata m))))
                (Py.Float 0.001)).
    + destruct dry_run; cbn [negb andb fst snd].
      * exists m. split; [exact Hload | reflexivity].
      * eexists. split; [apply load_after_write |].
        cbn [metadata set_metadata].
        destruct (Py.leb new floor); reflexivity.
    + exists m. split; [exact Hload | reflexivity].
Qed.

(** C1, as the code has it. For a record the decay pass handles (found in
    the store, neither archived nor superseded) with at least one whole
    elapsed day, the pass computes [new = max(floor, confidence * factor)]
    with [factor = 0.99 ** days * (0.5 + 0.5 * (positive / access_count))]
    when [access_count] (1 when the key is absent) is positive and
    [factor = 0.99 ** days] when it is not; the confidence stored is
    [round(new, 3)] when [abs(new - confidence) > 0.001] and the pass is not
    a dry run, and the old confidence otherwise. Every operation is the one
    on binary64 numbers, and [**] is the [pow] of the C library. *)
Theorem decay_confidence_formula (dry_run : bool) (now : Z) (mid : string)
    (entry : IndexEntry) (st : Store) (stats : DecayStats) (m : Memory) :
  load_memory mid st = Some m ->
  is_retired (metadata m) = false ->
  let days := days_since_access (config_decay_days (config st)) now (metadata m) in
  (1 <= days)%Z ->
  let floor := config_min_confidence (config st) in
  let c := confidence (metadata m) in
  let positive := default 0%Z (positive_reinforcement (metadata m)) in
  let total := default 1%Z (access_count (metadata m)) in
  let base := pow (Py.Float 0.99) days in
  let factor :=
    if (0 <? total)%Z
    then Py.fmul base
           (Py.fadd (Py.Float 0.5)
              (Py.fmul (Py.Float 0.5) (Py.truediv positive total)))
    else base in
  let new := Py.fmax floor (Py.fmul c factor) in
  exists m',
    load_memory mid
      (fst (snd (process_memory pow dry_run now mid entry (st, stats))))
    = Some m'
    /\ confidence (metadata m')
       = (if Py.gtb (Py.fabs (Py.fsub new c)) (Py.Float 0.001) && negb dry_run
          then Py.round3 new else c)
    /\ (new : Q) == Qmax floor (Py.binary64 (c * factor))
    /\ ((0 < total)%Z ->
        (factor : Q)
        == Py.binary64
             (base * Py.binary64
                       ((1 # 2)
                        + Py.binary64
                            ((1 # 2)
                             * Py.binary64 (inject_Z positive / inject_Z total))))).
Proof.
  intros Hload Hactive days Hdays floor c positive total base factor new.
  destruct (process_memory_known dry_run now mid entry st stats m Hload)
    as (_ & _ & H).
  destruct (H Hactive Hdays) as (m' & Hload' & Hconf).
  exists m'. split; [exact Hload' |]. split; [exact Hconf |]. split.
  - unfold new. rewrite fmax_value. reflexivity.
  - intros Htotal. unfold factor. apply Z.ltb_lt in Htotal. rewrite Htotal.
    reflexivity.
Qed.

End DecayProps.

(** After one day a record with confidence 0.5, two accesses and no
    positive feedback is stored at 0.247: the product is the binary64
    number just below 0.2475. *)
Lemma decay_confidence_formula_witness :
  exists m',
    load_memory "m1"
      (fst (snd (process_memory Samples.pow false Samples.one_day "m1"
                   Samples.entry
                   (Samples.store_of Samples.idle_memory None, stats0))))
    = Some m'
    /\ confidence (metadata m') == Py.Float 0.247.
Proof.
  destruct (decay_confidence_formula Samples.pow false Samples.one_day "m1"
              Samples.entry (Samples.store_of Samples.idle_memory None)
              stats0 Samples.idle_memory)
    as (m' & Hload & Hconf & _).
  - reflexivity.
  - reflexivity.
  - vm_compute. discriminate.
  - exists m'. split; [exact Hload |]. rewrite Hconf. vm_compute. reflexivity.
Defined.

(** With the floor 0.05, a record at 0.1 whose factor is 0.99 is counted
    as decayed after one day and stored at 0.099: the difference of the
    binary64 numbers is above 0.001. *)
Lemma decay_just_above_threshold :
  let r :=
    process_memory Samples.pow false Samples.one_day "m1" Samples.entry
      (Samples.store_of Samples.faint_memory (Some (Py.Float 0.05)), stats0) in
  decayed (snd (snd r)) = 1%Z
  /\ exists m',
       load_memory "m1" (fst (snd r)) = Some m'
       /\ confidence (metadata m') == Py.Float 0.099.
Proof.
  cbv zeta. split; [vm_compute; reflexivity |].
  eexists. split; [vm_compute; reflexivity |]. vm_compute. reflexivity.
Qed.

(** C1 as the specification words it fails on a record whose
    [access_count] is 0: after one day the code multiplies the confidence
    0.5 by 0.99 (stored: 0.495), where the specification's formula, with
    the multiplier 0.5, gives 0.2475. *)
Lemma decay_zero_access_count_counterexample :
  let st := Samples.store_of Samples.fresh_memory None in
  let st' :=
    fst (snd (process_memory Samples.pow false Samples.one_day "m1"
                Samples.entry (st, stats0))) in
  exists m',
    load_memory "m1" st' = Some m'
    /\ confidence (metadata m') == Py.Float 0.495
    /\ Stated.decay_confidence 0.1 0.5 1 0 0 == 0.2475
    /\ 0.24 < confidence (metadata m') - Stated.decay_confidence 0.1 0.5 1 0 0.
Proof.
  cbv zeta. eexists. split; [vm_compute; reflexivity |].
  split; [vm_compute; reflexivity |].
  split; [vm_compute; reflexivity |].
  vm_compute. reflexivity.
Qed.

Lemma value_one : Py.Float 1 == 1.
Proof. reflexivity. Qed.

Lemma value_half : Py.Float 0.5 == 1 # 2.
Proof. reflexivity. Qed.

(** Half a thousandth, read as a float, is below the float 0.001. *)
Lemma half_thousandth : - Py.binary64 (- (1 # 2000)) < Py.Float 0.001.
Proof. reflexivity. Qed.

Section DecayBounds.

Variable pow : Py.float -> Z -> Py.float.

(** What the theorems below ask of the [pow] of the C library: a power of
    0.99 with an exponent of at least 1 is returned within [0, 1]. *)
Hypothesis pow_unit :
  forall d : Z, (1 <= d)%Z -> 0 <= pow (Py.Float 0.99) d <= 1.

Lemma decay_factor_le_1 (days : Z) (meta : Metadata) :
  (1 <= days)%Z ->
  ((0 < default 1 (access_count meta))%Z ->
   (default 0 (positive_reinforcement meta) <= default 1 (access_count meta))%Z) ->
  decay_factor pow days meta <= 1.
Proof.
  intros Hd Hratio. unfold decay_factor.
  destruct (pow_unit days Hd) as [Hpos Hle].
  set (base := pow (Py.Float 0.99) days) in *.
  set (positive := default 0%Z (positive_reinforcement meta)) in *.
  set (total := default 1%Z (access_count meta)) in *.
  destruct (0 <? total)%Z eqn:E; [| exact Hle].
  apply Z.ltb_lt in E. specialize (Hratio E).
  assert (Hr : Py.truediv positive total <= 1).
  { unfold Py.truediv, Py.value at 1. cbn [Py.written].
    apply Qle_trans with (y := Py.value (Py.Float 1));
      [| rewrite value_one; apply Qle_refl].
    apply binary64_le_value. rewrite value_one.
    apply Qle_shift_div_r.
    - change 0 with (inject_Z 0). rewrite <- Zlt_Qlt. exact E.
    - rewrite Qmult_1_l. rewrite <- Zle_Qle. exact Hratio. }
  set (ratio := Py.truediv positive total) in *.
  assert (Hh : Py.fmul (Py.Float 0.5) ratio <= 1 # 2).
  { unfold Py.fmul, Py.value at 1. cbn [Py.written].
    apply Qle_trans with (y := Py.value (Py.Float 0.5));
      [| rewrite value_half; apply Qle_refl].
    apply binary64_le_value. rewrite value_half. lra. }
  set (half := Py.fmul (Py.Float 0.5) ratio) in *.
  assert (Hs : Py.fadd (Py.Float 0.5) half <= 1).
  { unfold Py.fadd, Py.value at 1. cbn [Py.written].
    apply Qle_trans with (y := Py.value (Py.Float 1));
      [| rewrite value_one; apply Qle_refl].
    apply binary64_le_value. rewrite value_one, value_half. lra. }
  set (share := Py.fadd (Py.Float 0.5) half) in *.
  unfold Py.fmul, Py.value at 1. cbn [Py.written].
  apply Qle_trans with (y := Py.value (Py.Float 1));
    [| rewrite value_one; apply Qle_refl].
  apply binary64_le_value. rewrite value_one. nra.
Qed.

Lemma decayed_confidence_le (floor : Py.float) (days : Z) (meta : Metadata) :
  (1 <= days)%Z ->
  0 <= confidence meta -> floor <= confidence meta ->
  ((0 < default 1 (access_count meta))%Z ->
   (default 0 (positive_reinforcement meta) <= default 1 (access_count meta))%Z) ->
  decayed_confidence pow floor days meta <= confidence meta.
Proof.
  intros Hd Hc Hfloor Hratio. unfold decayed_confidence.
  rewrite fmax_value. apply Q.max_lub; [exact Hfloor |].
  pose proof (decay_factor_le_1 days meta Hd Hratio) as Hf.
  unfold Py.fmul, Py.value at 1. cbn [Py.written].
  apply binary64_le_value. nra.
Qed.

(** A value that the decay pass finds more than 0.001 below the old one
    is at least 0.0005 below it. *)
Lemma changed_is_lower (new old : Py.float) :
  new <= old ->
  Py.gtb (Py.fabs (Py.fsub new old)) (Py.Float 0.001) = true ->
  new + (1 # 2000) <= old.
Proof.
  intros Hle Hgt. apply gtb_gt in Hgt. rewrite fabs_value in Hgt.
  unfold Py.fsub, Py.value at 2 in Hgt. cbn [Py.written] in Hgt.
  destruct (Qlt_le_dec old (new + (1 # 2000))) as [Hnear | Hfar];
    [| exact Hfar].
  exfalso.
  pose proof (binary64_mono (- (1 # 2000)) (new - old) ltac:(lra)) as Hlo.
  pose proof (binary64_nonpos (new - old) ltac:(lra)) as Hhi.
  pose proof half_thousandth as Hk.
  rewrite Qabs_neg in Hgt by exact Hhi. lra.
Qed.

End DecayBounds.

(** C8, as the code has it. The decay of a record never raises its
    confidence when that confidence is not negative and not below the floor
    and [positive_reinforcement] does not exceed [access_count], the [pow]
    of the C library returning the powers of 0.99 within [0, 1]; and a
    record with less than one elapsed day is left as it is, with the whole
    store and its index entry, whatever its confidence, its counters and
    that [pow]. *)
Theorem decay_never_raises (pow : Py.float -> Z -> Py.float)
    (dry_run : bool) (now : Z) (mid : string)
    (entry : IndexEntry) (st : Store) (stats : DecayStats) (m : Memory) :
  load_memory mid st = Some m ->
  let r := process_memory pow dry_run now mid entry (st, stats) in
  ((forall d : Z, (1 <= d)%Z -> 0 <= pow (Py.Float 0.99) d <= 1) ->
   0 <= confidence (metadata m) ->
   config_min_confidence (config st) <= confidence (metadata m) ->
   ((0 < default 1 (access_count (metadata m)))%Z ->
    (default 0 (positive_reinforcement (metadata m))
     <= default 1 (access_count (metadata m)))%Z) ->
   exists m',
     load_memory mid (fst (snd r)) = Some m'
     /\ confidence (metadata m') <= confidence (metadata m))
  /\ ((days_since_access (config_decay_days (config st)) now (metadata m) < 1)%Z ->
      fst r = entry /\ fst (snd r) = st).
Proof.
  intros Hload r.
  destruct (process_memory_known pow dry_run now mid entry st stats m Hload)
    as (Hretired & Hrecent & Hdecay).
  fold r in Hretired, Hrecent, Hdecay.
  split; [| exact Hrecent].
  intros Hpow Hc Hfloor Hratio.
  set (days := days_since_access (config_decay_days (config st)) now (metadata m)) in *.
  destruct (is_retired (metadata m)) eqn:Eret.
  { destruct (Hretired eq_refl) as [_ ->]. exists m. split; [exact Hload | lra]. }
  destruct (Z.lt_ge_cases days 1) as [Hlt | Hge].
  { destruct (Hrecent Hlt) as [_ ->]. exists m. split; [exact Hload | lra]. }
  destruct (Hdecay eq_refl Hge) as (m' & Hload' & Hconf).
  exists m'. split; [exact Hload' |]. rewrite Hconf.
  pose proof (decayed_confidence_le pow Hpow _ days (metadata m) Hge Hc Hfloor
                Hratio) as Hle.
  set (new := decayed_confidence pow (config_min_confidence (config st)) days
                (metadata m)) in *.
  destruct (Py.gtb (Py.fabs (Py.fsub new (confidence (metadata m))))
              (Py.Float 0.001)) eqn:Egt;
    cbn [andb]; [| lra].
  destruct dry_run; cbn [negb]; [lra |].
  apply round3_upper. now apply changed_is_lower.
Qed.

(** The power rounded to the nearest binary64 number is such a [pow]. *)
Lemma rounded_pow_unit (d : Z) :
  (1 <= d)%Z -> 0 <= Samples.pow (Py.Float 0.99) d <= 1.
Proof.
  intros Hd. unfold Samples.pow, Py.value at 1 3. cbn [Py.written].
  set (v := Py.value (Py.Float 0.99)).
  assert (Hv : 0 < v /\ v <= 1)
    by (split; vm_compute; [reflexivity | discriminate]).
  clearbody v.
  destruct Hv as [Hv0 Hv1]. split.
  - apply binary64_nonneg. apply Qpower_0_le. lra.
  - apply Qle_trans with (y := Py.value (Py.Float 1));
      [| rewrite value_one; apply Qle_refl].
    apply binary64_le_value. rewrite value_one.
    assert (H1 : 1 <= (/ v) ^ d).
    { apply Qpower_1_le; [| lia].
      apply Qle_shift_inv_l; [exact Hv0 | lra]. }
    rewrite Qinv_power in H1.
    assert (Hp : 0 < v ^ d) by (apply Qpower_0_lt; exact Hv0).
    assert (Hinv : v ^ d * / v ^ d == 1) by (apply Qmult_inv_r; lra).
    set (p := v ^ d) in *. set (q := / p) in *. nra.
Qed.

Lemma decay_never_raises_witness :
  exists m',
    load_memory "m1"
      (fst (snd (process_memory Samples.pow false (50 * Samples.one_day) "m1"
                   Samples.entry (Samples.store, stats0))))
    = Some m'
    /\ confidence (metadata m') <= Py.Float 0.5.
Proof.
  destruct (decay_never_raises Samples.pow false
              (50 * Samples.one_day) "m1" Samples.entry
              Samples.store stats0 Samples.memory)
    as [Hle _].
  - reflexivity.
  - apply Hle.
    + exact rounded_pow_unit.
    + vm_compute. discriminate.
    + vm_compute. discriminate.
    + intros _. vm_compute. discriminate.
Defined.

(** C8 as the specification words it fails below the floor: with the floor
    configured to 0.2, a record that a rejection took from 0.25 to 0.1 is
    raised to 0.2 by the decay pass one day later. *)
Lemma decay_raises_below_floor_counterexample :
  let st0 := Samples.store_of Samples.shaky_memory (Some (Py.Float 0.2)) in
  let st1 := snd (adjust_confidence "m1" "rejected" (Py.Float 0) 0 st0) in
  let st2 :=
    fst (snd (process_memory Samples.pow false Samples.one_day "m1"
                Samples.entry (st1, stats0))) in
  exists m1 m2,
    load_memory "m1" st1 = Some m1
    /\ load_memory "m1" st2 = Some m2
    /\ days_since_access 30 Samples.one_day (metadata m1) = 1%Z
    /\ confidence (metadata m1) == Py.Float 0.1
    /\ confidence (metadata m2) == Py.Float 0.2
    /\ ~ confidence (metadata m2) <= confidence (metadata m1).
Proof.
  cbv zeta. eexists. eexists.
  split; [vm_compute; reflexivity |].
  split; [vm_compute; reflexivity |].
  split; [vm_compute; reflexivity |].
  split; [vm_compute; reflexivity |].
  split; [vm_compute; reflexivity |].
  vm_compute. intros H. apply H. reflexivity.
Qed.

(** *** The feedback log *)

Lemma ascii_compare_spec (a b : ascii) :
  CompareSpec (a = b) (N_of_ascii a < N_of_ascii b)%N
    (N_of_ascii b < N_of_ascii a)%N (Ascii.compare a b).
Proof.
  unfold Ascii.compare.
  destruct (N.compare_spec (N_of_ascii a) (N_of_ascii b)) as [H | H | H];
    constructor; try assumption.
  rewrite <- (ascii_N_embedding a), <- (ascii_N_embedding b). now rewrite H.
Qed.

Lemma string_leb_refl (s : string) : String.leb s s = true.
Proof.
  unfold String.leb. induction s as [| c s IH]; [reflexivity |].
  simpl. destruct (ascii_compare_spec c c); try lia. exact IH.
Qed.

Lemma string_leb_trans (a b c : string) :
  String.leb a b = true -> String.leb b c = true -> String.leb a c = true.
Proof.
  unfold String.leb. revert b c.
  induction a as [| x a IH]; intros [| y b] [| z c]; simpl;
    try reflexivity; try discriminate.
  destruct (ascii_compare_spec x y), (ascii_compare_spec y z),
    (ascii_compare_spec x z);
    subst; try lia; try reflexivity; try discriminate; try apply IH.
Qed.

Lemma string_ltb_leb (a b : string) :
  String.ltb a b = true -> String.leb a b = true.
Proof.
  unfold String.ltb, String.leb. destruct (String.compare a b); intros H; (reflexivity || discriminate).
Qed.

Lemma string_ltb_false_leb (a b : string) :
  String.ltb a b = false -> String.leb b a = true.
Proof.
  unfold String.ltb, String.leb. rewrite (String.compare_antisym b a).
  destruct (String.compare a b); intros H; (reflexivity || discriminate).
Qed.

(** [max_string] gives an element of the list that no element exceeds. *)
Lemma max_string_spec (x : string) (l : list string) :
  exists w,
    Py.max_string (x :: l) = Some w
    /\ In w (x :: l)
    /\ forall y, In y (x :: l) -> String.leb y w = true.
Proof.
  revert x. induction l as [| z l IH]; intros x.
  - exists x. simpl. repeat split; [now left |].
    intros y [<- | []]. apply string_leb_refl.
  - destruct (IH z) as (w & Hw & Hin & Hmax).
    change (Py.max_string (x :: z :: l))
      with (match Py.max_string (z :: l) with
            | None => Some x
            | Some y => if String.ltb x y then Some y else Some x
            end).
    rewrite Hw. destruct (String.ltb x w) eqn:E.
    + exists w. split; [reflexivity |]. split; [now right |].
      intros y [<- | Hy]; [now apply string_ltb_leb | now apply Hmax].
    + exists x. split; [reflexivity |]. split; [now left |].
      intros y [<- | Hy]; [apply string_leb_refl |].
      eapply string_leb_trans; [apply Hmax, Hy | now apply string_ltb_false_leb].
Qed.

(** The entries a run reads: those of the log that the marker does not
    cover. *)
Lemma read_entries_spec (last_processed : option string) (lines : list LogLine)
    (e : FeedbackEntry) :
  In e (fst (read_entries last_processed lines))
  <-> In (Entry e) lines /\ already_processed last_processed e = false.
Proof.
  induction lines as [| line rest IH]; simpl.
  - tauto.
  - destruct (read_entries last_processed rest) as [entries errors].
    simpl in IH. destruct line as [| | e']; simpl.
    + rewrite IH. intuition discriminate.
    + rewrite IH. intuition discriminate.
    + destruct (already_processed last_processed e') eqn:E; simpl.
      * rewrite IH. split.
        -- intros [H1 H2]. auto.
        -- intros [[H | H] H2]; [| auto].
           injection H as ->. congruence.
      * rewrite IH. split.
        -- intros [<- | [H1 H2]]; auto.
        -- intros [[H | H] H2]; [injection H as ->; now left | right; auto].
Qed.



(** Why the time stamp is asked for: an entry without one leaves the empty
    string in the marker file, which the next run takes as no marker, and
    the entry is read again. *)
Lemma untimed_entry_is_read_again :
  let files0 := Samples.log_of [Entry Samples.untimed] in
  let run1 :=
    process_pending_feedback Samples.no_correction Samples.clock0 files0
      Samples.store in
  let files1 := snd run1 in
  processed_marker files1 = Some ""%string
  /\ In Samples.untimed
       (fst (read_entries (read_marker files1) [Entry Samples.untimed])).
Proof.
  cbv zeta. split; [vm_compute; reflexivity |].
  vm_compute. left. reflexivity.
Qed.

(** And the white space: a time stamp that ends in a space is written to
    the marker file as it is and read back without the space, below the
    time stamp of the entry, which is read again. *)
Lemma padded_entry_is_read_again :
  let e := Samples.timed "2024-01-01T00:00:00Z " "ghost" "accepted" in
  let files0 := Samples.log_of [Entry e] in
  let run1 :=
    process_pending_feedback Samples.no_correction Samples.clock0 files0
      Samples.store in
  let files1 := snd run1 in
  processed_marker files1 = Some "2024-01-01T00:00:00Z "%string
  /\ read_marker files1 = Some "2024-01-01T00:00:00Z"%string
  /\ In e (fst (read_entries (read_marker files1) [Entry e])).
Proof.
  cbv zeta. split; [vm_compute; reflexivity |].
  split; [vm_compute; reflexivity |].
  vm_compute. left. reflexivity.
Qed.

End ConfidenceProps.

(** ** The matcher *)

Module ReProps.
Import Py Re.
Local Open Scope string_scope.

Lemma first_some_In {A B} (f : A -> option B) (l : list A) (y : B) :
  first_some f l = Some y -> exists x, In x l /\ f x = Some y.
Proof.
  induction l as [| x l IH]; simpl; [discriminate |].
  destruct (f x) eqn:E.
  - intros [= <-]. exists x. auto.
  - intros H. destruct (IH H) as (x' & Hin & Hx'). exists x'. auto.
Qed.

Lemma counts_bounds (lo n : nat) (greedy : bool) (k : nat) :
  In k (counts lo n greedy) -> (lo <= k <= n)%nat.
Proof.
  unfold counts. intros H.
  assert (Hin : In k (seq lo (S n - lo))).
  { destruct greedy; [apply in_rev |]; exact H. }
  apply in_seq in Hin. lia.
Qed.

Lemma drop_chars_drop_chars (i j : nat) (s : string) :
  drop_chars i (drop_chars j s) = drop_chars (j + i) s.
Proof.
  revert s. induction j as [| j IH]; intros s; [reflexivity |].
  destruct s as [| c s]; simpl.
  - destruct i; reflexivity.
  - apply IH.
Qed.

(** Every match [finditer] reports is a match of the pattern at its own
    start, on the rest of the subject from there. *)
Lemma finditer_from_sound (multiline : bool) (items : list item) (s : string) :
  forall (skip : nat) (prev : option ascii) (pos : nat) (m : Match),
    In m (finditer_from multiline items skip prev pos s) ->
    exists (k : nat) (prev' : option ascii),
      match_at multiline items prev' (pos + k) (drop_chars k s) = Some m.
Proof.
  induction s as [| c s IH]; intros skip prev pos m Hin.
  - destruct skip; simpl in Hin; [| contradiction].
    destruct (match_at multiline items prev pos "") eqn:E; [| contradiction].
    destruct Hin as [<- | []]. exists 0%nat, prev.
    rewrite Nat.add_0_r. exact E.
  - assert (Hrest : forall skip',
              In m (finditer_from multiline items skip' (Some c) (S pos) s) ->
              exists k prev',
                match_at multiline items prev' (pos + k) (drop_chars k (String c s))
                = Some m).
    { intros skip' H. destruct (IH _ _ _ _ H) as (k & prev' & Hk).
      exists (S k), prev'. rewrite Nat.add_succ_r. exact Hk. }
    destruct skip; simpl in Hin; [| eauto].
    destruct (match_at multiline items prev pos (String c s)) eqn:E; [| eauto].
    destruct Hin as [<- | Hin]; [| eauto].
    exists 0%nat, prev. rewrite Nat.add_0_r. exact E.
Qed.

Lemma finditer_sound (multiline : bool) (items : list item) (s : string)
    (m : Match) :
  In m (finditer multiline items s) ->
  exists (k : nat) (prev : option ascii),
    match_at multiline items prev k (drop_chars k s) = Some m.
Proof.
  intros H. destruct (finditer_from_sound _ _ _ _ _ _ _ H) as (k & prev & Hk).
  exists k, prev. exact Hk.
Qed.

Lemma take_run (cls : ascii -> bool) (s : string) (k : nat) :
  (k <= run_length cls None s)%nat ->
  String.length (take_chars k s) = k /\ all_chars cls (take_chars k s) = true.
Proof.
  revert s. induction k as [| k IH]; intros s Hk.
  - destruct s; split; reflexivity.
  - destruct s as [| c s]; simpl in Hk; [lia |].
    destruct (cls c) eqn:E; [| lia].
    destruct (IH s ltac:(lia)) as [Hlen Hall].
    simpl. rewrite E, Hlen, Hall. split; reflexivity.
Qed.

(** A match of [\b CLS{lo,} \b] is a word of at least [lo] characters of
    the class. *)
Lemma bounded_run_match (cls : ascii -> bool) (lo : nat) (subject : string)
    (m : Match) :
  In m (finditer false [WordBoundary; Rep cls lo None true; WordBoundary] subject) ->
  (lo <= String.length (group0 subject m))%nat
  /\ all_chars cls (group0 subject m) = true.
Proof.
  intros Hin. destruct (finditer_sound _ _ _ _ Hin) as (p & prev & Hm).
  unfold match_at in Hm. cbn [match_items] in Hm.
  destruct (xorb _ _); [| discriminate].
  destruct (first_some _ _) as [[e groups] |] eqn:E; [| discriminate].
  injection Hm as <-.
  apply first_some_In in E. destruct E as (k & Hk & Hrest).
  apply counts_bounds in Hk.
  destruct (xorb _ _); [| discriminate]. injection Hrest as <- <-.
  unfold group0, slice. cbn [m_start m_end].
  replace (p + k - p)%nat with k by lia.
  destruct (take_run cls (drop_chars p subject) k ltac:(lia)) as [Hlen Hall].
  rewrite Hlen. split; [lia | exact Hall].
Qed.

End ReProps.

(** ** Promotion and import *)

Module SyncProps.
Import MemoryLib SyncClaudeMd.
Local Open Scope Q_scope.




(** *** Trigger keywords *)

Section Keywords.

(** The iteration order of a set: each element of the given words once. *)
Variable set_order : list string -> list string.
Hypothesis set_order_NoDup : forall ws, NoDup (set_order ws).
Hypothesis set_order_elem : forall ws w, w ∈ set_order ws <-> w ∈ ws.

Lemma set_order_length (ws : list string) :
  length (set_order ws) = length (remove_dups ws).
Proof.
  apply Permutation_length, NoDup_Permutation.
  - apply set_order_NoDup.
  - apply NoDup_remove_dups.
  - intros w. rewrite set_order_elem, elem_of_remove_dups. reflexivity.
Qed.

(** C7, as the code has it. The trigger keywords of an imported bullet are
    distinct words of the lower-cased bullet text, each of at least four
    word characters; there are five of them, or all the distinct words when
    the text has fewer; which five, and in which order, is left to the
    iteration order of a set. *)
Theorem trigger_keywords_spec (rule : string) :
  let words := rule_words (Py.lower rule) in
  let keywords := trigger_keywords set_order rule in
  NoDup keywords
  /\ (forall w, w ∈ keywords -> w ∈ words)
  /\ (forall w, w ∈ keywords ->
        (4 <= String.length w)%nat /\ Py.all_chars Py.is_word w = true)
  /\ length keywords = Nat.min 5 (length (remove_dups words)).
Proof.
  intros words keywords. subst keywords. unfold trigger_keywords. fold words.
  assert (Hsub : forall w, w ∈ take 5 (set_order words) -> w ∈ words).
  { intros w Hw. apply set_order_elem.
    eapply elem_of_sublist; [exact Hw | apply sublist_take]. }
  split; [| split; [exact Hsub | split]].
  - eapply sublist_NoDup; [apply set_order_NoDup | apply sublist_take].
  - intros w Hw. apply Hsub in Hw. apply list_elem_of_In in Hw.
    unfold words, rule_words in Hw. apply in_map_iff in Hw.
    destruct Hw as (m & <- & Hm).
    exact (ReProps.bounded_run_match Py.is_word 4 _ m Hm).
  - rewrite length_take, set_order_length. reflexivity.
Qed.

End Keywords.

Lemma reverse_order_NoDup (ws : list string) : NoDup (reverse (remove_dups ws)).
Proof. rewrite reverse_Permutation. apply NoDup_remove_dups. Qed.

Lemma reverse_order_elem (ws : list string) (w : string) :
  w ∈ reverse (remove_dups ws) <-> w ∈ ws.
Proof. rewrite elem_of_reverse. apply elem_of_remove_dups. Qed.

Lemma trigger_keywords_spec_witness :
  let keywords :=
    trigger_keywords (fun ws => reverse (remove_dups ws))
      "Always indent with tabs" in
  NoDup keywords /\ length keywords = 4%nat.
Proof.
  destruct (trigger_keywords_spec (fun ws => reverse (remove_dups ws))
              reverse_order_NoDup reverse_order_elem
              "Always indent with tabs")
    as (Hnodup & _ & _ & Hlen).
  split; [exact Hnodup | exact Hlen].
Defined.

(** C7 as the specification words it fails: the code takes the words out
    of a set, whose order is not the order of the text; with a set that is
    iterated from its last element to its first, the bullet "always indent
    with tabs" gives the keywords in the reverse of their order in the
    text. *)
Lemma trigger_keywords_order_counterexample :
  exists set_order : list string -> list string,
    (forall ws, NoDup (set_order ws))
    /\ (forall ws w, w ∈ set_order ws <-> w ∈ ws)
    /\ Stated.trigger_keywords "always indent with tabs"
       = ["always"; "indent"; "with"; "tabs"]%string
    /\ trigger_keywords set_order "always indent with tabs"
       = ["tabs"; "with"; "indent"; "always"]%string
    /\ trigger_keywords set_order "always indent with tabs"
       <> Stated.trigger_keywords "always indent with tabs".
Proof.
  exists (fun ws => reverse (remove_dups ws)).
  split; [exact reverse_order_NoDup |].
  split; [exact reverse_order_elem |].
  split; [vm_compute; reflexivity |].
  split; [vm_compute; reflexivity |].
  vm_compute. discriminate.
Qed.

End SyncProps.

(** ** The document *)

Module PromoteProps.
Import MemoryLib Py Re PromoteWorkflow.
Local Open Scope string_scope.

Lemma split_lines_nonempty (s : string) : split_lines s <> [].
Proof.
  destruct s as [| c s]; simpl; [discriminate |].
  destruct (Ascii.eqb c newline); [discriminate |].
  destruct (split_lines s); discriminate.
Qed.

(** ['\n'.join(s.split('\n')) == s]. *)
Lemma join_split_lines (s : string) : join_lines (split_lines s) = s.
Proof.
  induction s as [| c s IH]; [reflexivity |].
  simpl. destruct (Ascii.eqb c newline) eqn:E.
  - apply Ascii.eqb_eq in E. subst c.
    pose proof (split_lines_nonempty s) as Hne.
    destruct (split_lines s) as [| l ls]; [contradiction |].
    change (join_lines ("" :: l :: ls)) with ("" ++ String newline (join_lines (l :: ls))).
    rewrite IH. reflexivity.
  - pose proof (split_lines_nonempty s) as Hne.
    destruct (split_lines s) as [| l ls]; [contradiction |].
    destruct ls as [| l' ls].
    + simpl in *. now rewrite IH.
    + change (join_lines (String c l :: l' :: ls))
        with (String c (l ++ String newline (join_lines (l' :: ls)))).
      change (join_lines (l :: l' :: ls))
        with (l ++ String newline (join_lines (l' :: ls))) in IH.
      now rewrite IH.
Qed.

Lemma insert_into_lines_no_header (section_name entry : string)
    (lines : list string) :
  (forall line, In line lines ->
     re_match false (header_pattern section_name) line = None) ->
  insert_into_lines section_name entry lines false false = lines.
Proof.
  induction lines as [| line rest IH]; intros H; [reflexivity |].
  simpl. rewrite (H line (or_introl eq_refl)). simpl.
  f_equal. apply IH. intros l Hl. apply H. now right.
Qed.

Lemma insert_after_lines_no_header (section_name text : string)
    (lines : list string) (level : nat) :
  (forall line, In line lines ->
     re_match false (after_header_pattern section_name) line = None) ->
  insert_after_lines section_name text lines false level = lines.
Proof.
  induction lines as [| line rest IH]; intros H; [reflexivity |].
  simpl. rewrite (H line (or_introl eq_refl)). simpl.
  f_equal. apply IH. intros l Hl. apply H. now right.
Qed.

Lemma after_prefix_app (p q s : string) :
  after_prefix (p ++ q) s
  = match after_prefix p s with
    | Some s' => after_prefix q s'
    | None => None
    end.
Proof.
  revert s. induction p as [| a p IH]; intros s; [reflexivity |].
  destruct s as [| b s]; [reflexivity |].
  simpl. destruct (Ascii.eqb a b); [apply IH | reflexivity].
Qed.

(** The header pattern of [insert_after_section] only matches a line that
    starts with the three characters "#2,". *)
Lemma after_header_needs_prefix (section_name line : string) :
  after_prefix "#2," line = None ->
  re_match false (after_header_pattern section_name) line = None.
Proof.
  intros H. change "#2," with ("#" ++ "2,") in H.
  rewrite after_prefix_app in H.
  unfold re_match, match_at, after_header_pattern.
  cbn [match_items at_bol].
  destruct (after_prefix "#" line) as [s1 |]; [| reflexivity].
  cbn [match_items]. rewrite H. reflexivity.
Qed.

(** [insert_after_section] returns the document as it is unless one of its
    lines starts with "#2,". *)
Lemma insert_after_section_identity (doc section_name text : string) :
  (forall line, In line (split_lines doc) -> after_prefix "#2," line = None) ->
  insert_after_section doc section_name text = doc.
Proof.
  intros H. unfold insert_after_section.
  rewrite insert_after_lines_no_header; [apply join_split_lines |].
  intros line Hl. apply after_header_needs_prefix, H, Hl.
Qed.




(** *** Creating a section *)

(** When an earlier canonical section exists, [create_section] hands the
    new section to [insert_after_section], which leaves the document as it
    is unless one of its lines starts with "#2,". *)
Lemma create_section_keeps_document (doc section_name entry prev : string)
    (idx : nat) :
  parse_claude_md_sections doc <> [] ->
  index_of section_name type_order = Some idx ->
  List.find (section_exists doc) (rev (take idx type_order)) = Some prev ->
  (forall line, In line (split_lines doc) -> after_prefix "#2," line = None) ->
  create_section doc section_name entry = doc.
Proof.
  intros Hparse Hidx Hfind Hlines. unfold create_section.
  destruct (parse_claude_md_sections doc); [contradiction |].
  rewrite Hidx, Hfind. now apply insert_after_section_identity.
Qed.

(** C6 on the code. For a "Workflows" entry and a document whose only
    canonical section is "Preferences", the section is missing, its nearest
    preceding canonical section exists, and [create_section] returns the
    document as it was, for every entry: no "Workflows" section is created
    after "Preferences", and [add_to_claude_md] writes the old text back.
    A "Preferences" section, which has no predecessor in the canonical
    order, is appended at the end of any document. *)
Theorem create_section_after_predecessor_drops_entry :
  section_exists Samples.preferences_doc "Workflows" = false
  /\ section_exists Samples.preferences_doc "Preferences" = true
  /\ (forall entry,
        create_section Samples.preferences_doc "Workflows" entry
        = Samples.preferences_doc)
  /\ add_to_claude_md Samples.workflow_memory Samples.preferences_doc
     = Some Samples.preferences_doc
  /\ (forall doc entry,
        create_section doc "Preferences" entry
        = append_section doc "Preferences" entry)
  /\ section_exists Samples.patterns_doc "Patterns & Conventions" = true
  /\ section_exists Samples.patterns_doc "Preferences" = false.
Proof.
  assert (Hdrop : forall entry,
            create_section Samples.preferences_doc "Workflows" entry
            = Samples.preferences_doc).
  { intros entry.
    apply (create_section_keeps_document _ _ _ "Preferences" 2).
    - vm_compute. discriminate.
    - reflexivity.
    - vm_compute. reflexivity.
    - intros line Hl. vm_compute in Hl.
      repeat (destruct Hl as [<- | Hl]; [vm_compute; reflexivity |]).
      contradiction. }
  split; [vm_compute; reflexivity |].
  split; [vm_compute; reflexivity |].
  split; [exact Hdrop |].
  split.
  { vm_compute. reflexivity. }
  split.
  { intros doc entry. unfold create_section.
    destruct (parse_claude_md_sections doc); reflexivity. }
  split; vm_compute; reflexivity.
Qed.

(** *** Duplicates *)

Lemma is_empty_set_true (s : gset string) : is_empty_set s = true <-> s = ∅.
Proof. unfold is_empty_set. apply bool_decide_eq_true. Qed.

Lemma is_empty_set_false (s : gset string) : is_empty_set s = false <-> s <> ∅.
Proof. unfold is_empty_set. apply bool_decide_eq_false. Qed.

Lemma overlap_disjoint (a b : gset string) :
  a ∩ b = ∅ -> (overlap a b == 0)%Q.
Proof.
  intros H. unfold overlap. rewrite H, size_empty.
  unfold Qdiv. apply Qmult_0_l.
Qed.

Lemma not_similar_disjoint (a b : gset string) :
  a ∩ b = ∅ -> Py.gtb (overlap a b) 0.7%Q = false.
Proof.
  intros H. unfold Py.gtb. apply FloatProps.ltb_ge.
  rewrite (overlap_disjoint a b H). unfold Qle. simpl. lia.
Qed.

(** The loop of [check_duplicate] finds the first title whose overlap is
    above 0.7: its guards on empty keyword sets skip nothing that would
    pass. *)
Lemma first_similar_find (memory_keywords : gset string)
    (existing_titles : list string) :
  first_similar memory_keywords existing_titles
  = List.find
      (fun t => Py.gtb (overlap memory_keywords (keyword_set t)) 0.7%Q)
      existing_titles.
Proof.
  induction existing_titles as [| t rest IH]; [reflexivity |].
  simpl. destruct (is_empty_set (keyword_set t)) eqn:E.
  - apply is_empty_set_true in E.
    assert (Hd : memory_keywords ∩ keyword_set t = ∅)
      by (rewrite E; apply (right_absorb_L ∅ (∩))).
    rewrite (not_similar_disjoint _ _ Hd). exact IH.
  - apply is_empty_set_false in E.
    assert (Hunion : is_empty_set (memory_keywords ∪ keyword_set t) = false).
    { apply is_empty_set_false. intros H. apply E. set_solver. }
    rewrite Hunion. cbn [negb andb].
    destruct (Py.gtb _ _); [reflexivity | exact IH].
Qed.

Lemma find_first {A} (f : A -> bool) (l : list A) (x : A) :
  List.find f l = Some x
  <-> exists l1 l2,
        l = (l1 ++ x :: l2)%list /\ f x = true /\ forall y, In y l1 -> f y = false.
Proof.
  induction l as [| a l IH]; simpl.
  - split; [discriminate |].
    intros (l1 & l2 & H & _). destruct l1; discriminate.
  - destruct (f a) eqn:E; split.
    + intros [= <-]. exists [], l. repeat split; [exact E | intros y []].
    + intros (l1 & l2 & H & Hx & Hl1). destruct l1 as [| b l1].
      * injection H as <- _. reflexivity.
      * injection H as <- _. rewrite (Hl1 a (or_introl eq_refl)) in E.
        discriminate.
    + intros H. apply IH in H. destruct H as (l1 & l2 & -> & Hx & Hl1).
      exists (a :: l1), l2. repeat split; [exact Hx |].
      intros y [<- | Hy]; [exact E | now apply Hl1].
    + intros (l1 & l2 & H & Hx & Hl1). apply IH. destruct l1 as [| b l1].
      * injection H as -> _. congruence.
      * injection H as <- ->. exists l1, l2. repeat split; [exact Hx |].
        intros y Hy. apply Hl1. now right.
Qed.

Lemma mem_string_In (w : string) (l : list string) :
  mem_string w l = true <-> In w l.
Proof.
  unfold mem_string. rewrite existsb_exists. split.
  - intros (x & Hx & E). apply String.eqb_eq in E. now subst.
  - intros H. exists w. split; [exact H | apply String.eqb_refl].
Qed.

(** The keywords of a text are words of at least three letters a-z that
    are not stop words. *)
Lemma extract_keywords_spec (text w : string) :
  In w (extract_keywords text) ->
  (3 <= String.length w)%nat
  /\ all_chars ascii_lower w = true
  /\ ~ In w stop_words.
Proof.
  unfold extract_keywords. intros H. apply filter_In in H.
  destruct H as [Hw Hstop]. apply in_map_iff in Hw.
  destruct Hw as (m & <- & Hm).
  destruct (ReProps.bounded_run_match ascii_lower 3 _ m Hm) as [Hlen Hall].
  repeat split; [exact Hlen | exact Hall |].
  intros Hin. apply mem_string_In in Hin. rewrite Hin in Hstop. discriminate.
Qed.

(** [check_duplicate] without its guards. *)
Lemma check_duplicate_eq (memory : Memory) (doc : string) :
  let titles := extract_memory_titles doc in
  let t := strip (default "" (title (content memory))) in
  check_duplicate memory doc
  = if mem_string t titles then ("exact", Some t)
    else match List.find
                 (fun x => Py.gtb (overlap (keyword_set t) (keyword_set x)) 0.7%Q)
                 titles with
         | Some x => ("similar", Some x)
         | None => ("new", None)
         end.
Proof.
  intros titles t. unfold check_duplicate. fold titles. fold t.
  destruct (mem_string t titles); [reflexivity |].
  rewrite first_similar_find.
  destruct (is_empty_set (keyword_set t)) eqn:E; [| reflexivity].
  apply is_empty_set_true in E.
  destruct (List.find _ titles) as [x |] eqn:F; [| reflexivity].
  apply find_some in F. destruct F as [_ F].
  rewrite not_similar_disjoint in F; [discriminate |].
  rewrite E. apply (left_absorb_L ∅ (∩)).
Qed.

(** C5, as the code has it. With the title of the record trimmed of
    surrounding white space (as the existing bolded bullet titles are):
    [check_duplicate] returns 'exact' exactly when that title is one of the
    existing titles; otherwise 'similar', with the first existing title in
    document order whose keyword set has a Jaccard similarity above 0.7 with
    the keyword set of the title, exactly when there is such a title;
    otherwise 'new'. A title that shares no keyword with any existing title
    is never 'similar'. Keywords are words of at least three letters that
    are not stop words. *)
Theorem check_duplicate_spec (memory : Memory) (doc : string) :
  let titles := extract_memory_titles doc in
  let t := strip (default "" (title (content memory))) in
  let jaccard := fun x => overlap (keyword_set t) (keyword_set x) in
  let result := check_duplicate memory doc in
  (fst result = "exact" <-> In t titles)
  /\ (In t titles -> result = ("exact", Some t))
  /\ (fst result = "similar"
      <-> ~ In t titles /\ exists x, In x titles /\ (0.7 < jaccard x)%Q)
  /\ (forall x,
        result = ("similar", Some x)
        <-> ~ In t titles
            /\ exists l1 l2,
                 titles = (l1 ++ x :: l2)%list
                 /\ (0.7 < jaccard x)%Q
                 /\ forall y, In y l1 -> ~ (0.7 < jaccard y)%Q)
  /\ (fst result = "new"
      <-> ~ In t titles /\ forall x, In x titles -> ~ (0.7 < jaccard x)%Q)
  /\ ((forall x, In x titles -> keyword_set t ∩ keyword_set x = ∅) ->
      fst result <> "similar")
  /\ (forall text w,
        w ∈ keyword_set text ->
        (3 <= String.length w)%nat
        /\ all_chars ascii_lower w = true
        /\ ~ In w stop_words).
Proof.
  intros titles t jaccard result.
  pose proof (check_duplicate_eq memory doc) as Heq.
  cbv zeta in Heq. fold titles t in Heq. fold result in Heq.
  set (f := fun x => Py.gtb (overlap (keyword_set t) (keyword_set x)) 0.7%Q) in *.
  assert (Hf : forall x, f x = true <-> (0.7 < jaccard x)%Q)
    by (intros x; apply FloatProps.gtb_gt).
  assert (Hnf : forall x, f x = false <-> ~ (0.7 < jaccard x)%Q).
  { intros x. rewrite <- Hf. destruct (f x); split; congruence. }
  clearbody result titles t jaccard.
  assert (Hkw : forall text w,
        w ∈ keyword_set text ->
        (3 <= String.length w)%nat
        /\ all_chars ascii_lower w = true
        /\ ~ In w stop_words).
  { intros text w Hw. unfold keyword_set in Hw.
    apply elem_of_list_to_set, list_elem_of_In in Hw.
    now apply extract_keywords_spec in Hw. }
  refine (conj _ (conj _ (conj _ (conj _ (conj _ (conj _ Hkw)))))).
  all: destruct (mem_string t titles) eqn:Em;
    [apply mem_string_In in Em
    | assert (Hnot : ~ In t titles)
        by (intros H; apply mem_string_In in H; congruence);
      destruct (List.find f titles) as [x0 |] eqn:F ];
    subst result; cbn [fst].
  (* 'exact' exactly when the title is an existing title *)
  - tauto.
  - split; [discriminate | contradiction].
  - split; [discriminate | contradiction].
  (* the answer on an existing title *)
  - reflexivity.
  - contradiction.
  - contradiction.
  (* 'similar' exactly when some title is above the threshold *)
  - split; [discriminate | tauto].
  - split; [| reflexivity]. intros _. split; [exact Hnot |].
    apply find_some in F. destruct F as [Hin0 Hf0].
    exists x0. split; [exact Hin0 | now apply Hf].
  - split; [discriminate |].
    intros (_ & x & Hx & Hj). apply Hf in Hj.
    rewrite (find_none _ _ F x Hx) in Hj. discriminate.
  (* the title reported is the first one above the threshold *)
  - intros x. split; [discriminate | tauto].
  - intros x. split.
    + intros [= <-]. split; [exact Hnot |].
      apply find_first in F. destruct F as (l1 & l2 & Hl & Hx & Hl1).
      exists l1, l2. split; [exact Hl |]. split; [now apply Hf |].
      intros y Hy. apply Hnf. now apply Hl1.
    + intros (_ & l1 & l2 & Hl & Hx & Hl1).
      assert (F' : List.find f titles = Some x).
      { apply find_first. exists l1, l2. split; [exact Hl |].
        split; [now apply Hf |]. intros y Hy. apply Hnf. now apply Hl1. }
      congruence.
  - intros x. split; [discriminate |].
    intros (_ & l1 & l2 & Hl & Hx & _). apply Hf in Hx.
    rewrite (find_none _ _ F x) in Hx; [discriminate |].
    rewrite Hl. apply in_or_app. right. now left.
  (* 'new' exactly when neither holds *)
  - split; [discriminate | tauto].
  - split; [discriminate |].
    intros [_ Hall]. exfalso.
    apply find_some in F. destruct F as [Hin0 Hf0].
    apply (Hall x0 Hin0). now apply Hf.
  - split; [| reflexivity]. intros _. split; [exact Hnot |].
    intros x Hx. apply Hnf. now apply (find_none _ _ F).
  (* no shared keyword, never 'similar' *)
  - discriminate.
  - intros Hdisj _. apply find_some in F. destruct F as [Hin0 Hf0].
    unfold f in Hf0.
    rewrite (not_similar_disjoint _ _ (Hdisj x0 Hin0)) in Hf0. discriminate.
  - discriminate.
Qed.

(** C5 as the specification words it fails on a title with white space
    around it: the record title "Use tabs " is not, verbatim, the bullet
    title "Use tabs", and [check_duplicate] answers 'exact'. *)
Lemma trimmed_title_exact_counterexample :
  let doc := "- **Use tabs**" ++ nl in
  title (content Samples.spaced_memory) = Some "Use tabs "
  /\ extract_memory_titles doc = ["Use tabs"]
  /\ ~ In "Use tabs " (extract_memory_titles doc)
  /\ check_duplicate Samples.spaced_memory doc = ("exact", Some "Use tabs").
Proof.
  cbv zeta. split; [reflexivity |].
  split; [vm_compute; reflexivity |].
  split; [| vm_compute; reflexivity].
  vm_compute. intros [H | []]. discriminate.
Qed.

End PromoteProps.

(** ** More on the confidence engine *)

Module ConfidenceExtra.
Import MemoryLib UpdateConfidence FloatProps ConfidenceProps.
Local Open Scope Q_scope.

Lemma value_tenth : 0.1 <= Py.Float 0.1.
Proof. vm_compute. discriminate. Qed.

Lemma value_tenth_le_1 : Py.Float 0.1 <= 1.
Proof. vm_compute. discriminate. Qed.

Lemma value_fifth : 0 <= Py.Float 0.2.
Proof. vm_compute. discriminate. Qed.

Lemma fadd_value (a b : Py.float) : Py.fadd a b == Py.binary64 (a + b).
Proof. apply Qeq_refl. Qed.

Lemma fsub_value (a b : Py.float) : Py.fsub a b == Py.binary64 (a - b).
Proof. apply Qeq_refl. Qed.

(** [min(1.0, a)] when [a] is not below the float 0.1. *)
Lemma fmin_range (a : Py.float) :
  Py.Float 0.1 <= a -> 0.1 <= Py.fmin (Py.Float 1) a <= 1.
Proof.
  intros Ha. pose proof value_tenth. pose proof value_tenth_le_1.
  pose proof value_one as H1. rewrite fmin_value, H1. split.
  - apply Q.min_glb; lra.
  - apply Q.le_min_l.
Qed.

(** [max(0.1, a)] when [a] is not above 1. *)
Lemma fmax_range (a : Py.float) :
  a <= 1 -> Py.Float 0.1 <= Py.fmax (Py.Float 0.1) a <= 1.
Proof.
  intros Ha. pose proof value_tenth_le_1. rewrite fmax_value. split.
  - apply Q.le_max_l.
  - apply Q.max_lub; lra.
Qed.

Lemma clamp_range (a : Py.float) :
  0.1 <= Py.fmin (Py.Float 1) (Py.fmax (Py.Float 0.1) a) <= 1.
Proof.
  apply fmin_range. rewrite fmax_value. apply Q.le_max_l.
Qed.

Lemma accepted_range (c : Py.float) :
  0.1 <= c <= 1 ->
  0.1 <= Py.fmin (Py.Float 1) (Py.fadd c (Py.Float 0.1)) <= 1.
Proof.
  intros [Hlo Hhi]. apply fmin_range. rewrite fadd_value.
  apply value_le_binary64. lra.
Qed.

Lemma rejected_range (c : Py.float) :
  0.1 <= c <= 1 ->
  0.1 <= Py.fmax (Py.Float 0.1) (Py.fsub c (Py.Float 0.2)) <= 1.
Proof.
  intros [Hlo Hhi]. pose proof value_tenth. pose proof value_fifth.
  destruct (fmax_range (Py.fsub c (Py.Float 0.2))) as [H1 H2]; [| split; lra].
  rewrite fsub_value. rewrite <- value_one. apply binary64_le_value.
  rewrite value_one. lra.
Qed.

Lemma adjust_metadata_range (outcome : string) (delta : Py.float) (now : Z)
    (meta : Metadata) :
  0.1 <= confidence meta <= 1 ->
  0.1 <= confidence (adjust_metadata outcome delta now meta) <= 1.
Proof.
  intros Hrange. unfold adjust_metadata.
  destruct (Py.truthy delta);
    [cbn [confidence set_access set_confidence]; apply clamp_range |].
  destruct (String.eqb outcome "accepted").
  { cbn [confidence set_access set_confidence set_positive_reinforcement].
    now apply accepted_range. }
  destruct (String.eqb outcome "rejected").
  { cbn [confidence set_access set_confidence set_negative_reinforcement].
    destruct (Py.ltb _ _);
      cbn [confidence set_access set_status set_confidence
           set_negative_reinforcement];
      now apply rejected_range. }
  destruct (String.eqb outcome "superseded");
    cbn [confidence set_access set_status]; exact Hrange.
Qed.

(** X1. [adjust_confidence] keeps the confidence of a record in
    [0.1, 1.0], whatever the outcome string and the explicit delta. *)
Theorem adjust_confidence_keeps_range (st : Store) (mid outcome : string)
    (delta : Py.float) (now : Z) (m : Memory) :
  load_memory mid st = Some m ->
  0.1 <= confidence (metadata m) <= 1 ->
  exists st' m',
    adjust_confidence mid outcome delta now st = (true, st')
    /\ load_memory mid st' = Some m'
    /\ 0.1 <= confidence (metadata m') <= 1.
Proof.
  intros Hload Hrange.
  destruct (adjust_confidence_known mid outcome delta now st m Hload)
    as (st' & Hrun & Hst').
  exists st', (set_metadata m (adjust_metadata outcome delta now (metadata m))).
  split; [exact Hrun |]. split; [exact Hst' |].
  cbn [metadata set_metadata]. now apply adjust_metadata_range.
Qed.

Lemma adjust_confidence_keeps_range_witness :
  exists st' m',
    adjust_confidence "m1" "accepted" (Py.Float 0.7) 7 Samples.store
    = (true, st')
    /\ load_memory "m1" st' = Some m'
    /\ 0.1 <= confidence (metadata m') <= 1.
Proof.
  apply (adjust_confidence_keeps_range Samples.store "m1" "accepted"
           (Py.Float 0.7) 7 Samples.memory).
  - reflexivity.
  - split; vm_compute; discriminate.
Defined.

(** *** The index *)

Lemma update_first_spec (mid : string) (meta : Metadata)
    (entries : list IndexEntry) :
  match update_first mid meta entries with
  | Some entries' =>
      exists l1 e l2,
        entries = (l1 ++ e :: l2)%list
        /\ entry_id e = mid
        /\ (forall x, In x l1 -> entry_id x <> mid)
        /\ entries' = (l1 ++ sync_entry meta e :: l2)%list
  | None => forall x, In x entries -> entry_id x <> mid
  end.
Proof.
  induction entries as [| a rest IH]; simpl; [intros x [] |].
  destruct (String.eqb (entry_id a) mid) eqn:E.
  - apply String.eqb_eq in E. exists [], a, rest.
    repeat split; [exact E | intros x []].
  - apply String.eqb_neq in E.
    destruct (update_first mid meta rest) as [rest' |]; simpl.
    + destruct IH as (l1 & e & l2 & -> & He & Hl1 & ->).
      exists (a :: l1), e, l2. repeat split; [exact He |].
      intros x [<- | Hx]; [exact E | now apply Hl1].
    + intros x [<- | Hx]; [exact E | now apply IH].
Qed.

Lemma update_first_project_spec (mid : string) (meta : Metadata)
    (projects : list (string * list IndexEntry)) :
  match update_first_project mid meta projects with
  | Some projects' =>
      exists p1 h l1 e l2 p2,
        projects = (p1 ++ (h, (l1 ++ e :: l2)%list) :: p2)%list
        /\ entry_id e = mid
        /\ (forall x, In x l1 -> entry_id x <> mid)
        /\ (forall p x, In p p1 -> In x (snd p) -> entry_id x <> mid)
        /\ projects' = (p1 ++ (h, (l1 ++ sync_entry meta e :: l2)%list) :: p2)%list
  | None => forall p x, In p projects -> In x (snd p) -> entry_id x <> mid
  end.
Proof.
  induction projects as [| [h entries] rest IH]; simpl; [intros p x [] |].
  pose proof (update_first_spec mid meta entries) as Hfirst.
  destruct (update_first mid meta entries) as [entries' |].
  - destruct Hfirst as (l1 & e & l2 & -> & He & Hl1 & ->).
    exists [], h, l1, e, l2, rest.
    repeat split; [exact He | exact Hl1 | intros p x []].
  - destruct (update_first_project mid meta rest) as [rest' |]; simpl.
    + destruct IH as (p1 & h' & l1 & e & l2 & p2 & -> & He & Hl1 & Hp1 & ->).
      exists ((h, entries) :: p1), h', l1, e, l2, p2.
      repeat split; [exact He | exact Hl1 |].
      intros p x [<- | Hp] Hx; [now apply Hfirst | now apply (Hp1 p)].
    + intros p x [<- | Hp] Hx; [now apply Hfirst | now apply (IH p)].
Qed.

(** X2. [adjust_confidence] on a known id rewrites that record and nothing
    else in the record files or the configuration; in the index it brings
    up to date the first entry of that id in the global list (confidence,
    last access and access count as in the record) or, when the global list
    has none, the first one in the project lists, and leaves every other
    entry, also later ones of the same id, as it was; an id the index does
    not list leaves the index as it was. *)
Theorem adjust_confidence_frame (st : Store) (mid outcome : string)
    (delta : Py.float) (now : Z) (m : Memory) :
  load_memory mid st = Some m ->
  let st' := snd (adjust_confidence mid outcome delta now st) in
  let meta' := adjust_metadata outcome delta now (metadata m) in
  let old := index st in
  let new := index st' in
  (forall other, other <> mid -> load_memory other st' = load_memory other st)
  /\ config st' = config st
  /\ ((exists l1 e l2,
         index_global old = (l1 ++ e :: l2)%list
         /\ entry_id e = mid
         /\ (forall x, In x l1 -> entry_id x <> mid)
         /\ index_global new = (l1 ++ sync_entry meta' e :: l2)%list
         /\ index_projects new = index_projects old)
      \/ ((forall x, In x (index_global old) -> entry_id x <> mid)
          /\ index_global new = index_global old
          /\ exists p1 h l1 e l2 p2,
               index_projects old = (p1 ++ (h, (l1 ++ e :: l2)%list) :: p2)%list
               /\ entry_id e = mid
               /\ (forall x, In x l1 -> entry_id x <> mid)
               /\ (forall p x, In p p1 -> In x (snd p) -> entry_id x <> mid)
               /\ index_projects new
                  = (p1 ++ (h, (l1 ++ sync_entry meta' e :: l2)%list) :: p2)%list)
      \/ ((forall x, In x (index_global old) -> entry_id x <> mid)
          /\ (forall p x, In p (index_projects old) -> In x (snd p) ->
                entry_id x <> mid)
          /\ new = old)).
Proof.
  intros Hload st' meta' old new.
  assert (Hst' : st' = save_index
            (update_index mid meta' (index st))
            (write_memory mid (set_metadata m meta') st)).
  { subst st'. unfold adjust_confidence. rewrite Hload. reflexivity. }
  split; [| split].
  - intros other Hne. rewrite Hst'. unfold load_memory, save_index, write_memory.
    cbn [memories set_index set_memories]. now apply lookup_insert_ne.
  - rewrite Hst'. reflexivity.
  - assert (Hnew : new = update_index mid meta' old).
    { subst new old. rewrite Hst'. reflexivity. }
    rewrite Hnew. unfold update_index.
    pose proof (update_first_spec mid meta' (index_global old)) as Hg.
    destruct (update_first mid meta' (index_global old)) as [g |].
    + left. destruct Hg as (l1 & e & l2 & Hold & He & Hl1 & ->).
      exists l1, e, l2. repeat split; assumption.
    + pose proof (update_first_project_spec mid meta' (index_projects old)) as Hp.
      destruct (update_first_project mid meta' (index_projects old)) as [ps |].
      * right. left. split; [exact Hg |]. split; [reflexivity |].
        destruct Hp as (p1 & h & l1 & e & l2 & p2 & Hold & He & Hl1 & Hp1 & ->).
        exists p1, h, l1, e, l2, p2. repeat split; assumption.
      * right. right. repeat split; assumption.
Qed.

Lemma adjust_confidence_frame_witness :
  let st' := snd (adjust_confidence "m1" "accepted" (Py.Float 0) 7 Samples.store) in
  load_memory "other" st' = load_memory "other" Samples.store
  /\ config st' = config Samples.store.
Proof.
  destruct (adjust_confidence_frame Samples.store "m1" "accepted"
              (Py.Float 0) 7 Samples.memory) as (Hother & Hconfig & _).
  - reflexivity.
  - split; [apply Hother; discriminate | exact Hconfig].
Defined.

(** *** Retired records *)

Lemma is_retired_set_status (meta : Metadata) (s : string) :
  is_retired (set_status meta s)
  = (String.eqb s "archived" || String.eqb s "superseded").
Proof. reflexivity. Qed.

(** X3. A record with status "archived" or "superseded" is skipped by the
    decay pass: at any time, in a real or a dry run, the store and the index
    entry stay as they are and the record counts as processed and
    unchanged. So is any record, whatever its status was, once
    [adjust_confidence] has handled the outcome "superseded" for it. *)
Theorem retired_record_is_skipped (pow : Py.float -> Z -> Py.float)
    (st : Store) (mid : string) (m : Memory) :
  load_memory mid st = Some m ->
  (forall status_value dry_run now entry stats,
     status (metadata m) = Some status_value ->
     status_value = "archived"%string \/ status_value = "superseded"%string ->
     process_memory pow dry_run now mid entry (st, stats)
     = (entry, (st, incr_unchanged (incr_processed stats))))
  /\ (forall delta now dry_run now' entry stats,
        let st1 := snd (adjust_confidence mid "superseded" delta now st) in
        process_memory pow dry_run now' mid entry (st1, stats)
        = (entry, (st1, incr_unchanged (incr_processed stats)))).
Proof.
  intros Hload. split.
  - intros status_value dry_run now entry stats Hstatus Hvalue.
    unfold process_memory. rewrite Hload.
    unfold is_retired. rewrite Hstatus.
    destruct Hvalue as [-> | ->]; reflexivity.
  - intros delta now dry_run now' entry stats st1.
    destruct (adjust_confidence_known mid "superseded" delta now st m Hload)
      as (st' & Hrun & Hst').
    subst st1. rewrite Hrun. cbn [snd].
    unfold process_memory. rewrite Hst'.
    assert (Hret : is_retired
              (metadata (set_metadata m
                 (adjust_metadata "superseded" delta now (metadata m)))) = true).
    { cbn [metadata set_metadata]. unfold adjust_metadata.
      change (String.eqb "superseded" "accepted") with false.
      change (String.eqb "superseded" "rejected") with false.
      change (String.eqb "superseded" "superseded") with true.
      cbn iota. destruct (Py.truthy delta); reflexivity. }
    rewrite Hret. reflexivity.
Qed.

(** An active record that feedback supersedes is skipped by the decay pass
    fifty days later. *)
Lemma retired_record_is_skipped_witness :
  let st1 :=
    snd (adjust_confidence "m1" "superseded" (Py.Float 0) 0 Samples.store) in
  status (metadata Samples.memory) = Some "active"%string
  /\ process_memory Samples.pow false (50 * Samples.one_day) "m1"
       Samples.entry (st1, stats0)
     = (Samples.entry, (st1, incr_unchanged (incr_processed stats0))).
Proof.
  split; [reflexivity |].
  refine (proj2 (retired_record_is_skipped Samples.pow Samples.store "m1"
                   Samples.memory _) (Py.Float 0) 0%Z false _ _ _).
  reflexivity.
Defined.

(** X4. Retirement is not final under feedback: the outcome "rejected" on
    an archived or superseded record whose confidence is below 0.5 sets its
    status to "under_review", and the decay pass handles the record
    again. *)
Theorem rejection_reactivates_retired (st : Store) (mid : string) (m : Memory)
    (now : Z) :
  load_memory mid st = Some m ->
  is_retired (metadata m) = true ->
  confidence (metadata m) < 0.5 ->
  exists st' m',
    adjust_confidence mid "rejected" (Py.Float 0) now st = (true, st')
    /\ load_memory mid st' = Some m'
    /\ status (metadata m') = Some "under_review"%string
    /\ is_retired (metadata m') = false.
Proof.
  intros Hload Hret Hc.
  destruct (adjust_confidence_known mid "rejected" (Py.Float 0) now st m Hload)
    as (st' & Hrun & Hst').
  exists st', (set_metadata m
                 (adjust_metadata "rejected" (Py.Float 0) now (metadata m))).
  split; [exact Hrun |]. split; [exact Hst' |].
  assert (Hlt : Py.ltb (Py.fmax (Py.Float 0.1)
                          (Py.fsub (confidence (metadata m)) (Py.Float 0.2)))
                  (Py.Float 0.3) = true).
  { apply ltb_lt. rewrite fmax_value.
    apply Q.max_lub_lt; [reflexivity |]. rewrite fsub_value.
    apply Qle_lt_trans
      with (y := Py.binary64 ((9007199254740991 # 18014398509481984)
                              - Py.Float 0.2)); [| reflexivity].
    apply binary64_mono.
    pose proof (below_half (confidence (metadata m)) ltac:(lra)). lra. }
  cbn [metadata set_metadata]. rewrite adjust_metadata_rejected. cbv zeta.
  rewrite Hlt. split; reflexivity.
Qed.

Lemma rejection_reactivates_retired_witness :
  exists st' m',
    adjust_confidence "m1" "rejected" (Py.Float 0) 7
      (Samples.store_of (Samples.with_metadata
         (set_status (set_confidence Samples.meta (Py.Float 0.2)) "archived"))
         None)
    = (true, st')
    /\ load_memory "m1" st' = Some m'
    /\ status (metadata m') = Some "under_review"%string
    /\ is_retired (metadata m') = false.
Proof.
  apply (rejection_reactivates_retired _ "m1"
           (Samples.with_metadata
              (set_status (set_confidence Samples.meta (Py.Float 0.2))
                 "archived")) 7).
  - reflexivity.
  - reflexivity.
  - reflexivity.
Defined.

(** *** The floor *)

(** X5. With a floor of at most three decimals (a float that [round(x, 3)]
    leaves as it is, such as the default 0.1), the decay pass leaves a
    record that is at or above the floor at or above the floor; and when a
    real run changes the record, it is archived exactly when the decayed
    confidence is at most the floor, and the confidence stored is then the
    floor. *)
Theorem decay_respects_floor (pow : Py.float -> Z -> Py.float)
    (dry_run : bool) (now : Z) (mid : string)
    (entry : IndexEntry) (st : Store) (stats : DecayStats) (m : Memory) :
  load_memory mid st = Some m ->
  Py.round3 (config_min_confidence (config st))
  == config_min_confidence (config st) ->
  let floor := config_min_confidence (config st) in
  let days := days_since_access (config_decay_days (config st)) now (metadata m) in
  let new := decayed_confidence pow floor days (metadata m) in
  let st' := fst (snd (process_memory pow dry_run now mid entry (st, stats))) in
  exists m',
    load_memory mid st' = Some m'
    /\ (floor <= confidence (metadata m) -> floor <= confidence (metadata m'))
    /\ (is_retired (metadata m) = false -> (1 <= days)%Z -> dry_run = false ->
        Py.Float 0.001 < Py.fabs (Py.fsub new (confidence (metadata m))) ->
        (new <= floor ->
         status (metadata m') = Some "archived"%string
         /\ confidence (metadata m') == floor)
        /\ (floor < new ->
            status (metadata m') = status (metadata m)
            /\ floor <= confidence (metadata m'))).
Proof.
  intros Hload Hfloor floor days new st'.
  assert (Hnew : floor <= new).
  { unfold new, decayed_confidence. rewrite fmax_value. apply Q.le_max_l. }
  assert (Hround : floor <= Py.round3 new).
  { unfold floor at 1. rewrite <- Hfloor. now apply round3_mono. }
  unfold st', process_memory, load_config. rewrite Hload.
  fold floor. fold days. fold new.
  destruct (is_retired (metadata m)) eqn:Eret.
  { exists m. cbn [fst snd]. split; [exact Hload |].
    split; [tauto | discriminate]. }
  destruct (days <? 1)%Z eqn:Edays.
  { exists m. cbn [fst snd]. split; [exact Hload |]. split; [tauto |].
    intros _ Hd. apply Z.ltb_lt in Edays. lia. }
  destruct (Py.gtb (Py.fabs (Py.fsub new (confidence (metadata m))))
              (Py.Float 0.001)) eqn:Egt.
  2:{ exists m. cbn [fst snd]. split; [exact Hload |]. split; [tauto |].
      intros _ _ _ Habs. apply gtb_gt in Habs. congruence. }
  destruct dry_run.
  { exists m. cbn [fst snd]. split; [exact Hload |]. split; [tauto |].
    discriminate. }
  cbn [fst snd]. eexists. split; [apply load_after_write |].
  cbn [metadata set_metadata].
  destruct (Py.leb new floor) eqn:Eleb.
  - apply leb_le in Eleb.
    cbn [confidence status set_status set_confidence].
    split; [intros _; exact Hround |].
    intros _ _ _ _. split.
    + intros _. split; [reflexivity |].
      unfold floor at 1. rewrite <- Hfloor. apply round3_comp.
      now apply Qle_antisym.
    + intros Hlt. lra.
  - cbn [confidence status set_confidence].
    split; [intros _; exact Hround |].
    intros _ _ _ _. split.
    + intros Hle. apply leb_le in Hle. congruence.
    + intros _. split; [reflexivity | exact Hround].
Qed.

Lemma decay_respects_floor_witness :
  exists m',
    load_memory "m1"
      (fst (snd (process_memory Samples.pow false (50 * Samples.one_day) "m1"
                   Samples.entry (Samples.store, stats0))))
    = Some m'
    /\ 0.1 <= confidence (metadata m').
Proof.
  destruct (decay_respects_floor Samples.pow false (50 * Samples.one_day) "m1"
              Samples.entry Samples.store stats0 Samples.memory)
    as (m' & Hload & Hfloor & _).
  - reflexivity.
  - reflexivity.
  - exists m'. split; [exact Hload |].
    apply Qle_trans with (y := Py.value (Py.Float 0.1)); [apply value_tenth |].
    apply Hfloor. vm_compute. discriminate.
Defined.

(** *** The decay pass as a whole *)

Import Invariants.

Section DecayPass.

Variable pow : Py.float -> Z -> Py.float.

Lemma decay_step_refl (dry_run : bool) (a : Store * DecayStats) :
  decay_step [] dry_run a a.
Proof.
  unfold decay_step. repeat split; try reflexivity; simpl; lia.
Qed.

Lemma decay_step_trans (ids1 ids2 : list string) (dry_run : bool)
    (a b c : Store * DecayStats) :
  decay_step ids1 dry_run a b -> decay_step ids2 dry_run b c ->
  decay_step (ids1 ++ ids2) dry_run a c.
Proof.
  destruct a as [sa xa], b as [sb xb], c as [sc xc].
  unfold decay_step. cbn [fst snd].
  intros (H1 & H2 & H3 & H4 & H5 & H6 & H7 & H8)
         (G1 & G2 & G3 & G4 & G5 & G6 & G7 & G8).
  rewrite length_app, Nat2Z.inj_add.
  split; [lia |]. split; [lia |]. split; [lia |]. split; [lia |].
  split; [congruence |]. split; [congruence |]. split.
  - intros other Hnot. rewrite G7, H7; [reflexivity | |];
      intros Hin; apply Hnot, in_or_app; auto.
  - intros Hdry. destruct (H8 Hdry) as [-> Ha], (G8 Hdry) as [-> Hb].
    split; [reflexivity | congruence].
Qed.

Lemma process_memory_step (dry_run : bool) (now : Z) (mid : string)
    (entry : IndexEntry) (acc : Store * DecayStats) :
  let r := process_memory pow dry_run now mid entry acc in
  decay_step [mid] dry_run acc (snd r)
  /\ entry_id (fst r) = entry_id entry
  /\ (dry_run = true -> fst r = entry).
Proof.
  destruct acc as [st stats]. unfold process_memory, decay_step, load_config.
  destruct (load_memory mid st) as [m |] eqn:Hload;
    [| cbn; repeat split; try reflexivity; try lia; tauto].
  destruct (is_retired (metadata m));
    [cbn; repeat split; try reflexivity; try lia; tauto |].
  destruct (_ <? 1)%Z;
    [cbn; repeat split; try reflexivity; try lia; tauto |].
  destruct (Py.gtb _ _);
    [| cbn; repeat split; try reflexivity; try lia; tauto].
  destruct dry_run;
    [cbn; repeat split; try reflexivity; try lia; tauto |].
  destruct (Py.leb _ _); cbn [fst snd].
  all: split; [| split; [reflexivity | discriminate]].
  all: split; [cbn; lia |].
  all: split; [cbn; lia |].
  all: split; [cbn; lia |].
  all: split; [cbn; lia |].
  all: split; [reflexivity |].
  all: split; [reflexivity |].
  all: split; [| discriminate].
  all: intros other Hnot; unfold load_memory, write_memory;
    cbn [memories set_memories]; apply lookup_insert_ne;
    intros ->; apply Hnot; now left.
Qed.

Lemma process_entries_step (dry_run : bool) (clock : nat -> Z)
    (entries : list IndexEntry) :
  forall (n : nat) (acc : Store * DecayStats),
    let r := process_entries pow dry_run clock n entries acc in
    decay_step (map entry_id entries) dry_run acc (snd r)
    /\ map entry_id (fst r) = map entry_id entries
    /\ (dry_run = true -> fst r = entries).
Proof.
  induction entries as [| entry rest IH]; intros n acc.
  - cbn. split; [apply decay_step_refl | split; [reflexivity | tauto]].
  - cbn [process_entries].
    pose proof (process_memory_step dry_run (clock n) (entry_id entry) entry acc)
      as (Hstep & Hid & Hdry).
    destruct (process_memory pow dry_run (clock n) (entry_id entry) entry acc)
      as [entry' acc1].
    pose proof (IH (S n) acc1) as (Hstep' & Hids & Hdry').
    destruct (process_entries pow dry_run clock (S n) rest acc1) as [rest' acc2].
    cbn [fst snd] in *. split; [| split].
    + exact (decay_step_trans [entry_id entry] _ _ _ _ _ Hstep Hstep').
    + cbn [map]. now rewrite Hid, Hids.
    + intros H. now rewrite (Hdry H), (Hdry' H).
Qed.

Lemma process_projects_step (dry_run : bool) (clock : nat -> Z)
    (projects : list (string * list IndexEntry)) :
  forall (n : nat) (acc : Store * DecayStats),
    let r := process_projects pow dry_run clock n projects acc in
    decay_step (project_ids projects) dry_run acc (snd r)
    /\ project_ids (fst r) = project_ids projects
    /\ map fst (fst r) = map fst projects
    /\ (dry_run = true -> fst r = projects).
Proof.
  induction projects as [| [h entries] rest IH]; intros n acc.
  - cbn. split; [apply decay_step_refl | repeat split; tauto].
  - cbn [process_projects].
    pose proof (process_entries_step dry_run clock entries n acc)
      as (Hstep & Hid & Hdry).
    destruct (process_entries pow dry_run clock n entries acc) as [entries' acc1].
    pose proof (IH (n + length entries)%nat acc1) as (Hstep' & Hids & Hkeys & Hdry').
    destruct (process_projects pow dry_run clock (n + length entries) rest acc1)
      as [rest' acc2].
    cbn [fst snd] in *. split; [| split; [| split]].
    + exact (decay_step_trans _ _ _ _ _ _ Hstep Hstep').
    + unfold project_ids in *. cbn [map concat snd]. now rewrite Hid, Hids.
    + cbn [map fst]. now rewrite Hkeys.
    + intros H. now rewrite (Hdry H), (Hdry' H).
Qed.

(** The pass as one step over all the ids of the index. *)
Lemma apply_confidence_decay_step (dry_run : bool) (clock : nat -> Z)
    (st : Store) :
  exists g ps st2 stats,
    apply_confidence_decay pow dry_run clock st
    = (stats, if dry_run then st2
              else save_index {| index_global := g; index_projects := ps |} st2)
    /\ decay_step (index_ids (index st)) dry_run (st, stats0) (st2, stats)
    /\ map entry_id g = map entry_id (index_global (index st))
    /\ project_ids ps = project_ids (index_projects (index st))
    /\ map fst ps = map fst (index_projects (index st)).
Proof.
  unfold apply_confidence_decay, load_index.
  pose proof (process_entries_step dry_run clock (index_global (index st)) 0
                (st, stats0)) as (Hstep & Hid & _).
  destruct (process_entries pow dry_run clock 0 (index_global (index st)) (st, stats0))
    as [g acc1].
  pose proof (process_projects_step dry_run clock (index_projects (index st))
                (length (index_global (index st))) acc1)
    as (Hstep' & Hids & Hkeys & _).
  destruct (process_projects pow dry_run clock (length (index_global (index st)))
              (index_projects (index st)) acc1) as [ps [st2 stats]].
  cbn [fst snd] in *.
  exists g, ps, st2, stats. split; [destruct dry_run; reflexivity |].
  split; [| auto].
  exact (decay_step_trans _ _ _ _ _ _ Hstep Hstep').
Qed.

(** X6. The statistics of a decay pass add up: every record processed is
    counted as decayed or as unchanged and never as both, the archived ones
    are among the decayed ones, no more records are processed than the
    index has entries, and a dry run never counts a record as archived. *)
Theorem decay_statistics_add_up (dry_run : bool) (clock : nat -> Z)
    (st : Store) :
  let stats := fst (apply_confidence_decay pow dry_run clock st) in
  processed stats = (decayed stats + unchanged stats)%Z
  /\ (0 <= archived stats <= decayed stats)%Z
  /\ (0 <= unchanged stats)%Z
  /\ (processed stats <= Z.of_nat (length (index_ids (index st))))%Z
  /\ (dry_run = true -> archived stats = 0%Z).
Proof.
  destruct (apply_confidence_decay_step dry_run clock st)
    as (g & ps & st2 & stats & -> & Hstep & _).
  cbn [fst]. unfold decay_step in Hstep. cbn in Hstep.
  destruct Hstep as (H1 & H2 & H3 & H4 & _ & _ & _ & H8).
  repeat split; try lia.
  intros Hdry. destruct (H8 Hdry) as [_ ->]. reflexivity.
Qed.

(** X7. A dry run of the decay pass writes nothing: the record files, the
    index and the configuration are as before. A real run leaves the
    configuration as it is, leaves every record the index does not list as
    it is, and keeps the ids of the index, in their order and under their
    project keys. *)
Theorem decay_pass_frame (clock : nat -> Z) (st : Store) :
  snd (apply_confidence_decay pow true clock st) = st
  /\ let st' := snd (apply_confidence_decay pow false clock st) in
     config st' = config st
     /\ (forall other, ~ In other (index_ids (index st)) ->
           load_memory other st' = load_memory other st)
     /\ map entry_id (index_global (index st'))
        = map entry_id (index_global (index st))
     /\ map fst (index_projects (index st'))
        = map fst (index_projects (index st))
     /\ index_ids (index st') = index_ids (index st).
Proof.
  split.
  - destruct (apply_confidence_decay_step true clock st)
      as (g & ps & st2 & stats & -> & Hstep & _).
    unfold decay_step in Hstep. cbn in Hstep.
    destruct Hstep as (_ & _ & _ & _ & _ & _ & _ & H8).
    destruct (H8 eq_refl) as [-> _]. reflexivity.
  - destruct (apply_confidence_decay_step false clock st)
      as (g & ps & st2 & stats & -> & Hstep & Hg & Hps & Hkeys).
    unfold decay_step in Hstep. cbn in Hstep.
    destruct Hstep as (_ & _ & _ & _ & Hconfig & _ & Hframe & _).
    cbn [snd]. split; [exact Hconfig |]. split; [exact Hframe |].
    cbn [index save_index set_index index_global index_projects].
    split; [exact Hg |]. split; [exact Hkeys |].
    unfold index_ids. cbn [index_global index_projects]. now rewrite Hg, Hps.
Qed.

End DecayPass.

(** *** The feedback run as a whole *)

Section FeedbackRun.

Variable create :
  string -> string -> string -> option string -> Store -> CallResult.

Lemma process_entry_counts (now : Z) (e : FeedbackEntry)
    (acc : Store * FeedbackStats) :
  let s := snd acc in
  let s' := snd (process_entry create now e acc) in
  (0 <= fb_processed s' - fb_processed s <= 1)%Z
  /\ (0 <= fb_errors s' - fb_errors s <= 1)%Z
  /\ (0 <= corrections_created s' - corrections_created s
      <= fb_processed s' - fb_processed s)%Z
  /\ (1 <= (fb_processed s' - fb_processed s) + (fb_errors s' - fb_errors s))%Z
  /\ ((forall a b c d st, exists i st', create a b c d st = Returned i st') ->
      ((fb_processed s' - fb_processed s) + (fb_errors s' - fb_errors s) = 1)%Z).
Proof.
  destruct acc as [st s]. unfold process_entry. cbn [snd].
  destruct (negb _ || negb _); [cbn; repeat split; lia |].
  destruct (adjust_confidence _ _ _ _ _) as [[|] st1];
    [| cbn; repeat split; lia].
  destruct (_ && auto_creates_memory e); [| cbn; repeat split; lia].
  match goal with
  | |- context [create ?a ?b ?c ?d ?x] =>
      destruct (create a b c d x) as [st2 | i st2] eqn:Ec
  end.
  - cbn. repeat split; try lia.
    intros H. match type of Ec with
    | create ?a ?b ?c ?d ?x = _ => destruct (H a b c d x) as (i & st' & Hc)
    end. congruence.
  - destruct (truthy_string i); cbn; repeat split; lia.
Qed.

Lemma process_entries_to_process_counts (clock : nat -> Z)
    (entries : list FeedbackEntry) :
  forall (n : nat) (acc : Store * FeedbackStats),
    let s := snd acc in
    let s' := snd (process_entries_to_process create clock n entries acc) in
    let count := Z.of_nat (length entries) in
    (0 <= fb_processed s' - fb_processed s <= count)%Z
    /\ (0 <= fb_errors s' - fb_errors s <= count)%Z
    /\ (0 <= corrections_created s' - corrections_created s
        <= fb_processed s' - fb_processed s)%Z
    /\ (count <= (fb_processed s' - fb_processed s) + (fb_errors s' - fb_errors s))%Z
    /\ ((forall a b c d st, exists i st', create a b c d st = Returned i st') ->
        ((fb_processed s' - fb_processed s) + (fb_errors s' - fb_errors s)
         = count)%Z).
Proof.
  induction entries as [| e rest IH]; intros n acc.
  - cbn. repeat split; lia.
  - cbn [process_entries_to_process length].
    pose proof (process_entry_counts (clock n) e acc) as (H1 & H2 & H3 & H4 & H5).
    pose proof (IH (S n) (process_entry create (clock n) e acc))
      as (G1 & G2 & G3 & G4 & G5).
    cbv zeta in *. rewrite Nat2Z.inj_succ.
    repeat split; try lia.
    intros H. specialize (H5 H). specialize (G5 H). lia.
Qed.

(** X8. The statistics of a feedback run add up. With [n] the number of
    entries the run reads as new and [m] the number of lines it cannot
    decode: at most [n] entries are counted as processed, the corrections
    created are among them, and every entry and every such line is counted
    as processed or as an error, so that [n + m <= processed + errors]; the
    sum is exactly [n + m] when [create_correction_memory] never raises (an
    entry whose adjustment succeeded and whose correction memory then failed
    is counted on both sides). *)
Theorem feedback_statistics_add_up (clock : nat -> Z) (files : FeedbackFiles)
    (st : Store) (lines : list LogLine) :
  feedback_file files = Some lines ->
  let stats := fst (fst (process_pending_feedback create clock files st)) in
  let n := Z.of_nat (length (fst (read_entries (read_marker files) lines))) in
  let m := malformed_count lines in
  (0 <= corrections_created stats <= fb_processed stats)%Z
  /\ (fb_processed stats <= n)%Z
  /\ (m <= fb_errors stats <= n + m)%Z
  /\ (n + m <= fb_processed stats + fb_errors stats)%Z
  /\ ((forall a b c d s, exists i s', create a b c d s = Returned i s') ->
      (fb_processed stats + fb_errors stats = n + m)%Z).
Proof.
  intros Hfile stats n m. subst stats n m.
  unfold process_pending_feedback. rewrite Hfile.
  rewrite <- (read_entries_errors (read_marker files) lines).
  destruct (read_entries (read_marker files) lines) as [entries errors].
  cbn [fst snd].
  destruct entries as [| e0 es]; [cbn; repeat split; lia |].
  pose proof (process_entries_to_process_counts clock (e0 :: es) 0
                (st, {| fb_processed := 0; fb_errors := errors;
                        corrections_created := 0 |}))
    as (H1 & H2 & H3 & H4 & H5).
  destruct (process_entries_to_process create clock 0 (e0 :: es) _)
    as [st' stats'].
  cbn [fst snd fb_processed fb_errors corrections_created] in *.
  repeat split; try lia.
  intros H. specialize (H5 H). lia.
Qed.

(** X9. Running the feedback pass again on the same log does nothing more:
    when every entry of the log has a time stamp that is not empty and has
    no white space around it, a second run reads no entry as new, leaves the
    record store and the marker as the first run left them, and reports no
    entry processed (the lines that cannot be decoded are counted as errors
    again). *)
Theorem feedback_rerun_changes_nothing (clock clock' : nat -> Z)
    (files : FeedbackFiles) (st : Store) (lines : list LogLine) :
  feedback_file files = Some lines ->
  (forall e, In (Entry e) lines ->
     entry_timestamp e <> ""%string
     /\ Py.strip (entry_timestamp e) = entry_timestamp e) ->
  let run1 := process_pending_feedback create clock files st in
  let st1 := snd (fst run1) in
  let files1 := snd run1 in
  fst (read_entries (read_marker files1) lines) = []
  /\ process_pending_feedback create clock' files1 st1
     = ({| fb_processed := 0; fb_errors := malformed_count lines;
           corrections_created := 0 |}, st1, files1).
Proof.
  intros Hfile Hstamps run1 st1 files1.
  assert (Hfile1 : feedback_file files1 = Some lines).
  { subst files1 run1. unfold process_pending_feedback. rewrite Hfile.
    destruct (read_entries (read_marker files) lines) as [[| e0 es] errors];
      [exact Hfile |].
    destruct (process_entries_to_process _ _ _ _ _). reflexivity. }
  assert (Hnone : fst (read_entries (read_marker files1) lines) = []).
  { destruct (fst (read_entries (read_marker files1) lines)) as [| e rest] eqn:E;
      [reflexivity | exfalso].
    assert (Hin : In e (fst (read_entries (read_marker files1) lines)))
      by (rewrite E; now left).
    apply read_entries_spec in Hin. destruct Hin as [Hline Hnew].
    subst files1 run1. unfold process_pending_feedback in Hnew.
    rewrite Hfile in Hnew.
    destruct (read_entries (read_marker files) lines) as [entries errors] eqn:R.
    destruct entries as [| e0 es].
    - (* the first run read nothing: the marker is the old one *)
      cbn [snd] in Hnew.
      assert (Hold : In e (fst (read_entries (read_marker files) lines))).
      { apply read_entries_spec. split; assumption. }
      rewrite R in Hold. contradiction.
    - destruct (process_entries_to_process _ _ _ _ _) as [st' stats'].
      cbn [snd] in Hnew.
      destruct (max_string_spec (entry_timestamp e0) (map entry_timestamp es))
        as (w & Hw & Hwin & Hmax).
      change (Py.max_string (map entry_timestamp (e0 :: es)))
        with (Py.max_string (entry_timestamp e0 :: map entry_timestamp es)) in Hnew.
      rewrite Hw in Hnew.
      (* the new marker is the time stamp of an entry of the log *)
      assert (Hw_entry : exists ew, In (Entry ew) lines /\ entry_timestamp ew = w).
      { change (In w (map entry_timestamp (e0 :: es))) in Hwin.
        apply in_map_iff in Hwin. destruct Hwin as (ew & Hts & Hew).
        exists ew. split; [| exact Hts].
        assert (Hr : In ew (fst (read_entries (read_marker files) lines)))
          by (rewrite R; exact Hew).
        now apply read_entries_spec in Hr. }
      destruct Hw_entry as (ew & Hew & Hts).
      destruct (Hstamps ew Hew) as [Hne Hstrip]. rewrite Hts in Hne, Hstrip.
      unfold read_marker in Hnew. cbn [processed_marker option_map] in Hnew.
      rewrite Hstrip in Hnew. unfold already_processed in Hnew.
      rewrite (nonempty_true w Hne) in Hnew. cbn [andb] in Hnew.
      (* every entry of the log is at or below it *)
      assert (Hle : String.leb (entry_timestamp e) w = true).
      { destruct (already_processed (read_marker files) e) eqn:Eold.
        - unfold already_processed in Eold.
          destruct (read_marker files) as [w0 |]; [| discriminate].
          apply andb_true_iff in Eold. destruct Eold as [Hw0 Hle0].
          assert (H0 : In e0 (fst (read_entries (Some w0) lines)))
            by (rewrite R; now left).
          apply read_entries_spec in H0. destruct H0 as [_ H0].
          unfold already_processed in H0. rewrite Hw0 in H0. cbn [andb] in H0.
          assert (Hw0e0 : String.leb w0 (entry_timestamp e0) = true).
          { destruct (String.leb_total w0 (entry_timestamp e0)) as [H | H];
              [exact H | congruence]. }
          eapply string_leb_trans; [exact Hle0 |].
          eapply string_leb_trans; [exact Hw0e0 |].
          apply Hmax. now left.
        - apply Hmax.
          change (In (entry_timestamp e) (map entry_timestamp (e0 :: es))).
          apply in_map.
          assert (Hr : In e (fst (read_entries (read_marker files) lines))).
          { apply read_entries_spec. split; assumption. }
          rewrite R in Hr. exact Hr. }
      congruence. }
  split; [exact Hnone |].
  unfold process_pending_feedback at 1. rewrite Hfile1.
  pose proof (read_entries_errors (read_marker files1) lines) as Herr.
  destruct (read_entries (read_marker files1) lines) as [entries errors].
  cbn [fst snd] in *. subst entries errors. reflexivity.
Qed.

End FeedbackRun.

Lemma feedback_statistics_add_up_witness :
  let stats :=
    fst (fst (process_pending_feedback Samples.no_correction Samples.clock0
                (Samples.log_of Samples.two_entries) Samples.store)) in
  (fb_processed stats + fb_errors stats = 3)%Z.
Proof.
  refine (proj2 (proj2 (proj2 (proj2
    (feedback_statistics_add_up Samples.no_correction Samples.clock0
       (Samples.log_of Samples.two_entries) Samples.store
       Samples.two_entries eq_refl)))) _).
  intros a b c d s. exists None, s. reflexivity.
Defined.

Lemma feedback_rerun_changes_nothing_witness :
  let run1 :=
    process_pending_feedback Samples.no_correction Samples.clock0
      (Samples.log_of Samples.two_entries) Samples.store in
  fst (read_entries (read_marker (snd run1)) Samples.two_entries) = [].
Proof.
  refine (proj1 (feedback_rerun_changes_nothing Samples.no_correction
    Samples.clock0 Samples.clock0 (Samples.log_of Samples.two_entries)
    Samples.store Samples.two_entries eq_refl _)).
  intros e He. vm_compute in He.
  destruct He as [He | [He | [He | []]]];
    try discriminate; injection He as <-; split;
    [discriminate | vm_compute; reflexivity
    | discriminate | vm_compute; reflexivity].
Defined.
End ConfidenceExtra.

(** ** More on the matcher *)

Module ReExtra.
Import Py Re ReProps Invariants.
Local Open Scope string_scope.

Lemma append_cons (a : ascii) (l s : string) :
  String a l ++ s = String a (l ++ s).
Proof. reflexivity. Qed.

Lemma append_empty_l (s : string) : "" ++ s = s.
Proof. reflexivity. Qed.

Lemma append_assoc (a b c : string) : (a ++ b) ++ c = a ++ b ++ c.
Proof.
  induction a as [| x a IH]; [reflexivity |].
  rewrite !append_cons. now rewrite IH.
Qed.

Lemma append_length (a b : string) :
  String.length (a ++ b) = (String.length a + String.length b)%nat.
Proof.
  induction a as [| x a IH]; [reflexivity |].
  rewrite append_cons. cbn [String.length]. now rewrite IH.
Qed.

Lemma after_prefix_Some (l s s' : string) :
  after_prefix l s = Some s' -> s = l ++ s'.
Proof.
  revert s. induction l as [| a l IH]; intros s H.
  - cbn [after_prefix] in H. now injection H as ->.
  - destruct s as [| b s]; [discriminate |]. cbn [after_prefix] in H.
    destruct (Ascii.eqb a b) eqn:E; [| discriminate].
    apply Ascii.eqb_eq in E. subst b. rewrite append_cons.
    f_equal. now apply IH.
Qed.

Lemma after_prefix_self (l s : string) : after_prefix l (l ++ s) = Some s.
Proof.
  induction l as [| a l IH]; [reflexivity |].
  rewrite append_cons. cbn [after_prefix]. now rewrite Ascii.eqb_refl.
Qed.

Lemma after_prefix_extend (l s s' t : string) :
  after_prefix l s = Some s' -> after_prefix l (s ++ t) = Some (s' ++ t).
Proof.
  intros H. apply after_prefix_Some in H. subst s.
  rewrite append_assoc. apply after_prefix_self.
Qed.

Lemma run_length_le_length (cls : ascii -> bool) (hi : option nat) (s : string) :
  (run_length cls hi s <= String.length s)%nat.
Proof.
  revert hi. induction s as [| c s IH]; intros hi; [simpl; lia |].
  cbn [run_length String.length].
  destruct hi as [[| h] |]; [lia | |]; destruct (cls c); try lia.
  - specialize (IH (Some h)). lia.
  - specialize (IH None). lia.
Qed.

Lemma run_length_extend (cls : ascii -> bool) (hi : option nat) (s t : string) :
  (run_length cls hi s <= run_length cls hi (s ++ t))%nat.
Proof.
  revert hi. induction s as [| c s IH]; intros hi; [simpl; lia |].
  rewrite append_cons. cbn [run_length].
  destruct hi as [[| h] |]; [lia | |]; destruct (cls c); try lia.
  - specialize (IH (Some h)). lia.
  - specialize (IH None). lia.
Qed.

Lemma drop_chars_extend (k : nat) (s t : string) :
  (k <= String.length s)%nat -> drop_chars k (s ++ t) = drop_chars k s ++ t.
Proof.
  revert s. induction k as [| k IH]; intros s Hk.
  - destruct s; destruct t; reflexivity.
  - destruct s as [| c s]; [simpl in Hk; lia |].
    rewrite append_cons. cbn [drop_chars]. apply IH. simpl in Hk. lia.
Qed.

Lemma counts_In (lo n k : nat) (greedy : bool) :
  (lo <= k <= n)%nat -> In k (counts lo n greedy).
Proof.
  intros H. unfold counts.
  assert (Hin : In k (seq lo (S n - lo))) by (apply in_seq; lia).
  destruct greedy; [now apply in_rev in Hin | exact Hin].
Qed.

Lemma first_some_exists {A B} (f : A -> option B) (l : list A) (x : A) (y : B) :
  In x l -> f x = Some y -> exists y', first_some f l = Some y'.
Proof.
  induction l as [| a l IH]; intros Hin Hx; [contradiction |].
  simpl. destruct (f a) as [b |] eqn:E; [now exists b |].
  destruct Hin as [-> | Hin]; [congruence | now apply IH].
Qed.

Lemma char_before_context (k : nat) (s t : string)
    (prev prev' : option ascii) :
  (k <= String.length s)%nat -> line_context prev prev' ->
  line_context (char_before k prev s) (char_before k prev' (s ++ t)).
Proof.
  revert s prev prev'. induction k as [| k IH]; intros s prev prev' Hk Hctx.
  - destruct s; destruct t; exact Hctx.
  - destruct s as [| c s]; [simpl in Hk; lia |].
    rewrite append_cons. cbn [char_before].
    apply IH; [simpl in Hk; lia | reflexivity].
Qed.

Lemma after_prefix_length (l s s' : string) :
  after_prefix l s = Some s' -> (String.length l <= String.length s)%nat.
Proof.
  intros H. apply after_prefix_Some in H. subst s.
  rewrite append_length. lia.
Qed.

(** A match of plain items on a line is also a match, with
    [re.MULTILINE], where the line stands in a document. *)
Lemma match_items_in_document (items : list item) (t : string) :
  forallb plain_item items = true ->
  line_end t ->
  forall (prev prev' : option ascii) (pos pos' : nat) (s : string)
         (opens opens' : list (nat * nat)) (groups groups' : spans)
         (r : nat * spans),
    line_context prev prev' ->
    match_items false items prev pos s opens groups = Some r ->
    exists r', match_items true items prev' pos' (s ++ t) opens' groups' = Some r'.
Proof.
  intros Hplain Ht.
  induction items as [| it items IH];
    intros prev prev' pos pos' s opens opens' groups groups' r Hctx Hm.
  - eexists. reflexivity.
  - cbn [forallb] in Hplain. apply andb_true_iff in Hplain.
    destruct Hplain as [Hit Hitems]. specialize (IH Hitems).
    destruct it as [l | cls lo hi greedy | | | | g | g];
      try discriminate; cbn [match_items] in *.
    + destruct (after_prefix l s) as [s' |] eqn:E; [| discriminate].
      rewrite (after_prefix_extend _ _ _ t E).
      eapply IH; [| exact Hm].
      apply char_before_context; [now apply after_prefix_length in E | exact Hctx].
    + apply first_some_In in Hm. destruct Hm as (k & Hk & Hm).
      apply counts_bounds in Hk.
      pose proof (run_length_le_length cls hi s) as Hlen.
      pose proof (run_length_extend cls hi s t) as Hext.
      destruct (IH (char_before k prev s) (char_before k prev' (s ++ t))
                  (pos + k)%nat (pos' + k)%nat (drop_chars k s)
                  opens opens' groups groups' r) as (r' & Hr').
      * apply char_before_context; [lia | exact Hctx].
      * exact Hm.
      * rewrite <- drop_chars_extend in Hr' by lia.
        eapply first_some_exists; [| exact Hr'].
        apply counts_In. lia.
    + destruct (at_bol false prev) eqn:E; [| discriminate].
      assert (Hb : at_bol true prev' = true).
      { destruct prev as [c |]; [simpl in E; discriminate |].
        destruct Hctx as [-> | ->]; reflexivity. }
      rewrite Hb. eapply IH; eassumption.
    + destruct (at_eol false s) eqn:E; [| discriminate].
      assert (He : at_eol true (s ++ t) = true).
      { destruct s as [| c s].
        - destruct Ht as [-> | [t' ->]]; reflexivity.
        - cbn [at_eol] in E. apply andb_true_iff in E. destruct E as [E _].
          rewrite append_cons. cbn [at_eol]. now rewrite E. }
      rewrite He. eapply IH; eassumption.
Qed.

(** [re.search] finds a match when the pattern matches somewhere. *)
Lemma search_from_complete (multiline : bool) (items : list item)
    (pre s : string) :
  forall (prev : option ascii) (pos : nat) (m : Match),
    match_at multiline items (char_before (String.length pre) prev (pre ++ s))
      (pos + String.length pre) s = Some m ->
    exists m', search_from multiline items prev pos (pre ++ s) = Some m'.
Proof.
  induction pre as [| c pre IH]; intros prev pos m Hm.
  - cbn [String.length] in Hm. rewrite append_empty_l in *.
    rewrite Nat.add_0_r in Hm.
    replace (char_before 0 prev s) with prev in Hm by (destruct s; reflexivity).
    destruct s; cbn [search_from]; rewrite Hm; eauto.
  - rewrite append_cons in *. cbn [search_from].
    destruct (match_at multiline items prev pos (String c (pre ++ s)));
      [eauto |].
    apply (IH (Some c) (S pos) m).
    cbn [String.length char_before] in Hm.
    now rewrite Nat.add_succ_r in Hm.
Qed.

Lemma match_at_Some (multiline : bool) (items : list item)
    (prev : option ascii) (pos : nat) (s : string) (r : nat * spans) :
  match_items multiline items prev pos s [] [] = Some r ->
  exists m, match_at multiline items prev pos s = Some m.
Proof.
  intros H. unfold match_at. rewrite H. destruct r. eauto.
Qed.

Lemma char_before_last (p : string) (c : ascii) (s : string)
    (prev : option ascii) :
  char_before (String.length (p ++ String c "")) prev ((p ++ String c "") ++ s)
  = Some c.
Proof.
  revert prev. induction p as [| a p IH]; intros prev.
  - rewrite append_empty_l, append_cons, append_empty_l.
    cbn [String.length char_before]. destruct s; reflexivity.
  - rewrite !append_cons. cbn [String.length char_before]. apply IH.
Qed.

(** The first line of a document is its beginning, and every other line
    follows a newline; after a line comes a newline or the end. *)
Lemma split_lines_decompose (doc : string) :
  exists l ls,
    split_lines doc = l :: ls
    /\ (exists t, doc = l ++ t /\ line_end t)
    /\ forall line, In line ls ->
         exists p t, doc = p ++ String newline (line ++ t) /\ line_end t.
Proof.
  induction doc as [| c doc IH].
  - exists "", []. split; [reflexivity |]. split; [| intros line []].
    exists "". split; [reflexivity | now left].
  - destruct IH as (l & ls & Hs & (t & Hdoc & Ht) & Htail).
    cbn [split_lines]. rewrite Hs. destruct (Ascii.eqb c newline) eqn:E.
    + apply Ascii.eqb_eq in E. subst c.
      exists "", (l :: ls). split; [reflexivity |]. split.
      * exists (String newline doc). split; [reflexivity | right; eauto].
      * intros line [<- | Hin].
        -- exists "", t. split; [| exact Ht].
           rewrite append_empty_l. now rewrite <- Hdoc.
        -- destruct (Htail line Hin) as (p & t' & Hp & Ht').
           exists (String newline p), t'. split; [| exact Ht'].
           rewrite append_cons. now rewrite <- Hp.
    + exists (String c l), ls. split; [reflexivity |]. split.
      * exists t. split; [| exact Ht]. rewrite append_cons. now rewrite <- Hdoc.
      * intros line Hin. destruct (Htail line Hin) as (p & t' & Hp & Ht').
        exists (String c p), t'. split; [| exact Ht'].
        rewrite append_cons. now rewrite <- Hp.
Qed.

(** Where a line of a document stands in it. *)
Lemma split_lines_In (doc line : string) :
  In line (split_lines doc) ->
  exists pre t,
    doc = pre ++ line ++ t
    /\ line_context None
         (char_before (String.length pre) None (pre ++ line ++ t))
    /\ line_end t.
Proof.
  intros Hin.
  destruct (split_lines_decompose doc) as (l & ls & Hs & (t & Hdoc & Ht) & Htail).
  rewrite Hs in Hin. destruct Hin as [<- | Hin].
  - exists "", t. split; [exact Hdoc |]. split; [| exact Ht].
    rewrite append_empty_l. cbn [String.length].
    destruct (l ++ t); now left.
  - destruct (Htail line Hin) as (p & t' & Hp & Ht').
    exists (p ++ String newline ""), t'.
    assert (Heq : (p ++ String newline "") ++ line ++ t'
                  = p ++ String newline (line ++ t')).
    { rewrite append_assoc. reflexivity. }
    split; [now rewrite Heq |]. split; [| exact Ht'].
    rewrite char_before_last. right. reflexivity.
Qed.

(** A line that the pattern matches by itself is found by [re.search] with
    [re.MULTILINE] in the document. *)
Lemma line_match_found (items : list item) (doc line : string) (m : Match) :
  forallb plain_item items = true ->
  In line (split_lines doc) ->
  re_match false items line = Some m ->
  exists m', re_search true items doc = Some m'.
Proof.
  intros Hplain Hin Hm.
  destruct (split_lines_In doc line Hin) as (pre & t & -> & Hctx & Ht).
  unfold re_match, match_at in Hm.
  destruct (match_items false items None 0 line [] []) as [r |] eqn:E;
    [| discriminate].
  destruct (match_items_in_document items t Hplain Ht None _ 0
              (0 + String.length pre)%nat line [] [] [] [] r Hctx E)
    as (r' & Hr').
  apply match_at_Some in Hr'. destruct Hr' as (m' & Hm').
  unfold re_search. eapply search_from_complete. exact Hm'.
Qed.

(** *** Runs and slices *)

Lemma take_chars_all (k : nat) (s : string) :
  (String.length s <= k)%nat -> take_chars k s = s.
Proof.
  revert s. induction k as [| k IH]; intros [| c s] H; simpl in *;
    try reflexivity; try lia.
  f_equal. apply IH. lia.
Qed.

Lemma run_length_all (cls : ascii -> bool) (s : string) :
  all_chars cls s = true -> run_length cls None s = String.length s.
Proof.
  induction s as [| c s IH]; [reflexivity |].
  cbn [all_chars run_length String.length]. intros H.
  apply andb_true_iff in H. destruct H as [Hc Hs]. rewrite Hc.
  f_equal. now apply IH.
Qed.

Lemma drop_chars_all (s : string) : drop_chars (String.length s) s = "".
Proof. induction s as [| c s IH]; [reflexivity | exact IH]. Qed.

(** The greedy order starts with the largest count. *)
Lemma counts_greedy_head (lo n : nat) :
  (lo <= n)%nat -> exists rest, counts lo n true = n :: rest.
Proof.
  intros H. unfold counts.
  replace (S n - lo)%nat with (S (n - lo)) by lia.
  rewrite seq_S, rev_app_distr. cbn [rev app].
  replace (lo + (n - lo))%nat with n by lia. eauto.
Qed.

End ReExtra.

(** ** More on the document *)

Module PromoteExtra.
Import MemoryLib Py Re ReProps ReExtra PromoteWorkflow PromoteProps Invariants.
Local Open Scope string_scope.

Lemma append_empty_r (s : string) : s ++ "" = s.
Proof.
  induction s as [| c s IH]; [reflexivity |].
  rewrite append_cons. now rewrite IH.
Qed.

Lemma header_pattern_plain (section_name : string) :
  forallb plain_item (header_pattern section_name) = true.
Proof. reflexivity. Qed.

(** A header found on a line is found in the whole text. *)
Lemma header_line_found (doc section_name line : string) :
  In line (split_lines doc) ->
  is_match (re_match false (header_pattern section_name) line) = true ->
  section_exists doc section_name = true.
Proof.
  intros Hin Hm. unfold section_exists.
  destruct (re_match false (header_pattern section_name) line) as [m |] eqn:E;
    [| discriminate].
  destruct (line_match_found _ doc line m (header_pattern_plain section_name) Hin E)
    as (m' & ->).
  reflexivity.
Qed.

(** X10. The two tests for a section agree in one direction: when some
    line of the document is a header of the section for
    [insert_into_section], which looks at the lines one by one,
    [section_exists], which searches the whole text, finds the section. *)
Theorem header_line_implies_section_exists (doc section_name line : string) :
  In line (split_lines doc) ->
  is_match (re_match false (header_pattern section_name) line) = true ->
  section_exists doc section_name = true.
Proof. apply header_line_found. Qed.

Lemma header_line_implies_section_exists_witness :
  section_exists Samples.preferences_doc "Preferences" = true.
Proof.
  apply (header_line_implies_section_exists Samples.preferences_doc
           "Preferences" "## Preferences").
  - vm_compute. right. right. left. reflexivity.
  - vm_compute. reflexivity.
Defined.

(** *** Lines of a text put together *)

Lemma split_lines_app_newline (a b : string) :
  split_lines (a ++ String newline b) = (split_lines a ++ split_lines b)%list.
Proof.
  induction a as [| c a IH].
  - rewrite append_empty_l. cbn [split_lines].
    now rewrite Ascii.eqb_refl.
  - rewrite append_cons. cbn [split_lines]. rewrite IH.
    destruct (Ascii.eqb c newline); [reflexivity |].
    pose proof (split_lines_nonempty a) as Hne.
    destruct (split_lines a) as [| l ls]; [contradiction | reflexivity].
Qed.

Lemma split_lines_single (line : string) :
  all_chars not_newline line = true -> split_lines line = [line].
Proof.
  induction line as [| c line IH]; [reflexivity |].
  cbn [all_chars split_lines]. intros H. apply andb_true_iff in H.
  destruct H as [Hc Hrest]. unfold not_newline in Hc.
  apply negb_true_iff in Hc. rewrite Hc, (IH Hrest). reflexivity.
Qed.

Lemma split_lines_no_newline (doc line : string) :
  In line (split_lines doc) -> all_chars not_newline line = true.
Proof.
  revert line. induction doc as [| c doc IH]; intros line Hin.
  - destruct Hin as [<- | []]. reflexivity.
  - cbn [split_lines] in Hin. destruct (Ascii.eqb c newline) eqn:E.
    + destruct Hin as [<- | Hin]; [reflexivity | now apply IH].
    + pose proof (split_lines_nonempty doc) as Hne.
      destruct (split_lines doc) as [| l ls]; [contradiction |].
      destruct Hin as [<- | Hin].
      * cbn [all_chars]. unfold not_newline at 1. rewrite E.
        apply IH. now left.
      * apply IH. now right.
Qed.

(** The lines of ['\n'.join(parts)] are the lines of the parts. *)
Lemma split_join_lines (parts : list string) :
  parts <> [] ->
  split_lines (join_lines parts) = concat (map split_lines parts).
Proof.
  induction parts as [| p rest IH]; [contradiction |]. intros _.
  destruct rest as [| q rest].
  - cbn [join_lines map concat]. now rewrite app_nil_r.
  - change (join_lines (p :: q :: rest))
      with (p ++ String newline (join_lines (q :: rest))).
    rewrite split_lines_app_newline, IH by discriminate. reflexivity.
Qed.

Lemma In_split_join (parts : list string) (part line : string) :
  In part parts -> In line (split_lines part) ->
  In line (split_lines (join_lines parts)).
Proof.
  intros Hp Hl. rewrite split_join_lines by (intros ->; contradiction).
  apply in_concat. exists (split_lines part). split; [| exact Hl].
  now apply in_map.
Qed.

(** A header line as the code writes it is a header for the line test. *)
Lemma written_header_matches (section_name : string) :
  is_match (re_match false (header_pattern section_name) ("## " ++ section_name))
  = true.
Proof.
  unfold re_match, match_at, header_pattern.
  cbn [match_items at_bol].
  change (after_prefix "##" ("## " ++ section_name))
    with (Some (" " ++ section_name)).
  cbv iota.
  match goal with
  | |- context [first_some ?f ?l] =>
      destruct (first_some_exists f l 1%nat
                  (0 + String.length "##" + 1 + String.length section_name + 0,
                   [])%nat) as (y & Hy)
  end.
  - apply counts_In. split; [lia |].
    change (" " ++ section_name) with (String " " section_name).
    cbn [run_length is_space]. change (is_space " ") with true. cbv iota. lia.
  - change (drop_chars 1 (" " ++ section_name)) with section_name.
    cbn [match_items].
    rewrite <- (append_empty_r section_name) at 2.
    rewrite after_prefix_self.
    cbn [run_length counts seq rev app first_some drop_chars match_items
         at_eol Nat.sub].
    reflexivity.
  - rewrite Hy. destruct y. reflexivity.
Qed.

Lemma In_split_lines_between (a line b : string) :
  all_chars not_newline line = true ->
  In line (split_lines (a ++ String newline (line ++ String newline b))).
Proof.
  intros H. rewrite !split_lines_app_newline, (split_lines_single line H).
  apply in_or_app. right. now left.
Qed.

(** The header of an appended section is found. *)
Lemma appended_section_found (doc section_name entry : string) :
  all_chars not_newline section_name = true ->
  section_exists (append_section doc section_name entry) section_name = true.
Proof.
  intros Hname.
  apply (header_line_found _ _ ("## " ++ section_name));
    [| apply written_header_matches].
  assert (Heq : append_section doc section_name entry
                = (rstrip doc ++ nl)
                  ++ String newline
                       (("## " ++ section_name)
                        ++ String newline (nl ++ entry ++ nl))).
  { unfold append_section, nl.
    rewrite !append_assoc, !append_cons, !append_empty_l. reflexivity. }
  rewrite Heq. apply In_split_lines_between.
  rewrite !append_cons, append_empty_l. cbn [all_chars]. exact Hname.
Qed.

(** X11. After [create_section] has appended a section at the end of the
    document, [section_exists] finds it (the section name being one
    line). *)
Theorem appended_section_exists (doc section_name entry : string) :
  all_chars not_newline section_name = true ->
  section_exists (append_section doc section_name entry) section_name = true.
Proof. apply appended_section_found. Qed.

Lemma appended_section_exists_witness :
  section_exists
    (append_section Samples.patterns_doc "Preferences" "- **Use tabs**")
    "Preferences" = true.
Proof.
  apply (appended_section_exists Samples.patterns_doc "Preferences"
           "- **Use tabs**").
  reflexivity.
Defined.

(** *** Where an entry goes *)

Lemma insert_into_lines_done (section_name entry : string)
    (lines : list string) (in_target_section : bool) :
  insert_into_lines section_name entry lines in_target_section true = lines.
Proof.
  revert in_target_section.
  induction lines as [| line rest IH]; intros b.
  - cbn. now rewrite andb_false_r.
  - cbn [insert_into_lines].
    destruct (is_match _); [now rewrite IH |].
    cbn [negb]. rewrite andb_false_r. cbn [andb]. now rewrite IH.
Qed.

Lemma insert_into_lines_in_section (section_name entry : string)
    (lines : list string) :
  exists body rest,
    lines = (body ++ rest)%list
    /\ (forall l, In l body ->
          is_match (re_match false (header_pattern section_name) l) = true
          \/ leaves_section 2 l = false)
    /\ ((rest = []
         /\ insert_into_lines section_name entry lines true false
            = (body ++ [""; entry])%list)
        \/ exists l rest',
             rest = l :: rest'
             /\ is_match (re_match false (header_pattern section_name) l) = false
             /\ leaves_section 2 l = true
             /\ insert_into_lines section_name entry lines true false
                = (body ++ entry :: "" :: l :: rest')%list).
Proof.
  induction lines as [| line rest0 IH].
  - exists [], []. split; [reflexivity |]. split; [intros l [] |].
    left. split; reflexivity.
  - destruct IH as (body & rest & Hlines & Hbody & Hres).
    cbn [insert_into_lines].
    destruct (is_match (re_match false (header_pattern section_name) line)) eqn:Eh.
    + exists (line :: body), rest. split; [cbn; now rewrite Hlines |].
      split; [intros l [<- | Hl]; [now left | now apply Hbody] |].
      destruct Hres as [[-> ->] | (l & rest' & -> & Hl1 & Hl2 & ->)].
      * left. split; reflexivity.
      * right. exists l, rest'. repeat split; assumption.
    + cbn [andb negb]. destruct (leaves_section 2 line) eqn:El.
      * exists [], (line :: rest0). split; [reflexivity |].
        split; [intros l [] |]. right. exists line, rest0.
        repeat split; try assumption.
        now rewrite insert_into_lines_done.
      * exists (line :: body), rest. split; [cbn; now rewrite Hlines |].
        split; [intros l [<- | Hl]; [now right | now apply Hbody] |].
        destruct Hres as [[-> ->] | (l & rest' & -> & Hl1 & Hl2 & ->)].
        -- left. split; reflexivity.
        -- right. exists l, rest'. repeat split; assumption.
Qed.

Lemma insert_into_lines_outside (section_name entry : string)
    (lines : list string) :
  (forall l, In l lines ->
     is_match (re_match false (header_pattern section_name) l) = false)
  \/ exists pre h after,
       lines = (pre ++ h :: after)%list
       /\ (forall l, In l pre ->
             is_match (re_match false (header_pattern section_name) l) = false)
       /\ is_match (re_match false (header_pattern section_name) h) = true
       /\ insert_into_lines section_name entry lines false false
          = (pre ++ h :: insert_into_lines section_name entry after true false)%list.
Proof.
  induction lines as [| line rest IH].
  - left. intros l [].
  - cbn [insert_into_lines].
    destruct (is_match (re_match false (header_pattern section_name) line)) eqn:Eh.
    + right. exists [], line, rest. repeat split; [intros l [] | exact Eh].
    + cbn [andb]. destruct IH as [Hnone | (pre & h & after & -> & Hpre & Hh & ->)].
      * left. intros l [<- | Hl]; [exact Eh | now apply Hnone].
      * right. exists (line :: pre), h, after. repeat split; [| exact Hh].
        intros l [<- | Hl]; [exact Eh | now apply Hpre].
Qed.

Lemma is_space_not_hash (c : ascii) :
  is_space c = true -> is_char "#" c = false.
Proof.
  intros H. unfold is_char. destruct (Ascii.eqb "#" c) eqn:E; [| reflexivity].
  apply Ascii.eqb_eq in E. subst c. discriminate.
Qed.

Lemma first_some_all {A B} (f : A -> option B) (l : list A) (P : B -> Prop) :
  l <> [] ->
  (forall x, In x l -> exists y, f x = Some y /\ P y) ->
  exists y, first_some f l = Some y /\ P y.
Proof.
  destruct l as [| a l]; [contradiction |]. intros _ H.
  destruct (H a (or_introl eq_refl)) as (y & Hy & HP).
  exists y. cbn. rewrite Hy. auto.
Qed.

Lemma take_chars_length (k : nat) (s : string) :
  (k <= String.length s)%nat -> String.length (take_chars k s) = k.
Proof.
  revert s. induction k as [| k IH]; intros s Hk.
  - destruct s; reflexivity.
  - destruct s as [| c s]; [simpl in Hk; lia |].
    cbn [take_chars String.length]. rewrite IH; [reflexivity |].
    simpl in Hk. lia.
Qed.

Lemma run_length_prefix (cls : ascii -> bool) (s : string) (k : nat) :
  (k <= run_length cls None s)%nat ->
  exists r, s = take_chars k s ++ r /\ all_chars cls (take_chars k s) = true
            /\ drop_chars k s = r.
Proof.
  revert s. induction k as [| k IH]; intros s Hk.
  - exists s. destruct s; repeat split.
  - destruct s as [| c s]; [simpl in Hk; lia |].
    cbn [run_length] in Hk. destruct (cls c) eqn:E; [| lia].
    destruct (IH s ltac:(lia)) as (r & Hs & Hall & Hd).
    exists r. cbn [take_chars drop_chars all_chars]. rewrite append_cons.
    rewrite <- Hs, E, Hall. repeat split. exact Hd.
Qed.

(** A line ends a level-2 section when it begins with exactly two "#"
    and a white space character. *)
Lemma leaves_section_2_spec (line : string) :
  leaves_section 2 line = true
  <-> exists c r, line = String "#" (String "#" (String c r))
                  /\ is_space c = true.
Proof.
  unfold leaves_section, re_match, match_at, next_section_pattern.
  cbn [match_items at_bol]. split.
  - destruct (first_some _ _) as [[e groups] |] eqn:E; [| discriminate].
    apply first_some_In in E. destruct E as (k & Hk & Hrest).
    apply counts_bounds in Hk.
    cbn [lookup_nat List.find fst snd Nat.eqb option_map] in Hrest.
    apply first_some_In in Hrest. destruct Hrest as (k2 & Hk2 & Hrest).
    apply counts_bounds in Hk2. injection Hrest as <- <-.
    unfold group, slice. cbn [m_groups lookup_nat List.find fst snd Nat.eqb
                              option_map drop_chars].
    rewrite Nat.sub_0_r.
    pose proof (run_length_le_length (is_char "#") None line) as Hlen.
    rewrite take_chars_length by lia.
    intros Hle. apply Nat.leb_le in Hle. assert (k = 2%nat) by lia. subst k.
    destruct line as [| a [| b [| c r]]]; cbn [run_length] in Hk;
      try lia.
    + destruct (is_char "#" a); cbn in Hk; lia.
    + destruct (is_char "#" a); [destruct (is_char "#" b) |];
        cbn in Hk, Hk2; lia.
    + destruct (is_char "#" a) eqn:Ea; [| lia].
      destruct (is_char "#" b) eqn:Eb; [| lia].
      apply Ascii.eqb_eq in Ea, Eb. subst a b.
      exists c, r. split; [reflexivity |].
      cbn [drop_chars run_length] in Hk2.
      destruct (is_space c); [reflexivity | lia].
  - intros (c & r & -> & Hc).
    cbn [run_length]. change (is_char "#" "#") with true. cbv iota.
    rewrite (is_space_not_hash c Hc).
    change (counts 2 2 true) with [2%nat]. cbn [first_some].
    cbn [lookup_nat List.find fst snd Nat.eqb option_map drop_chars match_items].
    match goal with
    | |- context [first_some ?f ?l] =>
        destruct (first_some_all f l
                    (fun y => snd y = [(1, (0, 0 + 2))]%nat)) as (y & Hy & HP)
    end.
    + cbn [run_length]. rewrite Hc. intros Hnil.
      pose proof (counts_In 1 (S (run_length is_space None r)) 1 true
                    ltac:(lia)) as Hin.
      rewrite Hnil in Hin. contradiction.
    + intros x _. eexists. split; reflexivity.
    + rewrite Hy. destruct y as [e groups]. cbn [snd] in HP. subst groups.
      reflexivity.
Qed.

(** X12. [insert_into_section] puts the entry at the end of the body of
    the first section of that name and changes nothing else. With the lines
    of the document: up to and including the first header line of the
    section they are kept; so are the lines after it up to the first line,
    not itself a header of the section, that begins with exactly two "#"
    and a white space character; before that line come the entry and an
    empty line, and the rest of the document follows as it was; when no such
    line follows, an empty line and the entry are put at the end. A document
    without a header line of the section is returned as it is. *)
Theorem insert_into_section_placement (doc section_name entry : string) :
  let lines := split_lines doc in
  let is_header :=
    fun l => is_match (re_match false (header_pattern section_name) l) in
  let ends_section :=
    fun l => exists c r,
      l = String "#" (String "#" (String c r)) /\ is_space c = true in
  ((forall l, In l lines -> is_header l = false)
   /\ insert_into_section doc section_name entry = doc)
  \/ exists pre h body rest,
       lines = (pre ++ h :: body ++ rest)%list
       /\ (forall l, In l pre -> is_header l = false)
       /\ is_header h = true
       /\ (forall l, In l body -> is_header l = true \/ ~ ends_section l)
       /\ ((rest = []
            /\ insert_into_section doc section_name entry
               = join_lines (pre ++ h :: body ++ [""; entry]))
           \/ exists l rest',
                rest = l :: rest'
                /\ is_header l = false
                /\ ends_section l
                /\ insert_into_section doc section_name entry
                   = join_lines (pre ++ h :: body ++ entry :: "" :: l :: rest')).
Proof.
  intros lines is_header ends_section. unfold insert_into_section. fold lines.
  destruct (insert_into_lines_outside section_name entry lines)
    as [Hnone | (pre & h & after & Hlines & Hpre & Hh & Hres)].
  - left. split; [exact Hnone |].
    rewrite insert_into_lines_no_header.
    + apply join_split_lines.
    + intros line Hl. specialize (Hnone line Hl).
      fold lines in Hl. destruct (re_match _ _ _); [discriminate | reflexivity].
  - right.
    destruct (insert_into_lines_in_section section_name entry after)
      as (body & rest & Hafter & Hbody & Hin).
    exists pre, h, body, rest. rewrite Hres.
    split; [now rewrite Hlines, Hafter |]. split; [exact Hpre |].
    split; [exact Hh |]. split.
    + intros l Hl. destruct (Hbody l Hl) as [H | H]; [now left | right].
      intros Hends. apply leaves_section_2_spec in Hends. congruence.
    + destruct Hin as [[-> ->] | (l & rest' & -> & Hl1 & Hl2 & ->)].
      * left. split; reflexivity.
      * right. exists l, rest'. repeat split; try assumption.
        now apply leaves_section_2_spec.
Qed.

(** *** What adding a record does to the document *)

Lemma insert_into_lines_keeps (section_name entry : string)
    (lines : list string) (l : string) :
  forall in_target_section inserted,
    In l lines ->
    In l (insert_into_lines section_name entry lines in_target_section inserted).
Proof.
  induction lines as [| line rest IH]; intros b1 b2 Hin; [contradiction |].
  cbn [insert_into_lines].
  destruct (is_match _).
  - destruct Hin as [<- | Hin]; [now left | right; now apply IH].
  - destruct (b1 && negb b2 && leaves_section 2 line).
    + right. right. destruct Hin as [<- | Hin]; [now left | right; now apply IH].
    + destruct Hin as [<- | Hin]; [now left | right; now apply IH].
Qed.

Lemma insert_after_lines_result (section_name text : string)
    (lines : list string) :
  forall in_section level,
    In text (insert_after_lines section_name text lines in_section level)
    \/ (in_section = false
        /\ insert_after_lines section_name text lines in_section level = lines).
Proof.
  induction lines as [| line rest IH]; intros b level.
  - cbn. destruct b; [left; now left | right; split; reflexivity].
  - cbn [insert_after_lines].
    destruct (re_match false (after_header_pattern section_name) line) as [m |].
    + left. right.
      destruct (IH true (String.length (group 1 line m))) as [H | [H _]];
        [exact H | discriminate].
    + destruct (b && leaves_section level line) eqn:E.
      * left. now left.
      * destruct (IH b level) as [H | [Hb H]].
        -- left. now right.
        -- right. split; [exact Hb | now rewrite H].
Qed.

Lemma section_of_type_one_line (memory_type : string) :
  all_chars not_newline (section_of_type memory_type) = true.
Proof.
  unfold section_of_type.
  repeat (destruct (String.eqb memory_type _); [reflexivity |]).
  reflexivity.
Qed.

Lemma insert_into_section_keeps_section (doc section_name entry : string) :
  section_exists doc section_name = true ->
  section_exists (insert_into_section doc section_name entry) section_name = true.
Proof.
  intros Hex. unfold insert_into_section.
  destruct (insert_into_lines_outside section_name entry (split_lines doc))
    as [Hnone | (pre & h & after & Hlines & _ & Hh & _)].
  - rewrite insert_into_lines_no_header.
    + now rewrite join_split_lines.
    + intros line Hl. specialize (Hnone line Hl).
      destruct (re_match _ _ _); [discriminate | reflexivity].
  - assert (Hin : In h (split_lines doc))
      by (rewrite Hlines; apply in_or_app; right; now left).
    apply (header_line_found _ _ h); [| exact Hh].
    apply (In_split_join _ h).
    + now apply insert_into_lines_keeps.
    + rewrite (split_lines_single h); [now left |].
      now apply (split_lines_no_newline doc).
Qed.

(** The new section as [create_section] writes it for
    [insert_after_section]. *)
Lemma new_section_text_lines (section_name entry : string) :
  all_chars not_newline section_name = true ->
  In ("## " ++ section_name)
     (split_lines (nl ++ "## " ++ section_name ++ nl ++ nl ++ entry)).
Proof.
  intros Hname.
  assert (Heq : nl ++ "## " ++ section_name ++ nl ++ nl ++ entry
                = "" ++ String newline
                    (("## " ++ section_name) ++ String newline (nl ++ entry))).
  { unfold nl. rewrite !append_assoc, !append_cons, !append_empty_l.
    reflexivity. }
  rewrite Heq. apply In_split_lines_between.
  rewrite !append_cons, append_empty_l. cbn [all_chars]. exact Hname.
Qed.

Lemma create_section_outcome (doc section_name entry : string) :
  all_chars not_newline section_name = true ->
  section_exists (create_section doc section_name entry) section_name = true
  \/ create_section doc section_name entry = doc.
Proof.
  intros Hname. unfold create_section.
  destruct (parse_claude_md_sections doc);
    [left; now apply appended_section_found |].
  destruct (index_of section_name type_order) as [idx |];
    [| left; now apply appended_section_found].
  destruct (List.find _ _) as [prev |];
    [| left; now apply appended_section_found].
  unfold insert_after_section.
  destruct (insert_after_lines_result prev
              (nl ++ "## " ++ section_name ++ nl ++ nl ++ entry)
              (split_lines doc) false 2) as [Hin | [_ ->]].
  - left. apply (header_line_found _ _ ("## " ++ section_name));
      [| apply written_header_matches].
    eapply In_split_join; [exact Hin |].
    now apply new_section_text_lines.
  - right. apply join_split_lines.
Qed.

(** X13. What [add_to_claude_md] returns is either a text in which
    [section_exists] finds the section of the record's type, or the
    document exactly as it was, the entry being lost; there is no third
    outcome. For a record of type "preference", or of a type outside the
    table, the section is always there afterwards. *)
Theorem add_to_claude_md_outcome (memory : Memory) (doc doc' t : string) :
  type memory = Some t ->
  add_to_claude_md memory doc = Some doc' ->
  (section_exists doc' (section_of_type t) = true \/ doc' = doc)
  /\ (section_of_type t = "Preferences" \/ section_of_type t = "General" ->
      section_exists doc' (section_of_type t) = true).
Proof.
  intros Htype Hadd. unfold add_to_claude_md in Hadd. rewrite Htype in Hadd.
  destruct (format_memory_entry memory) as [entry |]; [| discriminate].
  pose proof (section_of_type_one_line t) as Hname.
  destruct (section_exists doc (section_of_type t)) eqn:Eex;
    injection Hadd as <-.
  - split; [left |]; intros; now apply insert_into_section_keeps_section.
  - split; [now apply create_section_outcome |].
    intros Hsec. unfold create_section.
    destruct (parse_claude_md_sections doc);
      [now apply appended_section_found |].
    destruct Hsec as [-> | ->]; now apply appended_section_found.
Qed.

Lemma add_to_claude_md_outcome_witness :
  section_exists
    (default "" (add_to_claude_md Samples.memory Samples.patterns_doc))
    "Preferences" = true.
Proof.
  refine (proj2 (add_to_claude_md_outcome Samples.memory Samples.patterns_doc
                   (default "" (add_to_claude_md Samples.memory Samples.patterns_doc))
                   "preference" eq_refl _) _).
  - vm_compute. reflexivity.
  - left. reflexivity.
Defined.

(** *** Markers *)

Lemma contains_tail (needle : string) (c : ascii) (s : string) :
  contains needle (String c s) = false -> contains needle s = false.
Proof.
  cbn [contains]. destruct (after_prefix needle (String c s)); [discriminate |].
  trivial.
Qed.

Lemma contains_drop (needle s : string) (k : nat) :
  contains needle (drop_chars k s) = true -> contains needle s = true.
Proof.
  revert s. induction k as [| k IH]; intros s H.
  - destruct s; exact H.
  - destruct s as [| c s]; [exact H |].
    cbn [drop_chars] in H. apply IH in H.
    destruct (contains needle (String c s)) eqn:E; [reflexivity |].
    apply contains_tail in E. congruence.
Qed.

Lemma contains_prefix (needle s s' : string) :
  after_prefix needle s = Some s' -> contains needle s = true.
Proof. intros H. destruct s; cbn [contains]; now rewrite H. Qed.

Lemma after_prefix_drop (l s s' : string) :
  after_prefix l s = Some s' -> s' = drop_chars (String.length l) s.
Proof.
  revert s. induction l as [| a l IH]; intros s H.
  - cbn in H. injection H as <-. destruct s; reflexivity.
  - destruct s as [| b s]; [discriminate |]. cbn [after_prefix] in H.
    destruct (Ascii.eqb a b); [| discriminate].
    cbn [String.length drop_chars]. now apply IH.
Qed.

(** A match of a pattern that begins [LIT1 CLASS* LIT2] lies in a text
    that contains [LIT2]. *)
Lemma marker_match_contains (multiline : bool) (l1 l2 : string)
    (cls : ascii -> bool) (rest : list item) (prev : option ascii)
    (pos : nat) (s : string) :
  contains l2 s = false ->
  match_at multiline (Lit l1 :: Rep cls 0 None true :: Lit l2 :: rest)
    prev pos s = None.
Proof.
  intros Hno. unfold match_at. cbn [match_items].
  destruct (after_prefix l1 s) as [s1 |] eqn:E1; [| reflexivity].
  destruct (first_some _ _) as [[e groups] |] eqn:E; [| reflexivity].
  exfalso. apply first_some_In in E. destruct E as (k & _ & Hk).
  cbn [match_items] in Hk.
  destruct (after_prefix l2 (drop_chars k s1)) as [s2 |] eqn:E2;
    [| discriminate].
  apply contains_prefix, contains_drop in E2.
  rewrite (after_prefix_drop _ _ _ E1) in E2.
  apply contains_drop in E2. congruence.
Qed.

Lemma remove_from_no_marker (multiline : bool) (l1 l2 : string)
    (cls : ascii -> bool) (rest : list item) (s : string) :
  forall (prev : option ascii) (pos : nat),
    contains l2 s = false ->
    remove_from multiline (Lit l1 :: Rep cls 0 None true :: Lit l2 :: rest)
      0 prev pos s = s.
Proof.
  induction s as [| c s IH]; intros prev pos Hno; [reflexivity |].
  cbn [remove_from]. rewrite marker_match_contains by exact Hno.
  f_equal. apply IH. now apply contains_tail in Hno.
Qed.

(** X14. A document in which the text "memory-sync:" does not occur has
    no marker to remove: its manual part is the whole text, trimmed, and
    its sections are read from its own lines; HTML comments that are not
    markers stay. *)
Theorem document_without_markers (doc : string) :
  contains "memory-sync:" doc = false ->
  SyncClaudeMd.manual_sections doc = strip doc
  /\ parse_claude_md_sections doc = parse_lines (split_lines doc) None []
  /\ Stated.has_marker doc = false.
Proof.
  intros Hno. split; [| split].
  - unfold SyncClaudeMd.manual_sections, sub_empty,
      SyncClaudeMd.auto_sync_pattern.
    now rewrite remove_from_no_marker.
  - unfold parse_claude_md_sections, sub_empty, marker_pattern.
    now rewrite remove_from_no_marker.
  - unfold Stated.has_marker, re_search, marker_pattern.
    assert (H : forall s prev pos, contains "memory-sync:" s = false ->
              search_from false
                [Lit "<!--"; Rep is_space 0 None true; Lit "memory-sync:";
                 Rep any_char 0 None false; Lit "-->"] prev pos s = None).
    { induction s as [| c s IH]; intros prev pos H;
        cbn [search_from]; rewrite marker_match_contains by exact H;
        [reflexivity |].
      apply IH. now apply contains_tail in H. }
    now rewrite H.
Qed.

Lemma document_without_markers_witness :
  SyncClaudeMd.manual_sections Samples.preferences_doc
  = strip Samples.preferences_doc.
Proof.
  refine (proj1 (document_without_markers Samples.preferences_doc _)).
  vm_compute. reflexivity.
Defined.

(** *** Sections *)

Lemma rstrip_idempotent (s : string) : rstrip (rstrip s) = rstrip s.
Proof.
  induction s as [| c s IH]; [reflexivity |].
  cbn [rstrip]. destruct (rstrip s) as [| d r] eqn:E.
  - destruct (is_space c) eqn:Ec; [reflexivity |].
    cbn [rstrip]. now rewrite Ec.
  - change (rstrip (String c (String d r)))
      with (match rstrip (String d r) with
            | "" => if is_space c then "" else String c ""
            | String x y => String c (String x y)
            end).
    rewrite IH. reflexivity.
Qed.

Lemma rstrip_head (c : ascii) (s : string) :
  is_space c = false -> exists r, rstrip (String c s) = String c r.
Proof.
  intros Hc. cbn [rstrip]. destruct (rstrip s); [rewrite Hc |]; eauto.
Qed.

Lemma lstrip_head (s : string) :
  lstrip s = "" \/ exists c r, lstrip s = String c r /\ is_space c = false.
Proof.
  induction s as [| c s IH]; [now left |].
  cbn [lstrip]. destruct (is_space c) eqn:E; [exact IH |].
  right. eauto.
Qed.

(** [s.strip().strip() == s.strip()]. *)
Lemma strip_idempotent (s : string) : strip (strip s) = strip s.
Proof.
  unfold strip. destruct (lstrip_head s) as [-> | (c & r & -> & Hc)];
    [reflexivity |].
  destruct (rstrip_head c r Hc) as (r' & Hr). rewrite Hr.
  cbn [lstrip]. rewrite Hc, <- Hr. apply rstrip_idempotent.
Qed.

Lemma run_length_le_bound (cls : ascii -> bool) (h : nat) (s : string) :
  (run_length cls (Some h) s <= h)%nat.
Proof.
  revert h. induction s as [| c s IH]; intros h; [simpl; lia |].
  cbn [run_length]. destruct h as [| h]; [lia |].
  destruct (cls c); [specialize (IH h) |]; lia.
Qed.

(** A header line has two or three "#" in its first group. *)
Lemma section_pattern_level (line : string) (m : Match) :
  re_match false section_pattern line = Some m ->
  (2 <= String.length (group 1 line m) <= 3)%nat.
Proof.
  unfold re_match, match_at, section_pattern. cbn [match_items at_bol].
  destruct (first_some _ _) as [[e groups] |] eqn:E; [| discriminate].
  intros [= <-]. apply first_some_In in E. destruct E as (k & Hk & E).
  apply counts_bounds in Hk.
  cbn [lookup_nat List.find fst snd Nat.eqb option_map] in E.
  apply first_some_In in E. destruct E as (k2 & _ & E).
  apply first_some_In in E. destruct E as (k3 & _ & E).
  cbn [lookup_nat List.find fst snd Nat.eqb option_map] in E.
  destruct (at_eol false _); [| discriminate]. injection E as <- <-.
  unfold group, slice.
  cbn [m_groups lookup_nat List.find fst snd Nat.eqb option_map drop_chars].
  rewrite Nat.sub_0_r.
  pose proof (run_length_le_length (is_char "#") (Some 3) line).
  pose proof (run_length_le_bound (is_char "#") 3 line).
  rewrite take_chars_length by lia. lia.
Qed.

Lemma parse_lines_sections (lines : list string) :
  forall (current_section : option string) (current_content : list string)
         (sec : DocSection),
    (forall t, current_section = Some t -> strip t = t) ->
    In sec (parse_lines lines current_section current_content) ->
    sec_title sec <> ""
    /\ strip (sec_title sec) = sec_title sec
    /\ strip (sec_content sec) = sec_content sec
    /\ (2 <= sec_level sec <= 3)%nat.
Proof.
  assert (Hclose : forall current content level sec,
            (forall t, current = Some t -> strip t = t) ->
            (2 <= level <= 3)%nat ->
            In sec (close_section current content level) ->
            sec_title sec <> ""
            /\ strip (sec_title sec) = sec_title sec
            /\ strip (sec_content sec) = sec_content sec
            /\ (2 <= sec_level sec <= 3)%nat).
  { intros current content level sec Hcur Hlevel Hin.
    unfold close_section in Hin.
    destruct current as [t |]; cbn [truthy_string] in Hin; [| contradiction].
    destruct (nonempty t) eqn:E; [| contradiction].
    destruct Hin as [<- | []]. cbn [sec_title sec_content sec_level default].
    unfold Datatypes.id. split.
    - intros ->. discriminate.
    - split; [now apply Hcur |]. split; [apply strip_idempotent | exact Hlevel]. }
  induction lines as [| line rest IH];
    intros current content sec Hcur Hin; cbn [parse_lines] in Hin.
  - apply (Hclose current content 2%nat); [exact Hcur | lia | exact Hin].
  - destruct (re_match false section_pattern line) as [m |] eqn:E.
    + apply in_app_or in Hin. destruct Hin as [Hin | Hin].
      * apply (Hclose current content (String.length (group 1 line m)));
          [exact Hcur | now apply section_pattern_level | exact Hin].
      * apply (IH _ _ sec) in Hin; [exact Hin |].
        intros t [= <-]. apply strip_idempotent.
    + now apply (IH _ _ sec) in Hin.
Qed.

(** X15. Every section [parse_claude_md_sections] returns has a title that
    is not empty and is trimmed, a trimmed content, and level 2 or 3; a
    header whose title is empty after trimming opens no section. *)
Theorem parsed_sections_are_trimmed (doc : string) (sec : DocSection) :
  In sec (parse_claude_md_sections doc) ->
  sec_title sec <> ""
  /\ strip (sec_title sec) = sec_title sec
  /\ strip (sec_content sec) = sec_content sec
  /\ (2 <= sec_level sec <= 3)%nat.
Proof.
  unfold parse_claude_md_sections. apply parse_lines_sections.
  intros t [=].
Qed.

Lemma parsed_sections_are_trimmed_witness :
  strip "Preferences" = "Preferences".
Proof.
  refine (proj1 (proj2
    (parsed_sections_are_trimmed Samples.doc_with_intro
       {| sec_title := "Preferences"; sec_content := "- use tabs";
          sec_level := 2 |} _))).
  vm_compute. left. reflexivity.
Defined.

(** *** Titles *)

Lemma all_chars_lstrip (cls : ascii -> bool) (s : string) :
  all_chars cls s = true -> all_chars cls (lstrip s) = true.
Proof.
  induction s as [| c s IH]; [trivial |].
  intros H. cbn [lstrip]. destruct (is_space c); [| exact H].
  cbn [all_chars] in H. apply andb_true_iff in H. now apply IH.
Qed.

Lemma all_chars_rstrip (cls : ascii -> bool) (s : string) :
  all_chars cls s = true -> all_chars cls (rstrip s) = true.
Proof.
  induction s as [| c s IH]; [trivial |].
  intros H. cbn [all_chars] in H. apply andb_true_iff in H.
  destruct H as [Hc Hs]. specialize (IH Hs). cbn [rstrip].
  destruct (rstrip s) as [| d r].
  - destruct (is_space c); [reflexivity |]. cbn [all_chars]. now rewrite Hc.
  - cbn [all_chars] in *. now rewrite Hc, IH.
Qed.

Lemma all_chars_strip (cls : ascii -> bool) (s : string) :
  all_chars cls s = true -> all_chars cls (strip s) = true.
Proof. intros H. now apply all_chars_rstrip, all_chars_lstrip. Qed.

(** The first group of a match of the title pattern has no "*". *)
Lemma title_group_has_no_star (doc : string) (m : Match) :
  In m (finditer true title_pattern doc) ->
  all_chars (none_of "*") (group 1 doc m) = true.
Proof.
  intros Hin. destruct (finditer_sound _ _ _ _ Hin) as (p & prev & Hm).
  unfold match_at, title_pattern in Hm. cbn [match_items] in Hm.
  destruct (at_bol true prev); [| discriminate].
  destruct (first_some _ _) as [[e groups] |] eqn:E; [| discriminate].
  injection Hm as <-.
  apply first_some_In in E. destruct E as (k1 & _ & E).
  apply first_some_In in E. destruct E as (k2 & _ & E).
  apply first_some_In in E. destruct E as (k3 & _ & E).
  destruct (after_prefix "**" _) as [s4 |] eqn:E4; [| discriminate].
  apply first_some_In in E. destruct E as (k4 & Hk4 & E).
  apply counts_bounds in Hk4.
  cbn [lookup_nat List.find fst snd Nat.eqb option_map] in E.
  destruct (after_prefix "**" (drop_chars k4 s4)); [| discriminate].
  injection E as <- <-.
  unfold group, slice. cbn [m_groups lookup_nat List.find fst snd Nat.eqb option_map].
  apply after_prefix_drop in E4. rewrite !drop_chars_drop_chars in E4.
  cbn [String.length] in *.
  match goal with
  | |- context [take_chars ?n (drop_chars ?q doc)] =>
      replace n with k4 by lia;
      replace (drop_chars q doc) with s4
        by (rewrite E4; f_equal; lia)
  end.
  apply (take_run (none_of "*") s4 k4). lia.
Qed.

(** X16. The titles [extract_memory_titles] finds are trimmed and have no
    "*"; so a record whose trimmed title has a "*" in it is never answered
    'exact' by [check_duplicate], whatever the document, not even the
    document its own entry was added to. *)
Theorem starred_title_is_never_exact (memory : Memory) (doc : string) :
  (forall t, In t (extract_memory_titles doc) ->
     all_chars (none_of "*") t = true /\ strip t = t)
  /\ (all_chars (none_of "*") (strip (default "" (title (content memory))))
      = false ->
      fst (check_duplicate memory doc) <> "exact").
Proof.
  assert (Htitles : forall t, In t (extract_memory_titles doc) ->
            all_chars (none_of "*") t = true /\ strip t = t).
  { intros t Hin. unfold extract_memory_titles in Hin.
    apply in_map_iff in Hin. destruct Hin as (m & <- & Hm).
    split; [| apply strip_idempotent].
    apply all_chars_strip. now apply title_group_has_no_star. }
  split; [exact Htitles |].
  intros Hstar Hexact.
  rewrite check_duplicate_eq in Hexact. cbv zeta in Hexact.
  destruct (mem_string _ _) eqn:Em.
  - apply mem_string_In in Em. apply Htitles in Em. destruct Em as [Em _].
    congruence.
  - destruct (List.find _ _); discriminate.
Qed.

Lemma starred_title_is_never_exact_witness :
  fst (check_duplicate
         (MemoryLib.set_metadata
            {| id := "m4"; type := Some "preference";
               content := {| title := Some "Use *args";
                             description := Some "Pass them on";
                             action := None; examples := [] |};
               metadata := Samples.meta; scope_path := None |} Samples.meta)
         ("- **Use *args**" ++ nl)) <> "exact".
Proof.
  refine (proj2 (starred_title_is_never_exact _ _) _).
  vm_compute. reflexivity.
Defined.

(** *** Overlaps *)

Lemma take_chars_le (k : nat) (s : string) :
  (String.length (take_chars k s) <= k)%nat.
Proof.
  revert s. induction k as [| k IH]; intros s.
  - destruct s; simpl; lia.
  - destruct s as [| c s]; [simpl; lia |].
    cbn [take_chars String.length]. specialize (IH s). lia.
Qed.

Lemma preview_length (section_content : string) :
  (String.length (preview section_content) <= 203)%nat
  /\ ((String.length section_content <= 200)%nat ->
      preview section_content = section_content).
Proof.
  unfold preview. destruct (200 <? String.length section_content)%nat eqn:E.
  - apply Nat.ltb_lt in E. split; [| intros; lia].
    rewrite append_length. pose proof (take_chars_le 200 section_content).
    change (String.length "...") with 3%nat. lia.
  - apply Nat.ltb_ge in E. split; [lia | reflexivity].
Qed.

Section Overlaps.

(** The iteration order of a set: each element once. *)
Variable set_list : gset string -> list string.
Hypothesis set_list_NoDup : forall s, NoDup (set_list s).
Hypothesis set_list_elem : forall s w, w ∈ set_list s <-> w ∈ s.

Lemma set_list_length (s : gset string) : length (set_list s) = size s.
Proof.
  apply Permutation_length, NoDup_Permutation.
  - apply set_list_NoDup.
  - apply NoDup_elements.
  - intros w. rewrite set_list_elem, elem_of_elements. reflexivity.
Qed.

(** X17. [check_overlaps] reports, in document order, exactly the sections
    whose content shares at least two keywords with the title and
    description of the record; each report lists between two and five
    keywords, all of them shared and no one twice, and a preview of at most
    203 characters, which is the whole content when that has at most 200. *)
Theorem check_overlaps_spec (memory : Memory) (doc : string) :
  let memory_keywords :=
    keyword_set (default "" (title (content memory)) ++ " "
                 ++ default "" (description (content memory))) in
  let shared :=
    fun section => memory_keywords ∩ keyword_set (sec_content section) in
  let reported :=
    List.filter (fun section => (2 <=? size (shared section))%nat)
      (parse_claude_md_sections doc) in
  check_overlaps set_list memory doc
  = map (fun section =>
           {| section_title := sec_title section;
              overlap_keywords := take 5 (set_list (shared section));
              content_preview := preview (sec_content section) |})
        reported
  /\ forall section, In section reported ->
       let keywords := take 5 (set_list (shared section)) in
       (2 <= length keywords <= 5)%nat
       /\ NoDup keywords
       /\ (forall w, w ∈ keywords ->
             w ∈ memory_keywords /\ w ∈ keyword_set (sec_content section))
       /\ (String.length (preview (sec_content section)) <= 203)%nat
       /\ ((String.length (sec_content section) <= 200)%nat ->
           preview (sec_content section) = sec_content section).
Proof.
  intros memory_keywords shared reported. split.
  - unfold check_overlaps. fold memory_keywords.
    assert (Hmap : forall sections,
              flat_map
                (fun section =>
                   if (2 <=? size (memory_keywords
                                   ∩ keyword_set (sec_content section)))%nat
                   then [{| section_title := sec_title section;
                            overlap_keywords :=
                              take 5 (set_list (memory_keywords
                                        ∩ keyword_set (sec_content section)));
                            content_preview := preview (sec_content section) |}]
                   else [])
                sections
              = map (fun section =>
                       {| section_title := sec_title section;
                          overlap_keywords := take 5 (set_list (shared section));
                          content_preview := preview (sec_content section) |})
                    (List.filter
                       (fun section => (2 <=? size (shared section))%nat)
                       sections)).
    { induction sections as [| section rest IH]; [reflexivity |].
      cbn [flat_map List.filter]. unfold shared at 2.
      destruct (2 <=? size _)%nat; cbn [map app]; now rewrite IH. }
    destruct (is_empty_set memory_keywords) eqn:E; [| apply Hmap].
    apply is_empty_set_true in E. subst reported.
    assert (Hnone : forall sections,
              List.filter (fun section => (2 <=? size (shared section))%nat)
                sections = []).
    { induction sections as [| section rest IH]; [reflexivity |].
      cbn [List.filter]. unfold shared at 1. rewrite E.
      rewrite (left_absorb_L ∅ (∩)), size_empty. exact IH. }
    now rewrite Hnone.
  - intros section Hin keywords. subst reported keywords.
    apply filter_In in Hin. destruct Hin as [_ Hsize].
    apply Nat.leb_le in Hsize.
    split; [rewrite length_take, set_list_length; lia |].
    split; [eapply sublist_NoDup; [apply set_list_NoDup | apply sublist_take] |].
    split; [| apply preview_length].
    intros w Hw.
    assert (Hs : w ∈ shared section).
    { apply set_list_elem. eapply elem_of_sublist; [exact Hw | apply sublist_take]. }
    unfold shared in Hs. set_solver.
Qed.

End Overlaps.

Lemma check_overlaps_spec_witness :
  map section_title
    (check_overlaps elements Samples.workflow_memory Samples.testing_doc)
  = ["Testing"]
  /\ forall section,
       In section
         (List.filter
            (fun section =>
               (2 <=? size (keyword_set "Run tests Run the tests before a commit"
                            ∩ keyword_set (sec_content section)))%nat)
            (parse_claude_md_sections Samples.testing_doc)) ->
       (2 <= length
               (take 5 (elements
                  (keyword_set "Run tests Run the tests before a commit"
                   ∩ keyword_set (sec_content section)))) <= 5)%nat.
Proof.
  pose proof (check_overlaps_spec elements
                (fun s => NoDup_elements s)
                (fun s w => elem_of_elements s w)
                Samples.workflow_memory Samples.testing_doc) as [Heq Hall].
  split.
  - rewrite Heq. vm_compute. reflexivity.
  - intros section Hin. exact (proj1 (Hall section Hin)).
Defined.

(** *** An entry that was added is found again *)

Lemma run_length_stop (cls : ascii -> bool) (a : string) (c : ascii)
    (b : string) :
  cls c = false ->
  (run_length cls None (a ++ String c b) <= String.length a)%nat.
Proof.
  intros Hc. induction a as [| x a IH].
  - rewrite append_empty_l. cbn [run_length]. rewrite Hc. simpl. lia.
  - rewrite append_cons. cbn [run_length String.length].
    destruct (cls x); lia.
Qed.

Lemma run_length_all_stop (cls : ascii -> bool) (a : string) (c : ascii)
    (b : string) :
  all_chars cls a = true -> cls c = false ->
  run_length cls None (a ++ String c b) = String.length a.
Proof.
  intros Ha Hc. induction a as [| x a IH].
  - rewrite append_empty_l. cbn [run_length]. now rewrite Hc.
  - rewrite append_cons. cbn [all_chars] in Ha.
    apply andb_true_iff in Ha. destruct Ha as [Hx Ha].
    cbn [run_length String.length]. rewrite Hx. f_equal. now apply IH.
Qed.

Lemma all_chars_drop (cls : ascii -> bool) (k : nat) (s : string) :
  all_chars cls s = true -> all_chars cls (drop_chars k s) = true.
Proof.
  revert s. induction k as [| k IH]; intros [| c s] H; try exact H.
  cbn [drop_chars]. apply IH. cbn [all_chars] in H.
  now apply andb_true_iff in H.
Qed.

Lemma drop_chars_empty (k : nat) (s : string) :
  (k <= String.length s)%nat -> drop_chars k s = "" -> k = String.length s.
Proof.
  revert s. induction k as [| k IH]; intros [| c s] Hk H; simpl in *;
    try reflexivity; try discriminate; try lia.
  f_equal. apply IH; [lia | exact H].
Qed.

Lemma all_chars_app (cls : ascii -> bool) (a b : string) :
  all_chars cls (a ++ b) = all_chars cls a && all_chars cls b.
Proof.
  induction a as [| c a IH]; [now rewrite append_empty_l |].
  rewrite append_cons. cbn [all_chars]. now rewrite IH, andb_assoc.
Qed.

Lemma take_chars_app (a b : string) : take_chars (String.length a) (a ++ b) = a.
Proof.
  induction a as [| c a IH]; [rewrite append_empty_l; now destruct b |].
  rewrite append_cons. cbn [String.length take_chars]. now rewrite IH.
Qed.

Lemma drop_chars_app (a b : string) : drop_chars (String.length a) (a ++ b) = b.
Proof.
  induction a as [| c a IH]; [now rewrite append_empty_l |].
  rewrite append_cons. exact IH.
Qed.

(** The title pattern matches at the start of an entry, and its group is
    the title. *)
Lemma title_match_at_entry (prev : option ascii) (pos : nat) (t rest : string) :
  at_bol true prev = true ->
  all_chars (none_of "*") t = true ->
  t <> "" ->
  exists m,
    match_at true title_pattern prev pos ("- **" ++ t ++ "**" ++ rest) = Some m
    /\ m_groups m
       = [(1, (pos + 4, pos + 4 + String.length t))]%nat.
Proof.
  intros Hbol Ht Hne.
  rewrite !append_cons, !append_empty_l.
  unfold match_at, title_pattern. cbn [match_items]. rewrite Hbol.
  set (tail := t ++ String "*" (String "*" rest)).
  change (run_length is_space None
            (String "-" (String " " (String "*" (String "*" tail)))))
    with 0%nat.
  change (counts 0 0 true) with [0%nat].
  cbn [first_some char_before drop_chars].
  change (run_length (one_of "-*") (Some 1)
            (String "-" (String " " (String "*" (String "*" tail)))))
    with 1%nat.
  change (counts 1 1 true) with [1%nat].
  cbn [first_some char_before drop_chars].
  change (run_length is_space None (String " " (String "*" (String "*" tail))))
    with 1%nat.
  change (counts 0 1 true) with [1%nat; 0%nat].
  cbn [first_some char_before drop_chars after_prefix].
  change (Ascii.eqb "*" "*") with true. cbn iota.
  unfold tail.
  rewrite (run_length_all_stop (none_of "*") t "*" (String "*" rest) Ht eq_refl).
  assert (Hlen : (1 <= String.length t)%nat)
    by (destruct t; [congruence | simpl; lia]).
  destruct (counts_greedy_head 1 (String.length t) Hlen) as (others & ->).
  cbn [first_some lookup_nat List.find fst snd Nat.eqb option_map].
  rewrite drop_chars_app. cbn [after_prefix].
  change (Ascii.eqb "*" "*") with true. cbn iota.
  eexists. split; [reflexivity |]. cbn [m_groups String.length].
  match goal with
  | |- [(_, (?a, ?b))] = [(_, (?c, ?d))] =>
      replace a with c by lia; replace b with d by lia; reflexivity
  end.
Qed.

(** A match of the title pattern that starts in text without "*" before an
    entry runs into the entry, and its group is the title of the entry. *)
Lemma title_match_before_entry (prev : option ascii) (pos : nat)
    (pre t rest : string) (m : Match) :
  all_chars (none_of "*") pre = true ->
  all_chars (none_of "*") t = true ->
  match_at true title_pattern prev pos (pre ++ "- **" ++ t ++ "**" ++ rest)
  = Some m ->
  m_groups m
  = [(1, (pos + String.length pre + 4,
          pos + String.length pre + 4 + String.length t))]%nat.
Proof.
  intros Hpre Ht Hm.
  rewrite !append_cons, !append_empty_l in Hm.
  unfold match_at, title_pattern in Hm. cbn [match_items] in Hm.
  destruct (at_bol true prev); [| discriminate].
  destruct (first_some _ _) as [[e groups] |] eqn:E; [| discriminate].
  injection Hm as <-. cbn [m_groups].
  apply first_some_In in E. destruct E as (k1 & Hk1 & E).
  apply first_some_In in E. destruct E as (k2 & Hk2 & E).
  apply first_some_In in E. destruct E as (k3 & Hk3 & E).
  destruct (after_prefix "**" _) as [s4 |] eqn:E4; [| discriminate].
  apply first_some_In in E. destruct E as (k4 & Hk4 & E).
  cbn [lookup_nat List.find fst snd Nat.eqb option_map] in E.
  destruct (after_prefix "**" (drop_chars k4 s4)) eqn:E5; [| discriminate].
  injection E as <- <-.
  apply counts_bounds in Hk1, Hk2, Hk3, Hk4.
  set (tail := t ++ String "*" (String "*" rest)) in *.
  (* the white space before the bullet ends within [pre] *)
  assert (H1 : (k1 <= String.length pre)%nat).
  { pose proof (run_length_stop is_space pre "-"
                  (String " " (String "*" (String "*" tail))) eq_refl). lia. }
  rewrite (drop_chars_extend k1 pre _ H1) in Hk2, Hk3, E4.
  pose proof (all_chars_drop (none_of "*") k1 pre Hpre) as Hpre1.
  destruct (drop_chars k1 pre) as [| c pre2] eqn:Epre1.
  - (* the bullet is the one of the entry *)
    apply drop_chars_empty in Epre1; [| exact H1]. subst k1.
    rewrite append_empty_l in Hk2, Hk3, E4.
    assert (k2 = 1%nat).
    { pose proof (run_length_le_bound (one_of "-*") 1
                    (String "-" (String " " (String "*" (String "*" tail))))).
      lia. }
    subst k2. cbn [drop_chars] in Hk3, E4.
    change (run_length is_space None
              (String " " (String "*" (String "*" tail)))) with 1%nat in Hk3.
    assert (k3 = 1%nat).
    { destruct k3 as [| [| k3]]; [| reflexivity | lia].
      cbn in E4. discriminate. }
    subst k3. cbn [drop_chars after_prefix] in E4.
    change (Ascii.eqb "*" "*") with true in E4. cbn iota in E4.
    injection E4 as <-. unfold tail in Hk4, E5.
    rewrite (run_length_all_stop (none_of "*") t "*" (String "*" rest) Ht eq_refl)
      in Hk4.
    assert (k4 = String.length t).
    { destruct (Nat.eq_dec k4 (String.length t)) as [| Hneq]; [assumption |].
      exfalso. rewrite drop_chars_extend in E5 by lia.
      pose proof (all_chars_drop (none_of "*") k4 t Ht) as Hd.
      destruct (drop_chars k4 t) as [| d r] eqn:Ed.
      - apply drop_chars_empty in Ed; lia.
      - rewrite append_cons in E5. cbn [after_prefix] in E5.
        cbn [all_chars] in Hd. apply andb_true_iff in Hd.
        destruct Hd as [Hd _]. unfold none_of, one_of in Hd.
        destruct (Ascii.eqb "*" d) eqn:Estar; [| discriminate].
        apply Ascii.eqb_eq in Estar. subst d. discriminate. }
    subst k4. cbn [String.length].
    match goal with
    | |- [(_, (?a, ?b))] = [(_, (?c, ?d))] =>
        replace a with c by lia; replace b with d by lia; reflexivity
    end.
  - (* a bullet inside [pre] is not followed by "**" *)
    exfalso. rewrite append_cons in Hk2, Hk3, E4.
    assert (k2 = 1%nat).
    { pose proof (run_length_le_bound (one_of "-*") 1
                    (String c (pre2 ++ String "-" (String " " (String "*"
                                 (String "*" tail)))))). lia. }
    subst k2. cbn [drop_chars] in Hk3, E4.
    cbn [all_chars] in Hpre1. apply andb_true_iff in Hpre1.
    destruct Hpre1 as [_ Hpre2].
    assert (H3 : (k3 <= String.length pre2)%nat).
    { pose proof (run_length_stop is_space pre2 "-"
                    (String " " (String "*" (String "*" tail))) eq_refl). lia. }
    rewrite (drop_chars_extend k3 pre2 _ H3) in E4.
    pose proof (all_chars_drop (none_of "*") k3 pre2 Hpre2) as Hpre3.
    destruct (drop_chars k3 pre2) as [| d pre4].
    + rewrite append_empty_l in E4. cbn in E4. discriminate.
    + rewrite append_cons in E4. cbn [after_prefix] in E4.
      cbn [all_chars] in Hpre3. apply andb_true_iff in Hpre3.
      destruct Hpre3 as [Hd _]. unfold none_of, one_of in Hd.
      destruct (Ascii.eqb "*" d) eqn:Estar; [| discriminate].
      apply Ascii.eqb_eq in Estar. subst d. discriminate.
Qed.

(** Among the titles read from a text that has no "*" before an entry
    standing at the beginning of a line is the title of that entry. *)
Lemma finditer_title_entry (pre t rest : string) :
  all_chars (none_of "*") pre = true ->
  all_chars (none_of "*") t = true ->
  t <> "" ->
  forall (prev : option ascii) (pos : nat),
    at_bol true (char_before (String.length pre) prev pre) = true ->
    exists m,
      In m (finditer_from true title_pattern 0 prev pos
              (pre ++ "- **" ++ t ++ "**" ++ rest))
      /\ m_groups m
         = [(1, (pos + String.length pre + 4,
                 pos + String.length pre + 4 + String.length t))]%nat.
Proof.
  intros Hpre Ht Hne. induction pre as [| c pre IH]; intros prev pos Hbol.
  - rewrite append_empty_l. cbn [String.length char_before] in Hbol.
    destruct (title_match_at_entry prev pos t rest Hbol Ht Hne)
      as (m & Hm & Hg).
    exists m. split.
    + rewrite !append_cons, !append_empty_l in *.
      cbn [finditer_from]. rewrite Hm. now left.
    + rewrite Hg. cbn [String.length].
      match goal with
      | |- [(_, (?a, ?b))] = [(_, (?c, ?d))] =>
          replace a with c by lia; replace b with d by lia; reflexivity
      end.
  - cbn [all_chars] in Hpre. apply andb_true_iff in Hpre.
    destruct Hpre as [Hc Hpre]. cbn [String.length char_before] in Hbol.
    destruct (match_at true title_pattern prev pos
                (String c pre ++ "- **" ++ t ++ "**" ++ rest))
      as [m |] eqn:Hm.
    + exists m. split.
      * rewrite append_cons in *. cbn [finditer_from]. rewrite Hm. now left.
      * apply (title_match_before_entry prev pos (String c pre) t rest m);
          [cbn [all_chars]; now rewrite Hc, Hpre | exact Ht | exact Hm].
    + destruct (IH Hpre (Some c) (S pos) Hbol) as (m & Hin & Hg).
      exists m. split.
      * rewrite append_cons in *. cbn [finditer_from]. rewrite Hm. exact Hin.
      * rewrite Hg. cbn [String.length].
        match goal with
        | |- [(_, (?a, ?b))] = [(_, (?c, ?d))] =>
            replace a with c by lia; replace b with d by lia; reflexivity
        end.
Qed.

(** The same for [extract_memory_titles]: the entry may stand at the
    beginning of the text or after a line break. *)
Lemma entry_title_extracted (pre t rest : string) :
  all_chars (none_of "*") pre = true ->
  all_chars (none_of "*") t = true ->
  t <> "" ->
  at_bol true (char_before (String.length pre) None pre) = true ->
  In (strip t) (extract_memory_titles (pre ++ "- **" ++ t ++ "**" ++ rest)).
Proof.
  intros Hpre Ht Hne Hbol.
  destruct (finditer_title_entry pre t rest Hpre Ht Hne None 0 Hbol)
    as (m & Hin & Hg).
  unfold extract_memory_titles. apply in_map_iff. exists m.
  split; [| exact Hin]. f_equal.
  unfold group, slice. rewrite Hg.
  cbn [lookup_nat List.find fst snd Nat.eqb option_map].
  replace (0 + String.length pre + 4 + String.length t
           - (0 + String.length pre + 4))%nat
    with (String.length t) by lia.
  replace (0 + String.length pre + 4)%nat
    with (String.length (pre ++ "- **")) by (rewrite append_length; simpl; lia).
  rewrite <- (append_assoc pre "- **").
  rewrite drop_chars_app. apply take_chars_app.
Qed.

Lemma line_start_at_bol (pre : string) :
  pre = "" \/ (exists p, pre = p ++ String newline "") ->
  at_bol true (char_before (String.length pre) None pre) = true.
Proof.
  intros [-> | (p & ->)]; [reflexivity |].
  pose proof (char_before_last p newline "" None) as H.
  rewrite append_empty_r in H. rewrite H. reflexivity.
Qed.

Lemma split_lines_all_chars (cls : ascii -> bool) (doc : string) :
  all_chars cls doc = true -> Forall (fun l => all_chars cls l = true) (split_lines doc).
Proof.
  induction doc as [| c doc IH]; intros H.
  - constructor; [reflexivity | constructor].
  - cbn [all_chars] in H. apply andb_true_iff in H. destruct H as [Hc H].
    specialize (IH H). cbn [split_lines].
    destruct (Ascii.eqb c newline).
    + constructor; [reflexivity | exact IH].
    + destruct (split_lines doc) as [| line lines].
      * constructor; [cbn [all_chars]; now rewrite Hc | constructor].
      * inversion IH as [| ? ? Hl Hls]; subst.
        constructor; [cbn [all_chars]; now rewrite Hc, Hl | exact Hls].
Qed.

(** The text around an item of joined lines: what is before it ends a
    line. *)
Lemma join_lines_around (cls : ascii -> bool) (l1 l2 : list string) (x : string) :
  cls newline = true ->
  Forall (fun l => all_chars cls l = true) l1 ->
  exists pre rest,
    join_lines (l1 ++ x :: l2)%list = pre ++ x ++ rest
    /\ all_chars cls pre = true
    /\ (pre = "" \/ exists p, pre = p ++ String newline "").
Proof.
  intros Hnl Hl1. induction Hl1 as [| a l1 Ha Hl1 IH].
  - exists "". cbn [app]. destruct l2 as [| y l2].
    + exists "". cbn [join_lines]. rewrite append_empty_l, append_empty_r.
      repeat split. now left.
    + exists (String newline (join_lines (y :: l2))).
      rewrite append_empty_l. repeat split. now left.
  - destruct IH as (pre & rest & Heq & Hpre & Hend).
    exists (a ++ String newline pre), rest. split; [| split].
    + cbn [app]. change (join_lines (a :: (l1 ++ x :: l2)%list))
        with (match (l1 ++ x :: l2)%list with
              | [] => a
              | _ :: _ => a ++ String newline (join_lines (l1 ++ x :: l2)%list)
              end).
      destruct (l1 ++ x :: l2)%list eqn:E;
        [destruct l1; discriminate |].
      rewrite Heq, append_assoc, append_cons. reflexivity.
    + rewrite all_chars_app. cbn [all_chars]. now rewrite Ha, Hnl, Hpre.
    + right. destruct Hend as [-> | (p & ->)].
      * exists a. reflexivity.
      * exists (a ++ String newline p).
        now rewrite append_assoc, append_cons.
Qed.

(** The lines [insert_into_section] returns are those it was given, or
    the entry stands among them after lines of the document and empty
    lines. *)
Lemma insert_into_lines_shape (Q : string -> Prop) (section_name entry : string)
    (lines : list string) :
  Q "" -> Forall Q lines ->
  forall in_target_section inserted,
    insert_into_lines section_name entry lines in_target_section inserted
    = lines
    \/ exists l1 l2,
         insert_into_lines section_name entry lines in_target_section inserted
         = (l1 ++ entry :: l2)%list
         /\ Forall Q l1.
Proof.
  intros Hempty Hlines.
  induction Hlines as [| line rest Hline Hrest IH]; intros b1 b2.
  - cbn [insert_into_lines]. destruct (b1 && negb b2); [| now left].
    right. exists [""], []. split; [reflexivity | now constructor].
  - cbn [insert_into_lines]. destruct (is_match _).
    + destruct (IH true b2) as [-> | (l1 & l2 & -> & Hl1)]; [now left |].
      right. exists (line :: l1), l2. split; [reflexivity | now constructor].
    + destruct (b1 && negb b2 && leaves_section 2 line).
      * right. exists [], (("" : string) :: line
                         :: insert_into_lines section_name entry rest false true).
        split; [reflexivity | constructor].
      * destruct (IH b1 b2) as [-> | (l1 & l2 & -> & Hl1)]; [now left |].
        right. exists (line :: l1), l2.
        split; [reflexivity | now constructor].
Qed.

Lemma insert_after_lines_shape (Q : string -> Prop) (section_name text : string)
    (lines : list string) :
  Forall Q lines ->
  forall in_section level,
    insert_after_lines section_name text lines in_section level = lines
    \/ exists l1 l2,
         insert_after_lines section_name text lines in_section level
         = (l1 ++ text :: l2)%list
         /\ Forall Q l1.
Proof.
  intros Hlines.
  induction Hlines as [| line rest Hline Hrest IH]; intros b level.
  - cbn [insert_after_lines]. destruct b; [| now left].
    right. exists [], []. split; [reflexivity | constructor].
  - cbn [insert_after_lines].
    destruct (re_match false (after_header_pattern section_name) line) as [m |].
    + destruct (IH true (String.length (group 1 line m)))
        as [-> | (l1 & l2 & -> & Hl1)]; [now left |].
      right. exists (line :: l1), l2. split; [reflexivity | now constructor].
    + destruct (b && leaves_section level line).
      * right. exists [], (("" : string) :: line
                         :: insert_after_lines section_name text rest false level).
        split; [reflexivity | constructor].
      * destruct (IH b level) as [-> | (l1 & l2 & -> & Hl1)]; [now left |].
        right. exists (line :: l1), l2.
        split; [reflexivity | now constructor].
Qed.

Lemma section_of_type_no_star (memory_type : string) :
  all_chars (none_of "*") (section_of_type memory_type) = true.
Proof.
  unfold section_of_type.
  repeat (destruct (String.eqb memory_type _); [reflexivity |]).
  reflexivity.
Qed.

(** The entry of a record begins with its title in bold. *)
Lemma format_memory_entry_title (memory : Memory) (t entry : string) :
  title (content memory) = Some t ->
  format_memory_entry memory = Some entry ->
  exists rest, entry = "- **" ++ t ++ "**" ++ rest.
Proof.
  intros Ht He. unfold format_memory_entry in He. rewrite Ht in He.
  destruct (description (content memory)) as [d |]; [| discriminate].
  injection He as <-. eexists. rewrite !append_assoc. reflexivity.
Qed.

(** A text with the entry of a record in it, at the beginning of a line and
    with no "*" before it, makes the record an exact duplicate. *)
Lemma entry_makes_exact (memory : Memory) (t entry pre rest : string) :
  title (content memory) = Some t ->
  t <> "" ->
  all_chars (none_of "*") t = true ->
  format_memory_entry memory = Some entry ->
  all_chars (none_of "*") pre = true ->
  pre = "" \/ (exists p, pre = p ++ String newline "") ->
  check_duplicate memory (pre ++ entry ++ rest) = ("exact", Some (strip t)).
Proof.
  intros Ht Hne Hstar He Hpre Hend.
  destruct (format_memory_entry_title memory t entry Ht He) as (more & ->).
  rewrite check_duplicate_eq. cbv zeta. rewrite Ht. cbn [default].
  unfold Datatypes.id.
  replace (mem_string (strip t) _) with true; [reflexivity |].
  symmetry. apply mem_string_In.
  rewrite !append_assoc.
  apply entry_title_extracted; try assumption.
  now apply line_start_at_bol.
Qed.

(** X18. Adding a record and looking for it again: when neither the
    document nor the title of the record, which is not empty, has a "*" in
    it, the text [add_to_claude_md] returns is the document itself, the
    entry being lost, or a text in which [check_duplicate] finds the record
    as an exact duplicate, under its trimmed title. *)
Theorem added_entry_is_exact_duplicate (memory : Memory) (doc doc' t : string) :
  title (content memory) = Some t ->
  t <> "" ->
  all_chars (none_of "*") t = true ->
  all_chars (none_of "*") doc = true ->
  add_to_claude_md memory doc = Some doc' ->
  doc' = doc \/ check_duplicate memory doc' = ("exact", Some (strip t)).
Proof.
  intros Ht Hne Hstar Hdoc Hadd. unfold add_to_claude_md in Hadd.
  destruct (type memory) as [ty |]; [| discriminate].
  destruct (format_memory_entry memory) as [entry |] eqn:He; [| discriminate].
  pose proof (split_lines_all_chars _ doc Hdoc) as Hlines.
  pose proof (section_of_type_no_star ty) as Hname.
  set (name := section_of_type ty) in *.
  assert (Happend : check_duplicate memory (append_section doc name entry)
                    = ("exact", Some (strip t))).
  { unfold append_section.
    replace (rstrip doc ++ nl ++ nl ++ "## " ++ name ++ nl ++ nl ++ entry ++ nl)
      with ((rstrip doc ++ nl ++ nl ++ "## " ++ name ++ nl ++ nl)
            ++ entry ++ nl)
      by (now rewrite !append_assoc).
    apply (entry_makes_exact memory t); try assumption.
    - rewrite !all_chars_app, Hname, (all_chars_rstrip _ _ Hdoc). reflexivity.
    - right. exists (rstrip doc ++ nl ++ nl ++ "## " ++ name ++ nl).
      unfold nl. now rewrite !append_assoc. }
  destruct (section_exists doc name).
  - injection Hadd as <-. unfold insert_into_section.
    destruct (insert_into_lines_shape _ name entry (split_lines doc)
                eq_refl Hlines false false)
      as [-> | (l1 & l2 & -> & Hl1)].
    + left. apply join_split_lines.
    + right.
      destruct (join_lines_around (none_of "*") l1 l2 entry eq_refl Hl1)
        as (pre & rest & -> & Hpre & Hend).
      now apply (entry_makes_exact memory t).
  - injection Hadd as <-. unfold create_section.
    destruct (parse_claude_md_sections doc); [now right |].
    destruct (index_of name type_order) as [idx |]; [| now right].
    destruct (List.find _ _) as [prev |]; [| now right].
    unfold insert_after_section.
    destruct (insert_after_lines_shape _ prev
                (nl ++ "## " ++ name ++ nl ++ nl ++ entry)
                (split_lines doc) Hlines false 2)
      as [-> | (l1 & l2 & -> & Hl1)].
    + left. apply join_split_lines.
    + right.
      destruct (join_lines_around (none_of "*") l1 l2
                  (nl ++ "## " ++ name ++ nl ++ nl ++ entry) eq_refl Hl1)
        as (pre & rest & -> & Hpre & Hend).
      replace (pre ++ (nl ++ "## " ++ name ++ nl ++ nl ++ entry) ++ rest)
        with ((pre ++ nl ++ "## " ++ name ++ nl ++ nl) ++ entry ++ rest)
        by (now rewrite !append_assoc).
      apply (entry_makes_exact memory t); try assumption.
      * rewrite !all_chars_app, Hname, Hpre. reflexivity.
      * right. exists (pre ++ nl ++ "## " ++ name ++ nl).
        unfold nl. now rewrite !append_assoc.
Qed.

Lemma added_entry_is_exact_duplicate_witness :
  check_duplicate Samples.workflow_memory
    (default "" (add_to_claude_md Samples.workflow_memory Samples.testing_doc))
  = ("exact", Some "Run tests").
Proof.
  destruct (added_entry_is_exact_duplicate Samples.workflow_memory
              Samples.testing_doc
              (default "" (add_to_claude_md Samples.workflow_memory
                             Samples.testing_doc))
              "Run tests" eq_refl ltac:(discriminate) eq_refl eq_refl eq_refl)
    as [H | H].
  - vm_compute in H. discriminate.
  - exact H.
Defined.

End PromoteExtra.

(** ** Further properties of [sync-claude-md.py]: the import *)

Module SyncExtra.
Import Py Re ReProps ReExtra SyncClaudeMd PromoteProps PromoteExtra.
Local Open Scope string_scope.

(** The first group of a match of the rule pattern is a non-empty piece of
    one line. *)
Lemma rule_group_one_line (doc : string) (m : Match) :
  In m (finditer true rule_pattern doc) ->
  all_chars not_newline (group 1 doc m) = true
  /\ (1 <= String.length (group 1 doc m))%nat.
Proof.
  intros Hin. destruct (finditer_sound _ _ _ _ Hin) as (p & prev & Hm).
  unfold match_at, rule_pattern in Hm. cbn [match_items] in Hm.
  destruct (at_bol true prev); [| discriminate].
  destruct (first_some _ _) as [[e groups] |] eqn:E; [| discriminate].
  injection Hm as <-.
  apply first_some_In in E. destruct E as (k1 & _ & E).
  apply first_some_In in E. destruct E as (k2 & _ & E).
  apply first_some_In in E. destruct E as (k3 & _ & E).
  apply first_some_In in E. destruct E as (k4 & Hk4 & E).
  apply counts_bounds in Hk4.
  cbn [lookup_nat List.find fst snd Nat.eqb option_map] in E.
  destruct (at_eol true _); [| discriminate].
  injection E as <- <-.
  unfold group, slice. cbn [m_groups lookup_nat List.find fst snd Nat.eqb option_map].
  rewrite !drop_chars_drop_chars in Hk4.
  match goal with
  | |- context [take_chars ?n (drop_chars ?q doc)] =>
      replace n with k4 by lia
  end.
  match type of Hk4 with
  | context [run_length _ _ (drop_chars ?q doc)] =>
      match goal with
      | |- context [take_chars _ (drop_chars ?q' doc)] =>
          replace q' with q by lia
      end
  end.
  match type of Hk4 with
  | context [run_length ?cls None ?s] =>
      destruct (take_run cls s k4 ltac:(lia)) as [Hlen Hall]
  end.
  rewrite Hlen, Hall. split; [reflexivity | lia].
Qed.

(** The rule pattern matches nowhere in the empty rest of a subject, and
    so nowhere beyond a match that ends with the subject. *)
Lemma rule_pattern_skip_rest (s : string) :
  forall (prev : option ascii) (pos : nat),
    finditer_from true rule_pattern (String.length s) prev pos s = [].
Proof.
  induction s as [| c s IH]; intros prev pos.
  - cbn [String.length finditer_from]. unfold match_at, rule_pattern.
    cbn [match_items]. destruct (at_bol true prev); reflexivity.
  - cbn [String.length finditer_from]. apply IH.
Qed.

(** A trimmed, non-empty string keeps its ends when trimmed on one side. *)
Lemma strip_fixed_ends (s : string) :
  strip s = s -> s <> "" ->
  rstrip s = s /\ exists c r, s = String c r /\ is_space c = false.
Proof.
  intros Hs Hne. split.
  - rewrite <- Hs at 1. unfold strip. rewrite rstrip_idempotent. exact Hs.
  - unfold strip in Hs. destruct (lstrip_head s) as [E | (c & r & E & Hc)].
    + rewrite E in Hs. cbn in Hs. congruence.
    + rewrite E in Hs. destruct (rstrip_head c r Hc) as (r' & Hr).
      rewrite Hr in Hs. eauto.
Qed.

(** The one match of the rule pattern in a one-line bullet. *)
Lemma rule_pattern_one_bullet (rule : string) :
  all_chars not_newline rule = true ->
  (1 <= String.length rule)%nat ->
  (exists c r, rule = String c r /\ is_space c = false) ->
  potential_rules ("- " ++ rule) = [rule].
Proof.
  intros Hline Hlen (c & r & Hrule & Hc).
  rewrite !append_cons, append_empty_l.
  unfold potential_rules, finditer. cbn [finditer_from].
  assert (Hm : match_at true rule_pattern None 0 (String "-" (String " " rule))
               = Some {| m_start := 0; m_end := 2 + String.length rule;
                         m_groups := [(1, (2, 2 + String.length rule))] |}).
  { unfold match_at, rule_pattern. cbn [match_items at_bol].
    change (run_length is_space None (String "-" (String " " rule))) with 0%nat.
    change (counts 0 0 true) with [0%nat].
    cbn [first_some char_before drop_chars Nat.add].
    change (run_length (one_of "-*") (Some 1) (String "-" (String " " rule)))
      with 1%nat.
    change (counts 1 1 true) with [1%nat].
    cbn [first_some char_before drop_chars Nat.add].
    assert (Hsp : run_length is_space None (String " " rule) = 1%nat).
    { rewrite Hrule. cbn [run_length].
      change (is_space " ") with true. now rewrite Hc. }
    rewrite Hsp. change (counts 1 1 true) with [1%nat].
    cbn [first_some char_before drop_chars Nat.add].
    rewrite (run_length_all _ _ Hline).
    destruct (counts_greedy_head 1 (String.length rule) Hlen) as (rest & ->).
    cbn [first_some lookup_nat List.find fst snd Nat.eqb option_map].
    rewrite drop_chars_all. cbn [at_eol]. reflexivity. }
  rewrite Hm. cbn [m_end map].
  replace (2 + String.length rule - 0 - 1)%nat
    with (String.length (String " " rule)) by (cbn [String.length]; lia).
  cbn [String.length]. rewrite rule_pattern_skip_rest. cbn [map]. f_equal.
  unfold group, slice.
  cbn [m_groups lookup_nat List.find fst snd Nat.eqb option_map drop_chars].
  replace (2 + String.length rule - 2)%nat with (String.length rule) by lia.
  apply take_chars_all. lia.
Qed.

Section ImportedRules.

Variable set_order : list string -> list string.

(** X19. Every record the import creates is drawn from one line of the
    document: its description is at least 10 characters long and has no
    line break; its title is the description when that has at most 60
    characters, and its first 60 characters followed by "..." otherwise,
    so at most 63 characters; its type is one of the five known types; it
    has at most five trigger keywords and the confidence 0.6. *)
Theorem imported_drafts_shape (file_content : string) (d : Draft) :
  In d (import_claude_md_to_memories set_order file_content) ->
  (10 <= String.length (draft_description d))%nat
  /\ all_chars not_newline (draft_description d) = true
  /\ ((String.length (draft_description d) <= 60)%nat ->
      draft_title d = draft_description d)
  /\ ((60 < String.length (draft_description d))%nat ->
      draft_title d = take_chars 60 (draft_description d) ++ "..."
      /\ String.length (draft_title d) = 63%nat)
  /\ In (draft_type d)
       ["preference"; "pattern"; "workflow"; "negative"; "project"]
  /\ (length (draft_keywords d) <= 5)%nat
  /\ (draft_confidence d == 0.6)%Q.
Proof.
  unfold import_claude_md_to_memories. intros Hin.
  apply in_map_iff in Hin. destruct Hin as (rule & <- & Hin).
  apply filter_In in Hin. destruct Hin as [Hin Hlen].
  apply negb_true_iff, Nat.ltb_ge in Hlen.
  unfold potential_rules in Hin. apply in_map_iff in Hin.
  destruct Hin as (m & <- & Hm). apply rule_group_one_line in Hm.
  destruct Hm as [Hline _].
  set (rule := group 1 _ m) in *.
  cbn [draft_description draft_title draft_type draft_keywords
       draft_confidence draft_of_rule].
  split; [exact Hlen |]. split; [exact Hline |].
  split; [| split; [| split; [| split]]].
  - intros Hshort. apply Nat.ltb_ge in Hshort as Hb. rewrite Hb.
    rewrite append_empty_r. now apply take_chars_all.
  - intros Hlong. apply Nat.ltb_lt in Hlong as Hb. rewrite Hb.
    split; [reflexivity |]. rewrite append_length, take_chars_length by lia.
    reflexivity.
  - unfold rule_type.
    repeat match goal with
           | |- context [if ?b then _ else _] => destruct b
           end; cbn [In]; tauto.
  - unfold trigger_keywords. rewrite length_take. lia.
  - reflexivity.
Qed.

(** X20. A document that is one bullet, "- " followed by a rule of at
    least 10 characters on one line, trimmed and without the text
    "memory-sync:", is imported as exactly one record, the one of that
    rule. *)
Theorem one_bullet_is_imported (rule : string) :
  (10 <= String.length rule)%nat ->
  all_chars not_newline rule = true ->
  strip rule = rule ->
  contains "memory-sync:" rule = false ->
  import_claude_md_to_memories set_order ("- " ++ rule)
  = [draft_of_rule set_order rule].
Proof.
  intros Hlen Hline Htrim Hno.
  assert (Hne : rule <> "") by (intros ->; simpl in Hlen; lia).
  destruct (strip_fixed_ends rule Htrim Hne) as (Hr & c & r & Hrule & Hc).
  assert (Hdoc : manual_sections ("- " ++ rule) = "- " ++ rule).
  { unfold manual_sections, sub_empty, auto_sync_pattern.
    rewrite !append_cons, append_empty_l.
    rewrite remove_from_no_marker.
    - unfold strip. cbn [lstrip]. change (is_space "-") with false.
      cbn [rstrip]. rewrite Hr. rewrite Hrule. reflexivity.
    - cbn [contains after_prefix]. change (Ascii.eqb "m" "-") with false.
      change (Ascii.eqb "m" " ") with false. cbn iota. exact Hno. }
  unfold import_claude_md_to_memories. rewrite Hdoc.
  rewrite rule_pattern_one_bullet by (eauto; lia).
  cbn [List.filter]. apply Nat.ltb_ge in Hlen as Hb. rewrite Hb.
  reflexivity.
Qed.

End ImportedRules.

Lemma imported_drafts_shape_witness :
  (10 <= String.length "Run the tests before a commit")%nat
  /\ (length (draft_keywords
                (draft_of_rule (fun l => l) "Run the tests before a commit"))
      <= 5)%nat.
Proof.
  refine (let H := imported_drafts_shape (fun l => l)
                     "- Run the tests before a commit"
                     (draft_of_rule (fun l => l) "Run the tests before a commit")
                     _ in
          conj (proj1 H) (proj1 (proj2 (proj2 (proj2 (proj2 (proj2 H))))))).
  vm_compute. left. reflexivity.
Defined.

Lemma one_bullet_is_imported_witness :
  map draft_description
    (import_claude_md_to_memories (fun l => l)
       "- Run the tests before a commit")
  = ["Run the tests before a commit"].
Proof.
  change "- Run the tests before a commit"
    with ("- " ++ "Run the tests before a commit").
  rewrite (one_bullet_is_imported (fun l => l) "Run the tests before a commit");
    [reflexivity | vm_compute; lia | reflexivity | reflexivity | reflexivity].
Defined.

End SyncExtra.
